(** * gfxlowlevel: a shallow embedding of [src/gfxlowlevel.c]

    The C file is a binding layer over SDL, Vulkan, libplacebo, libavutil
    and libswscale.  Every function is modelled as a computation in a small
    state-and-outcome monad:

    - the state ([world]) holds the heap of the four structures the file
      owns, the heap of [AVFrame]s, and the trace of every external call
      made so far (arguments included);
    - the outcome says how the C function left: by returning a value, by
      [exit], by a failed [assert], or by undefined behaviour (a NULL or
      dangling pointer dereferenced, an array read out of range);
    - what the external libraries answer is not known to this file: it is
      an [oracle], a function of the calls made so far, and every theorem
      is stated for all oracles. *)

From Stdlib Require Import ZArith Lia Bool Ascii String.
From stdpp Require Import gmap strings list fin_maps.

Local Open Scope string_scope.
Local Open Scope list_scope.
Local Open Scope Z_scope.

(** ** C scalars and constants *)

(** Pointers and opaque library handles are integers; [NULL] is 0. *)
Abbreviation ptr := Z (only parsing).
Definition NULL : Z := 0.

(** A C [float] is carried as its IEEE-754 binary32 bit pattern: the file
    copies floats and hands them on, and the one place where it computes
    with them (the rectangle of [pl_dispatch_finish]) is kept symbolic, see
    [scaled]. *)
Abbreviation float := Z (only parsing).

Definition is_null (p : Z) : bool := p =? NULL.
Arguments is_null : simpl never.

(** <errno.h> *)
Definition EINVAL : Z := 22.
Definition ENOMEM : Z := 12.

(** The [int] that a [bool] converts to.  The answer of a function that
    returns [bool] is false when it is 0 and true otherwise. *)
Definition int_of_bool (b : Z) : Z := if b =? 0 then 0 else 1.
Arguments int_of_bool : simpl never.

(** [enum AVPixelFormat], restricted to the enumerators the file names. *)
Inductive AVPixelFormat :=
  | AV_PIX_FMT_VIDEOTOOLBOX
  | AV_PIX_FMT_NV12
  | AV_PIX_FMT_RGBA
  | AV_PIX_FMT_other (n : Z).

Definition is_videotoolbox (f : AVPixelFormat) : bool :=
  match f with AV_PIX_FMT_VIDEOTOOLBOX => true | _ => false end.

Inductive pl_desc_type := PL_DESC_INVALID | PL_DESC_SAMPLED_TEX.
Inductive pl_desc_access := PL_DESC_ACCESS_READWRITE | PL_DESC_ACCESS_READONLY.
Inductive pl_tex_address_mode := PL_TEX_ADDRESS_CLAMP | PL_TEX_ADDRESS_REPEAT.
Inductive pl_tex_sample_mode := PL_TEX_SAMPLE_NEAREST | PL_TEX_SAMPLE_LINEAR.
Inductive pl_shader_sig := PL_SHADER_SIG_NONE | PL_SHADER_SIG_COLOR.
Inductive pl_fmt_type := PL_FMT_UNKNOWN | PL_FMT_FLOAT.
Inductive pl_log_level := PL_LOG_NONE | PL_LOG_WARN.
Inductive VkPresentModeKHR := VK_PRESENT_MODE_FIFO_KHR.
Inductive sws_flags := SWS_BILINEAR.
Inductive seek_whence := SEEK_SET | SEEK_END.

(** ** printf's [%d] and [snprintf]

    An [int] has at most ten decimal digits, so ten rounds of division
    print it in full. *)

Definition digit_char (d : Z) : ascii :=
  ascii_of_nat (48 + Z.to_nat d).

Fixpoint dec_digits (fuel : nat) (n : Z) (acc : string) : string :=
  match fuel with
  | O => acc
  | S fuel' =>
      let acc' := String (digit_char (n mod 10)) acc in
      if n <? 10 then acc' else dec_digits fuel' (n / 10) acc'
  end.

Definition fmt_d (n : Z) : string :=
  if n <? 0 then "-" +:+ dec_digits 10 (- n) "" else dec_digits 10 n "".

(** [snprintf(buf, size, ...)] keeps at most [size - 1] characters. *)
Definition snprintf (size : nat) (s : string) : string :=
  substring 0 (size - 1) s.

Definition nl : string := String (ascii_of_nat 10) "".

Definition strlen (s : string) : Z := Z.of_nat (String.length s).

(** ** Structures *)

(** What the file reads or writes of libplacebo's [struct pl_plane]. *)
Record pl_plane := Pl_plane {
  texture : ptr;
  components : Z;
  component_mapping : list Z
}.

Definition pl_plane_zero : pl_plane := Pl_plane NULL 0 [0; 0; 0; 0].

(** What the file reads or writes of [struct pl_frame]: the plane count,
    the first plane, the colour representation and the colour space.  All
    the other members travel together as one value, [frame_rest]. *)
Record pl_frame := Pl_frame {
  num_planes : Z;
  planes0 : pl_plane;
  repr : Z;
  color : Z;
  frame_rest : Z
}.

(** [(struct pl_frame){0}] *)
Definition pl_frame_zero : pl_frame := Pl_frame 0 pl_plane_zero 0 0 0.

Definition pl_color_repr_unknown : Z := 0.
Definition pl_color_space_unknown : Z := 0.

(** What the file reads or writes of libavutil's [AVFrame]; the arrays
    [data] and [linesize] are each carried as one value. *)
Record AVFrame := Av_frame {
  format : AVPixelFormat;
  width : Z;
  height : Z;
  data : ptr;
  linesize : Z
}.

Definition set_format (v : AVPixelFormat) (f : AVFrame) : AVFrame :=
  Av_frame v (width f) (height f) (data f) (linesize f).
Definition set_width (v : Z) (f : AVFrame) : AVFrame :=
  Av_frame (format f) v (height f) (data f) (linesize f).
Definition set_height (v : Z) (f : AVFrame) : AVFrame :=
  Av_frame (format f) (width f) v (data f) (linesize f).

(** [struct gfx_lowlevel_frame_ctx] *)
Record gfx_lowlevel_frame_ctx := Frame_ctx {
  is_mapped : bool;
  f_pl_frame : pl_frame;
  tex : list ptr;
  ctx_backref : ptr;
  to_rgba : ptr
}.

(** [struct gfx_lowlevel_gpu_ctx] *)
Record gfx_lowlevel_gpu_ctx := Gpu_ctx {
  shared_window : ptr;
  vk : ptr;
  vk_surface : ptr;
  swchain : ptr;
  swap_frame : Z;
  window_frame : pl_frame;
  renderer : ptr;
  log : ptr;
  started : bool
}.

(** [struct pl_shader_var], as far as the file looks into it. *)
Record pl_shader_var := Shader_var {
  var_name : ptr;
  var_data : ptr
}.

(** [struct gfx_lowlevel_mix_ctx] *)
Record gfx_lowlevel_mix_ctx := Mix_ctx {
  m_ctx : ptr;
  m_prelude : option string;
  m_header : option string;
  m_body : option string;
  m_vars : option (list pl_shader_var);
  m_num_vars : Z;
  dispatch : ptr
}.

(** [struct gfx_lowlevel_lut] *)
Record gfx_lowlevel_lut := Lut {
  lut_filename : option string;
  lut : ptr;
  lut_state : ptr
}.

(** [memset(p, 0, sizeof *p)] on each structure the file allocates. *)
Definition gpu_ctx_zero : gfx_lowlevel_gpu_ctx :=
  Gpu_ctx NULL NULL NULL NULL 0 pl_frame_zero NULL NULL false.
Definition frame_ctx_zero : gfx_lowlevel_frame_ctx :=
  Frame_ctx false pl_frame_zero [NULL; NULL; NULL; NULL] NULL NULL.
Definition mix_ctx_zero : gfx_lowlevel_mix_ctx :=
  Mix_ctx NULL None None None None 0 NULL.
Definition lut_zero : gfx_lowlevel_lut := Lut None NULL NULL.

(** Field updates. *)
Definition set_shared_window (v : Z) (c : gfx_lowlevel_gpu_ctx) :=
  Gpu_ctx v (vk c) (vk_surface c) (swchain c) (swap_frame c) (window_frame c)
          (renderer c) (log c) (started c).
Definition set_vk (v : Z) (c : gfx_lowlevel_gpu_ctx) :=
  Gpu_ctx (shared_window c) v (vk_surface c) (swchain c) (swap_frame c)
          (window_frame c) (renderer c) (log c) (started c).
Definition set_vk_surface (v : Z) (c : gfx_lowlevel_gpu_ctx) :=
  Gpu_ctx (shared_window c) (vk c) v (swchain c) (swap_frame c)
          (window_frame c) (renderer c) (log c) (started c).
Definition set_swchain (v : Z) (c : gfx_lowlevel_gpu_ctx) :=
  Gpu_ctx (shared_window c) (vk c) (vk_surface c) v (swap_frame c)
          (window_frame c) (renderer c) (log c) (started c).
Definition set_swap_frame (v : Z) (c : gfx_lowlevel_gpu_ctx) :=
  Gpu_ctx (shared_window c) (vk c) (vk_surface c) (swchain c) v
          (window_frame c) (renderer c) (log c) (started c).
Definition set_window_frame (v : pl_frame) (c : gfx_lowlevel_gpu_ctx) :=
  Gpu_ctx (shared_window c) (vk c) (vk_surface c) (swchain c) (swap_frame c)
          v (renderer c) (log c) (started c).
Definition set_renderer (v : Z) (c : gfx_lowlevel_gpu_ctx) :=
  Gpu_ctx (shared_window c) (vk c) (vk_surface c) (swchain c) (swap_frame c)
          (window_frame c) v (log c) (started c).
Definition set_log (v : Z) (c : gfx_lowlevel_gpu_ctx) :=
  Gpu_ctx (shared_window c) (vk c) (vk_surface c) (swchain c) (swap_frame c)
          (window_frame c) (renderer c) v (started c).
Definition set_started (v : bool) (c : gfx_lowlevel_gpu_ctx) :=
  Gpu_ctx (shared_window c) (vk c) (vk_surface c) (swchain c) (swap_frame c)
          (window_frame c) (renderer c) (log c) v.

Definition set_is_mapped (v : bool) (f : gfx_lowlevel_frame_ctx) :=
  Frame_ctx v (f_pl_frame f) (tex f) (ctx_backref f) (to_rgba f).
Definition set_f_pl_frame (v : pl_frame) (f : gfx_lowlevel_frame_ctx) :=
  Frame_ctx (is_mapped f) v (tex f) (ctx_backref f) (to_rgba f).
Definition set_tex (v : list Z) (f : gfx_lowlevel_frame_ctx) :=
  Frame_ctx (is_mapped f) (f_pl_frame f) v (ctx_backref f) (to_rgba f).
Definition set_ctx_backref (v : Z) (f : gfx_lowlevel_frame_ctx) :=
  Frame_ctx (is_mapped f) (f_pl_frame f) (tex f) v (to_rgba f).
Definition set_to_rgba (v : Z) (f : gfx_lowlevel_frame_ctx) :=
  Frame_ctx (is_mapped f) (f_pl_frame f) (tex f) (ctx_backref f) v.

Definition set_m_ctx (v : Z) (m : gfx_lowlevel_mix_ctx) :=
  Mix_ctx v (m_prelude m) (m_header m) (m_body m) (m_vars m) (m_num_vars m)
          (dispatch m).
Definition set_m_prelude (v : option string) (m : gfx_lowlevel_mix_ctx) :=
  Mix_ctx (m_ctx m) v (m_header m) (m_body m) (m_vars m) (m_num_vars m)
          (dispatch m).
Definition set_m_header (v : option string) (m : gfx_lowlevel_mix_ctx) :=
  Mix_ctx (m_ctx m) (m_prelude m) v (m_body m) (m_vars m) (m_num_vars m)
          (dispatch m).
Definition set_m_body (v : option string) (m : gfx_lowlevel_mix_ctx) :=
  Mix_ctx (m_ctx m) (m_prelude m) (m_header m) v (m_vars m) (m_num_vars m)
          (dispatch m).
Definition set_m_vars (v : option (list pl_shader_var))
    (m : gfx_lowlevel_mix_ctx) :=
  Mix_ctx (m_ctx m) (m_prelude m) (m_header m) (m_body m) v (m_num_vars m)
          (dispatch m).
Definition set_m_num_vars (v : Z) (m : gfx_lowlevel_mix_ctx) :=
  Mix_ctx (m_ctx m) (m_prelude m) (m_header m) (m_body m) (m_vars m) v
          (dispatch m).
Definition set_dispatch (v : Z) (m : gfx_lowlevel_mix_ctx) :=
  Mix_ctx (m_ctx m) (m_prelude m) (m_header m) (m_body m) (m_vars m)
          (m_num_vars m) v.

Definition set_lut_filename (v : option string) (l : gfx_lowlevel_lut) :=
  Lut v (lut l) (lut_state l).
Definition set_lut (v : Z) (l : gfx_lowlevel_lut) :=
  Lut (lut_filename l) v (lut_state l).
Definition set_lut_state (v : Z) (l : gfx_lowlevel_lut) :=
  Lut (lut_filename l) (lut l) v.

(** ** Values handed to the libraries *)

Record pl_rect2df := Rect2df { x0 : float; y0 : float; x1 : float; y1 : float }.

(** The [int] that C obtains from [factor * extent], a [float] times an
    [int] converted back to [int]. *)
Record scaled := Scaled { factor : float; extent : Z }.

Record pl_rect2d := Rect2d {
  r_x0 : scaled; r_y0 : scaled; r_x1 : scaled; r_y1 : scaled
}.

(** [struct gfx_lowlevel_filter_params] *)
Record gfx_lowlevel_filter_params := Filter_params {
  p_src : pl_rect2df;
  p_dst : pl_rect2df;
  rotation : float;
  p_prelude : option string;
  p_header : option string;
  p_body : option string;
  p_vars : option (list pl_shader_var);
  p_num_vars : Z
}.

(** [struct pl_shader_desc]: the descriptor and its binding. *)
Record pl_shader_desc := Shader_desc {
  desc_name : string;
  desc_type : pl_desc_type;
  desc_binding : Z;
  desc_access : pl_desc_access;
  binding_object : ptr;
  binding_address_mode : pl_tex_address_mode;
  binding_sample_mode : pl_tex_sample_mode
}.

(** [struct pl_shader_va]: [va_data] holds the four vertices that the four
    pointers [verts], [verts + 2], [verts + 4], [verts + 6] point to. *)
Record pl_shader_va := Shader_va {
  attr_name : string;
  attr_offset : Z;
  attr_fmt : ptr;
  va_data : list (float * float)
}.

(** [struct pl_custom_shader] *)
Record pl_custom_shader := Custom_shader {
  cs_description : string;
  cs_prelude : option string;
  cs_header : option string;
  cs_body : option string;
  cs_input : pl_shader_sig;
  cs_output : pl_shader_sig;
  cs_descriptors : list pl_shader_desc;
  cs_num_descriptors : Z;
  cs_variables : option (list pl_shader_var);
  cs_num_variables : Z;
  cs_vertex_attribs : list pl_shader_va;
  cs_num_vertex_attribs : Z;
  cs_constants : ptr;
  cs_num_constants : Z;
  cs_compute : bool
}.

(** [struct pl_dispatch_params] *)
Record pl_dispatch_params := Dispatch_params {
  dp_shader : ptr;
  dp_target : ptr;
  dp_rect : pl_rect2d
}.

(** [struct pl_tex_params] *)
Record pl_tex_params := Tex_params {
  tp_w : Z; tp_h : Z; tp_d : Z; tp_format : ptr;
  tp_sampleable : bool; tp_renderable : bool;
  tp_blit_src : bool; tp_blit_dst : bool
}.

(** [struct pl_vulkan_params] with its [pl_vk_inst_params]. *)
Record pl_vulkan_params := Vulkan_params {
  async_transfer : bool;
  async_compute : bool;
  queue_count : Z;
  extensions : list string;
  num_extensions : Z;
  get_proc_addr : ptr
}.

(** [struct pl_shader_res] and its [info], as far as the file prints them. *)
Record pl_shader_res := Shader_res {
  res_input : Z;
  res_output : Z;
  res_num_descriptors : Z;
  res_num_variables : Z;
  res_num_vertex_attribs : Z;
  res_num_constants : Z;
  res_steps : list string;
  res_num_steps : Z;
  res_glsl : string
}.

(** What [malloc] is asked for: [Malloc k n] is [malloc(sizeof(k) * n)]. *)
Inductive alloc_kind :=
  | K_gpu_ctx | K_frame_ctx | K_mix_ctx | K_lut
  | K_shader_desc | K_shader_va | K_shader_var | K_char | K_float | K_void.

(** ** External calls

    One constructor per function of libc, SDL, Vulkan, libplacebo, libavutil
    and libswscale that the file calls, with the arguments it passes.  Where
    the file has just filled in the [AVFrame] it passes by pointer, the
    frame's content is recorded next to the pointer. *)
Inductive event :=
  (* libc *)
  | Malloc (k : alloc_kind) (n : Z)
  | Free_ptr (k : alloc_kind) (p : Z)
  | Free_buf (k : alloc_kind)
  | Free_str (s : option string)
  | Free_vars (v : option (list pl_shader_var))
  | Fprintf_stderr (msg : string)
  | Fopen (name mode : string)
  | Fseek (f off : Z) (whence : seek_whence)
  | Ftell (f : Z)
  | Fread (f size nmemb : Z)
  | Fclose (f : Z)
  (* SDL and Vulkan *)
  | SDL_GL_SwapWindow (window : Z)
  | SDL_Vulkan_GetVkGetInstanceProcAddr
  | SDL_Vulkan_CreateSurface (window instance : Z)
  | SDL_GetWindowSize (window : Z)
  | VkDestroySurfaceKHR (instance surface : Z)
  (* libplacebo *)
  | Pl_log_create (level : pl_log_level)
  | Pl_log_destroy (l : Z)
  | Pl_vulkan_create (l : Z) (params : pl_vulkan_params)
  | Pl_vulkan_destroy (v : Z)
  | Pl_vulkan_create_swapchain (v surface : Z) (mode : VkPresentModeKHR)
  | Pl_swapchain_destroy (sw : Z)
  | Pl_swapchain_resize (sw w h : Z)
  | Pl_renderer_create (l gpu : Z)
  | Pl_renderer_destroy (r : Z)
  | Pl_swapchain_start_frame (sw : Z)
  | Pl_frame_from_swapchain (swap : Z)
  | Pl_swapchain_swap_buffers (sw : Z)
  | Pl_swapchain_submit_frame (sw : Z)
  | Pl_unmap_avframe (gpu : Z) (frame : pl_frame)
  | Pl_map_avframe_ex (gpu frame : Z) (content : AVFrame) (texs : list Z)
  | Pl_find_named_fmt (gpu : Z) (name : string)
  | Pl_tex_create (gpu : Z) (params : pl_tex_params)
  | Pl_tex_destroy (gpu t : Z)
  | Pl_frame_clear_rgba (gpu : ptr) (frame : pl_frame) (r g b a : float)
  | Pl_dispatch_create (l gpu : Z)
  | Pl_dispatch_destroy (d : Z)
  | Pl_dispatch_begin (d : Z)
  | Pl_dispatch_abort (d sh : Z)
  | Pl_dispatch_finish (d : Z) (params : pl_dispatch_params)
  | Pl_find_vertex_fmt (gpu : Z) (ty : pl_fmt_type) (comps : Z)
  | Pl_shader_custom (sh : Z) (params : pl_custom_shader)
  | Pl_shader_custom_lut (sh l state : Z)
  | Pl_shader_finalize (sh : Z)
  | Pl_lut_parse_cube (l : Z) (contents : string) (size : Z)
  | Pl_lut_free (l : Z)
  | Pl_shader_obj_destroy (o : Z)
  (* libavutil and libswscale *)
  | Sws_getContext (sw sh : Z) (sfmt : AVPixelFormat)
                   (dw dh : Z) (dfmt : AVPixelFormat) (flags : sws_flags)
  | Sws_freeContext (c : Z)
  | Sws_scale (c sdata slinesize y h ddata dlinesize : Z)
  | Av_frame_alloc
  | Av_frame_free (f : Z)
  | Av_frame_get_buffer (f : Z) (content : AVFrame) (align : Z)
  | Av_hwframe_transfer_data (dst : Z) (content : AVFrame) (src flags : Z).

(** The calls into the wrapped GPU and video libraries, as opposed to
    libc. *)
Definition wrapped (e : event) : bool :=
  match e with
  | Malloc _ _ | Free_ptr _ _ | Free_buf _ | Free_str _ | Free_vars _
  | Fprintf_stderr _
  | Fopen _ _ | Fseek _ _ _ | Ftell _ | Fread _ _ _ | Fclose _ => false
  | _ => true
  end.

Definition is_diagnostic (e : event) : bool :=
  match e with Fprintf_stderr _ => true | _ => false end.

(** ** The libraries' answers

    Each function takes the calls made so far, the last of which is the
    call being answered.  [ret_int] is the value returned (an [int], a
    [bool] as 0 or 1, or a pointer); the [out_] functions are what the call
    writes through its pointer arguments.  The last group reads members of
    structures that the libraries own. *)
Record oracle := Oracle {
  ret_int : list event -> Z;
  out_ptr : list event -> Z;
  out_pair : list event -> Z * Z;
  out_frame : list event -> pl_frame;
  out_texs : list event -> list Z;
  out_avframe : list event -> AVFrame;
  out_text : list event -> string;
  out_res : list event -> pl_shader_res;
  vk_instance : Z -> Z;
  vk_gpu : Z -> Z;
  tex_w : Z -> Z;
  tex_h : Z -> Z;
  fmt_num_components : Z -> Z;
  fmt_sample_order : Z -> list Z
}.

(** ** State and outcomes *)

Record world := World {
  gpu_ctxs : gmap Z gfx_lowlevel_gpu_ctx;
  frame_ctxs : gmap Z gfx_lowlevel_frame_ctx;
  mix_ctxs : gmap Z gfx_lowlevel_mix_ctx;
  luts : gmap Z gfx_lowlevel_lut;
  avframes : gmap Z AVFrame;
  trace : list event
}.

Definition set_gpu_ctxs (h : gmap Z gfx_lowlevel_gpu_ctx) (w : world) :=
  World h (frame_ctxs w) (mix_ctxs w) (luts w) (avframes w) (trace w).
Definition set_frame_ctxs (h : gmap Z gfx_lowlevel_frame_ctx) (w : world) :=
  World (gpu_ctxs w) h (mix_ctxs w) (luts w) (avframes w) (trace w).
Definition set_mix_ctxs (h : gmap Z gfx_lowlevel_mix_ctx) (w : world) :=
  World (gpu_ctxs w) (frame_ctxs w) h (luts w) (avframes w) (trace w).
Definition set_luts (h : gmap Z gfx_lowlevel_lut) (w : world) :=
  World (gpu_ctxs w) (frame_ctxs w) (mix_ctxs w) h (avframes w) (trace w).
Definition set_avframes (h : gmap Z AVFrame) (w : world) :=
  World (gpu_ctxs w) (frame_ctxs w) (mix_ctxs w) (luts w) h (trace w).
Definition set_trace (t : list event) (w : world) :=
  World (gpu_ctxs w) (frame_ctxs w) (mix_ctxs w) (luts w) (avframes w) t.

(** How a C function leaves. *)
Inductive outcome (A : Type) :=
  | Ret (a : A)          (* it returns *)
  | Exit (code : Z)      (* it calls exit *)
  | Abort                (* an assert fails *)
  | Fault.               (* undefined behaviour *)
Arguments Ret {A} a.
Arguments Exit {A} code.
Arguments Abort {A}.
Arguments Fault {A}.

Definition M (A : Type) : Type := world -> outcome A * world.

Definition ret {A} (a : A) : M A := fun w => (Ret a, w).

Definition bind {A B} (m : M A) (k : A -> M B) : M B :=
  fun w =>
    match m w with
    | (Ret a, w') => k a w'
    | (Exit c, w') => (Exit c, w')
    | (Abort, w') => (Abort, w')
    | (Fault, w') => (Fault, w')
    end.

Notation "'do' x <- e ; k" := (bind e (fun x => k))
  (at level 10, x name, e at level 100, k at level 200).

Definition exit {A} (code : Z) : M A := fun w => (Exit code, w).
Definition fault {A} : M A := fun w => (Fault, w).

(** [assert(b)], compiled without NDEBUG. *)
Definition assert (b : bool) : M unit :=
  fun w => if b then (Ret tt, w) else (Abort, w).

Definition when (b : bool) (m : M unit) : M unit :=
  if b then m else ret tt.

(** [for (int i = 0; i < n; i++) body(i)], the loop state passed along.
    The body answers [inl s] to go on with state [s] and [inr r] when it
    executes [return r]. *)
Fixpoint for_loop {St R} (fuel : nat) (i : Z) (body : Z -> St -> M (St + R))
    (s : St) : M (St + R) :=
  match fuel with
  | O => ret (inl s)
  | S fuel' =>
      do x <- body i s;
      match x with
      | inl s' => for_loop fuel' (i + 1) body s'
      | inr r => ret (inr r)
      end
  end.

Definition for_upto {St R} (n : Z) (body : Z -> St -> M (St + R)) (s : St)
    : M (St + R) :=
  for_loop (Z.to_nat n) 0 body s.

(** An address that is neither NULL nor in use. *)
Definition fresh_addr {A} (h : gmap Z A) : Z := fresh ({[NULL]} ∪ dom h).

(** ** The program *)

Section Program.

Variable L : oracle.

(** A call that returns a value, and one whose value is not used. *)
Definition call (e : event) : M Z :=
  fun w =>
    let t := trace w ++ [e] in (Ret (ret_int L t), set_trace t w).

Definition call_void (e : event) : M unit :=
  fun w => (Ret tt, set_trace (trace w ++ [e]) w).

(** What the last call wrote through a pointer argument. *)
Definition written {A} (out : oracle -> list event -> A) : M A :=
  fun w => (Ret (out L (trace w)), w).

(** [fprintf(stderr, ...)], given the text after the conversions are
    filled in.  Every format string of the file ends in a newline, which is
    added here. *)
Definition fprintf_stderr (msg : string) : M unit :=
  call_void (Fprintf_stderr (msg +:+ nl)).

(** Reading a member through a library handle. *)
Definition member {A} (get : oracle -> Z -> A) (h : Z) : M A :=
  if is_null h then fault else ret (get L h).

(** Loads and stores on the heap of each structure. *)
Definition load_gpu (p : Z) : M gfx_lowlevel_gpu_ctx :=
  fun w =>
    if is_null p then (Fault, w)
    else match gpu_ctxs w !! p with
         | Some c => (Ret c, w)
         | None => (Fault, w)
         end.

Definition update_gpu (p : Z)
    (f : gfx_lowlevel_gpu_ctx -> gfx_lowlevel_gpu_ctx) : M unit :=
  do c <- load_gpu p;
  fun w => (Ret tt, set_gpu_ctxs (<[p := f c]> (gpu_ctxs w)) w).

Definition load_frame (p : Z) : M gfx_lowlevel_frame_ctx :=
  fun w =>
    if is_null p then (Fault, w)
    else match frame_ctxs w !! p with
         | Some c => (Ret c, w)
         | None => (Fault, w)
         end.

Definition update_frame (p : Z)
    (f : gfx_lowlevel_frame_ctx -> gfx_lowlevel_frame_ctx) : M unit :=
  do c <- load_frame p;
  fun w => (Ret tt, set_frame_ctxs (<[p := f c]> (frame_ctxs w)) w).

Definition load_mix (p : Z) : M gfx_lowlevel_mix_ctx :=
  fun w =>
    if is_null p then (Fault, w)
    else match mix_ctxs w !! p with
         | Some c => (Ret c, w)
         | None => (Fault, w)
         end.

Definition update_mix (p : Z)
    (f : gfx_lowlevel_mix_ctx -> gfx_lowlevel_mix_ctx) : M unit :=
  do c <- load_mix p;
  fun w => (Ret tt, set_mix_ctxs (<[p := f c]> (mix_ctxs w)) w).

Definition load_lut (p : Z) : M gfx_lowlevel_lut :=
  fun w =>
    if is_null p then (Fault, w)
    else match luts w !! p with
         | Some c => (Ret c, w)
         | None => (Fault, w)
         end.

Definition update_lut (p : Z) (f : gfx_lowlevel_lut -> gfx_lowlevel_lut)
    : M unit :=
  do c <- load_lut p;
  fun w => (Ret tt, set_luts (<[p := f c]> (luts w)) w).

Definition load_av (p : Z) : M AVFrame :=
  fun w =>
    if is_null p then (Fault, w)
    else match avframes w !! p with
         | Some c => (Ret c, w)
         | None => (Fault, w)
         end.

Definition update_av (p : Z) (f : AVFrame -> AVFrame) : M unit :=
  do c <- load_av p;
  fun w => (Ret tt, set_avframes (<[p := f c]> (avframes w)) w).

(** [malloc(sizeof(struct ...))] followed by [memset(.., 0, ..)].  Whether
    [malloc] succeeds is the library's answer; the block it returns is at
    an address not in use. *)
Definition malloc_at {A} (k : alloc_kind) (heap : world -> gmap Z A) : M Z :=
  do r <- call (Malloc k 1);
  if is_null r then ret NULL else fun w => (Ret (fresh_addr (heap w)), w).

Definition memset_gpu (p : Z) : M unit :=
  fun w => (Ret tt, set_gpu_ctxs (<[p := gpu_ctx_zero]> (gpu_ctxs w)) w).
Definition memset_frame (p : Z) : M unit :=
  fun w => (Ret tt, set_frame_ctxs (<[p := frame_ctx_zero]> (frame_ctxs w)) w).
Definition memset_mix (p : Z) : M unit :=
  fun w => (Ret tt, set_mix_ctxs (<[p := mix_ctx_zero]> (mix_ctxs w)) w).
Definition memset_lut (p : Z) : M unit :=
  fun w => (Ret tt, set_luts (<[p := lut_zero]> (luts w)) w).

(** [free] of a structure: the call, and the block is gone. *)
Definition free_gpu (p : Z) : M unit :=
  do _ <- call_void (Free_ptr K_gpu_ctx p);
  fun w => (Ret tt, set_gpu_ctxs (delete p (gpu_ctxs w)) w).
Definition free_frame (p : Z) : M unit :=
  do _ <- call_void (Free_ptr K_frame_ctx p);
  fun w => (Ret tt, set_frame_ctxs (delete p (frame_ctxs w)) w).
Definition free_mix (p : Z) : M unit :=
  do _ <- call_void (Free_ptr K_mix_ctx p);
  fun w => (Ret tt, set_mix_ctxs (delete p (mix_ctxs w)) w).
Definition free_lut (p : Z) : M unit :=
  do _ <- call_void (Free_ptr K_lut p);
  fun w => (Ret tt, set_luts (delete p (luts w)) w).

(** [av_frame_alloc]: NULL, or a new frame with the library's defaults. *)
Definition av_frame_alloc : M Z :=
  do r <- call Av_frame_alloc;
  if is_null r then ret NULL
  else
    do f <- written out_avframe;
    fun w =>
      let a := fresh_addr (avframes w) in
      (Ret a, set_avframes (<[a := f]> (avframes w)) w).

(** [av_frame_free(&f)]: the frame is released and [f] becomes NULL. *)
Definition av_frame_free (f : Z) : M Z :=
  do _ <- call_void (Av_frame_free f);
  fun w => (Ret NULL, set_avframes (delete f (avframes w)) w).

(** *** [gfx_lowlevel_gpu_ctx_destroy]

    A [struct gfx_lowlevel_gpu_ctx **] argument is [None] when it is NULL
    and [Some h] when it points to a handle variable holding [h]; the
    function returns what the variable holds at the end.  The libplacebo
    destructors take the address of the handle and reset it to NULL. *)
Definition gfx_lowlevel_gpu_ctx_destroy (ctx : option Z) : M (option Z) :=
  match ctx with
  | None => ret None
  | Some p =>
      if is_null p then ret (Some p)
      else
        do c <- load_gpu p;
        do _ <- when (negb (is_null (renderer c)))
                  (do _ <- call_void (Pl_renderer_destroy (renderer c));
                   update_gpu p (set_renderer NULL));
        do c <- load_gpu p;
        do _ <- when (negb (is_null (swchain c)))
                  (do _ <- call_void (Pl_swapchain_destroy (swchain c));
                   update_gpu p (set_swchain NULL));
        do c <- load_gpu p;
        do _ <- when (negb (is_null (vk_surface c)))
                  (do inst <- member vk_instance (vk c);
                   call_void (VkDestroySurfaceKHR inst (vk_surface c)));
        do c <- load_gpu p;
        do _ <- when (negb (is_null (vk c)))
                  (do _ <- call_void (Pl_vulkan_destroy (vk c));
                   update_gpu p (set_vk NULL));
        do c <- load_gpu p;
        do _ <- when (negb (is_null (log c)))
                  (do _ <- call_void (Pl_log_destroy (log c));
                   update_gpu p (set_log NULL));
        do _ <- free_gpu p;
        ret (Some NULL)
  end.

(** *** [log_callback]

    The function given to [pl_log_create]; it uses neither [priv] nor
    [level]. *)
Definition log_callback (msg : string) : M unit :=
  fprintf_stderr ("[libplacebo] " +:+ msg).

(** *** [gfx_lowlevel_swapwindow] *)
Definition gfx_lowlevel_swapwindow (ctx : Z) : M unit :=
  if is_null ctx then ret tt
  else
    do c <- load_gpu ctx;
    when (negb (is_null (shared_window c)))
      (call_void (SDL_GL_SwapWindow (shared_window c))).

(** *** [gfx_lowlevel_gpu_ctx_init] *)
Definition vulkan_extensions : list string :=
  ["VK_MVK_moltenvk"; "VK_MVK_macos_surface"; "VK_EXT_metal_surface"].

Definition gfx_lowlevel_gpu_ctx_init (window : Z) : M Z :=
  do ctx <- malloc_at K_gpu_ctx gpu_ctxs;
  if is_null ctx then
    do _ <- fprintf_stderr "Failed to allocate memory for gfx_ctx";
    ret NULL
  else
    do _ <- memset_gpu ctx;
    do _ <- update_gpu ctx (set_shared_window window);
    do l <- call (Pl_log_create PL_LOG_WARN);
    do _ <- update_gpu ctx (set_log l);
    if is_null l then
      do _ <- fprintf_stderr "Failed to create libplacebo log";
      do _ <- gfx_lowlevel_gpu_ctx_destroy (Some ctx);
      ret NULL
    else
      do proc <- call SDL_Vulkan_GetVkGetInstanceProcAddr;
      do c <- load_gpu ctx;
      do v <- call (Pl_vulkan_create (log c)
                      (Vulkan_params true true 1 vulkan_extensions
                         (Z.of_nat (length vulkan_extensions)) proc));
      do _ <- update_gpu ctx (set_vk v);
      if is_null v then
        do _ <- fprintf_stderr "Failed to create libplacebo Vulkan context";
        do _ <- gfx_lowlevel_gpu_ctx_destroy (Some ctx);
        ret NULL
      else
        do c <- load_gpu ctx;
        do inst <- member vk_instance (vk c);
        do ok <- call (SDL_Vulkan_CreateSurface window inst);
        do surface <- written out_ptr;
        do _ <- update_gpu ctx (set_vk_surface surface);
        if ok =? 0 then
          do _ <- fprintf_stderr "Failed to create Vulkan surface";
          ret NULL
        else
          do c <- load_gpu ctx;
          do sw <- call (Pl_vulkan_create_swapchain (vk c) (vk_surface c)
                           VK_PRESENT_MODE_FIFO_KHR);
          do _ <- update_gpu ctx (set_swchain sw);
          if is_null sw then
            do _ <- fprintf_stderr "Failed to create libplacebo swapchain";
            do _ <- gfx_lowlevel_gpu_ctx_destroy (Some ctx);
            ret NULL
          else
            do c <- load_gpu ctx;
            do _ <- call_void (SDL_GetWindowSize (shared_window c));
            do size <- written out_pair;
            do ok <- call (Pl_swapchain_resize (swchain c)
                             (fst size) (snd size));
            if ok =? 0 then
              do _ <- fprintf_stderr "Failed to resize swapchain";
              do _ <- gfx_lowlevel_gpu_ctx_destroy (Some ctx);
              ret NULL
            else
              do c <- load_gpu ctx;
              do gpu <- member vk_gpu (vk c);
              do r <- call (Pl_renderer_create (log c) gpu);
              do _ <- update_gpu ctx (set_renderer r);
              if is_null r then
                do _ <- fprintf_stderr "Failed to create libplacebo renderer";
                do _ <- gfx_lowlevel_gpu_ctx_destroy (Some ctx);
                ret NULL
              else ret ctx.

(** *** [gfx_lowlevel_gpu_ctx_handle_resize] *)
Definition gfx_lowlevel_gpu_ctx_handle_resize (ctx width height : Z) : M Z :=
  do bad <- (if is_null ctx then ret true
             else do c <- load_gpu ctx; ret (is_null (swchain c)));
  if (bad : bool) then
    do _ <- fprintf_stderr "Invalid context or swapchain";
    ret (-1)
  else
    do c <- load_gpu ctx;
    do ok <- call (Pl_swapchain_resize (swchain c) width height);
    if ok =? 0 then
      do _ <- fprintf_stderr "Failed to resize swapchain";
      ret (-1)
    else ret 0.

(** *** [gfx_lowlevel_gpu_ctx_start_frame] *)
Definition gfx_lowlevel_gpu_ctx_start_frame (ctx : Z) : M bool :=
  do _ <- assert (negb (is_null ctx));
  do c <- load_gpu ctx;
  do _ <- assert (negb (is_null (swchain c)));
  do _ <- assert (negb (started c));
  do ok <- call (Pl_swapchain_start_frame (swchain c));
  do sf <- written out_ptr;
  do _ <- update_gpu ctx (set_swap_frame sf);
  if ok =? 0 then ret false
  else
    do _ <- update_gpu ctx (set_started true);
    do c <- load_gpu ctx;
    do _ <- call_void (Pl_frame_from_swapchain (swap_frame c));
    do wf <- written out_frame;
    do _ <- update_gpu ctx (set_window_frame wf);
    ret true.

(** *** [gfx_lowlevel_gpu_ctx_finish_frame] *)
Definition gfx_lowlevel_gpu_ctx_finish_frame (ctx : Z) : M Z :=
  do _ <- assert (negb (is_null ctx));
  do c <- load_gpu ctx;
  do _ <- assert (negb (is_null (swchain c)));
  do _ <- assert (started c);
  do _ <- call_void (Pl_swapchain_swap_buffers (swchain c));
  do c <- load_gpu ctx;
  do _ <- call_void (Pl_swapchain_submit_frame (swchain c));
  do _ <- update_gpu ctx (set_started false);
  ret 0.

(** [ctx->vk->gpu] *)
Definition ctx_gpu (ctx : Z) : M Z :=
  do c <- load_gpu ctx;
  member vk_gpu (vk c).

(** *** [gfx_lowlevel_map_frame_ctx]

    The body after the NULL checks is cut in two at the declaration of
    [map_src]: [map_frame_prepare] creates the conversion context, unmaps
    the old frame and downloads a hardware frame; it answers [inr code]
    where the C code returns [code], and [inl (src, tmp)] with the values
    of the two variables otherwise.  [map_frame_convert] is the rest; the
    [bool] that [pl_map_avframe_ex] returns is stored in the [int ret]
    before it is compared with 0. *)
Definition map_frame_prepare (ctx dst src : Z) : M (Z * Z + Z) :=
  do d <- load_frame dst;
  do failed <-
    (if is_null (to_rgba d) then
       do s <- load_av src;
       let src_format :=
         if is_videotoolbox (format s) then AV_PIX_FMT_NV12 else format s in
       do sws_ctx <- call (Sws_getContext (width s) (height s) src_format
                             (width s) (height s) AV_PIX_FMT_RGBA
                             SWS_BILINEAR);
       if is_null sws_ctx then
         do _ <- fprintf_stderr "Failed to create sws context";
         ret true
       else
         do _ <- update_frame dst (set_to_rgba sws_ctx);
         ret false
     else ret false);
  if (failed : bool) then ret (inr ENOMEM)
  else
    do d <- load_frame dst;
    do _ <- when (is_mapped d)
              (do gpu <- ctx_gpu ctx;
               do _ <- call_void (Pl_unmap_avframe gpu (f_pl_frame d));
               do f <- written out_frame;
               update_frame dst (set_f_pl_frame f));
    do s <- load_av src;
    if is_videotoolbox (format s) then
      do tmp <- av_frame_alloc;
      if is_null tmp then
        do _ <- fprintf_stderr "Failed to allocate temporary AVFrame";
        ret (inr ENOMEM)
      else
        do _ <- update_av tmp (set_format AV_PIX_FMT_NV12);
        do t <- load_av tmp;
        do r <- call (Av_hwframe_transfer_data tmp t src 0);
        do f <- written out_avframe;
        do _ <- update_av tmp (fun _ => f);
        if r <? 0 then
          do _ <- fprintf_stderr ("Failed to transfer data " +:+ fmt_d r);
          exit 1
        else ret (inl (tmp, tmp))
    else ret (inl (src, NULL)).

Definition map_frame_convert (ctx dst src tmp : Z) : M Z :=
  do d <- load_frame dst;
  do chosen <-
    (if negb (is_null (to_rgba d)) then
       do rgba_frame <- av_frame_alloc;
       if is_null rgba_frame then
         do _ <- fprintf_stderr "Failed to allocate temporary AVFrame";
         do _ <- av_frame_free tmp;
         ret (inr ENOMEM)
       else
         do s <- load_av src;
         do _ <- update_av rgba_frame (set_width (width s));
         do s <- load_av src;
         do _ <- update_av rgba_frame (set_height (height s));
         do _ <- update_av rgba_frame (set_format AV_PIX_FMT_RGBA);
         do o <- load_av rgba_frame;
         do r <- call (Av_frame_get_buffer rgba_frame o 32);
         do buf <- written out_pair;
         do _ <- update_av rgba_frame
                   (fun f => Av_frame (format f) (width f) (height f)
                                      (fst buf) (snd buf));
         if r <? 0 then
           do _ <- fprintf_stderr
                     ("Failed to allocate hw frame buffer " +:+ fmt_d r);
           do _ <- av_frame_free rgba_frame;
           do _ <- av_frame_free tmp;
           ret (inr r)
         else
           do d <- load_frame dst;
           do s <- load_av src;
           do o <- load_av rgba_frame;
           do r <- call (Sws_scale (to_rgba d) (data s) (linesize s) 0
                           (height s) (data o) (linesize o));
           if r <? 0 then
             do _ <- fprintf_stderr ("Failed to scale frame " +:+ fmt_d r);
             do _ <- av_frame_free rgba_frame;
             do _ <- av_frame_free tmp;
             ret (inr r)
           else ret (inl (rgba_frame, rgba_frame))
     else ret (inl (src, NULL)));
  match chosen with
  | inr code => ret code
  | inl (map_src, rgba_frame) =>
      do d <- load_frame dst;
      do gpu <- ctx_gpu ctx;
      do o <- load_av map_src;
      do ok <- call (Pl_map_avframe_ex gpu map_src o (tex d));
      do f <- written out_frame;
      do t <- written out_texs;
      do _ <- update_frame dst (fun d => set_tex t (set_f_pl_frame f d));
      let r := int_of_bool ok in
      if r <? 0 then
        do _ <- fprintf_stderr "Failed to map AVFrame to libplacebo frame";
        ret r
      else
        do _ <- update_frame dst (set_is_mapped true);
        do _ <- when (negb (is_null tmp))
                  (do _ <- av_frame_free tmp; ret tt);
        do _ <- when (negb (is_null rgba_frame))
                  (do _ <- av_frame_free rgba_frame; ret tt);
        ret 0
  end.

Definition gfx_lowlevel_map_frame_ctx (ctx dst src : Z) : M Z :=
  if is_null ctx || is_null dst || is_null src then
    do _ <- fprintf_stderr "Invalid context or frame";
    ret EINVAL
  else
    do prepared <- map_frame_prepare ctx dst src;
    match prepared with
    | inr code => ret code
    | inl (src', tmp) => map_frame_convert ctx dst src' tmp
    end.

(** *** [gfx_lowlevel_frame_create_texture] *)
Definition gfx_lowlevel_frame_create_texture (ctx frame width height : Z)
    : M Z :=
  if is_null ctx || is_null frame then
    do _ <- fprintf_stderr "Invalid context or frame";
    ret EINVAL
  else
    do gpu <- ctx_gpu ctx;
    do fmt <- call (Pl_find_named_fmt gpu "rgba8");
    if is_null fmt then
      do _ <- fprintf_stderr "Failed to find format";
      ret EINVAL
    else
      do gpu <- ctx_gpu ctx;
      do t <- call (Pl_tex_create gpu
                      (Tex_params width height 0 fmt true true true true));
      do _ <- update_frame frame (fun f => set_tex (<[0%nat := t]> (tex f)) f);
      do f <- load_frame frame;
      if is_null (nth 0 (tex f) NULL) then
        do _ <- fprintf_stderr "Failed to create texture";
        ret EINVAL
      else
        let order := fmt_sample_order L fmt in
        let plane :=
          Pl_plane (nth 0 (tex f) NULL) (fmt_num_components L fmt)
                   [nth 0 order 0; nth 1 order 0; nth 2 order 0;
                    nth 3 order 0] in
        do _ <- update_frame frame
                  (fun f =>
                     set_f_pl_frame
                       (Pl_frame 1 plane pl_color_repr_unknown
                                 pl_color_space_unknown
                                 (frame_rest (f_pl_frame f))) f);
        ret 0.

(** *** [gfx_lowlevel_frame_ctx_init] *)
Definition gfx_lowlevel_frame_ctx_init (ctx : Z) : M Z :=
  if is_null ctx then
    do _ <- fprintf_stderr "Invalid context";
    ret NULL
  else
    do frame <- malloc_at K_frame_ctx frame_ctxs;
    if is_null frame then
      do _ <- fprintf_stderr
                "Failed to allocate memory for gfx_lowlevel_frame";
      ret NULL
    else
      do _ <- memset_frame frame;
      do _ <- update_frame frame (set_ctx_backref ctx);
      ret frame.

(** *** [gfx_lowlevel_frame_ctx_destroy] *)

(** [ctx_backref->vk->gpu] of the frame context at [p]. *)
Definition backref_gpu (p : Z) : M Z :=
  do f <- load_frame p;
  ctx_gpu (ctx_backref f).

(** The condition of the [if], by the short-circuit rule of [&&]. *)
Definition frame_ctx_destroy_guard (frame : option Z) : M bool :=
  match frame with
  | None => ret false
  | Some p =>
      if is_null p then ret false
      else
        do f <- load_frame p;
        if is_null (ctx_backref f) then ret false
        else
          do c <- load_gpu (ctx_backref f);
          if is_null (swchain c) then ret false
          else
            do gpu <- backref_gpu p;
            ret (negb (is_null gpu))
  end.

Definition gfx_lowlevel_frame_ctx_destroy (frame : option Z)
    : M (option Z) :=
  do go <- frame_ctx_destroy_guard frame;
  match frame with
  | Some p =>
      if (go : bool) then
        do f <- load_frame p;
        do _ <- when (is_mapped f)
                  (do gpu <- backref_gpu p;
                   do _ <- call_void (Pl_unmap_avframe gpu (f_pl_frame f));
                   do o <- written out_frame;
                   update_frame p (set_f_pl_frame o));
        do _ <- for_upto (R := Empty_set) 4
                  (fun i _ =>
                     do f <- load_frame p;
                     let t := nth (Z.to_nat i) (tex f) NULL in
                     do _ <- when (negb (is_null t))
                               (do gpu <- backref_gpu p;
                                do _ <- call_void (Pl_tex_destroy gpu t);
                                update_frame p
                                  (fun f =>
                                     set_tex
                                       (<[Z.to_nat i := NULL]> (tex f)) f));
                     ret (inl tt))
                  tt;
        do f <- load_frame p;
        do _ <- when (negb (is_null (to_rgba f)))
                  (call_void (Sws_freeContext (to_rgba f)));
        do _ <- update_frame p (set_is_mapped false);
        do _ <- update_frame p (set_ctx_backref NULL);
        do _ <- update_frame p (set_f_pl_frame pl_frame_zero);
        do _ <- free_frame p;
        ret (Some NULL)
      else ret frame
  | None => ret frame
  end.

(** *** [gfx_lowlevel_frame_clear]

    Arguments that point to data the function only reads ([dst_frame]
    here) are options: [None] is NULL, [Some v] a pointer to [v]. *)
Definition gfx_lowlevel_frame_clear (ctx : ptr)
    (dst_frame : option pl_frame) (r g b a : float) : M Z :=
  match dst_frame with
  | Some frame =>
      if is_null ctx then
        do _ <- fprintf_stderr "Invalid context or frame";
        ret EINVAL
      else
        do gpu <- ctx_gpu ctx;
        do _ <- call_void (Pl_frame_clear_rgba gpu frame r g b a);
        ret 0
  | None =>
      do _ <- fprintf_stderr "Invalid context or frame";
      ret EINVAL
  end.

(** *** [gfx_lowlevel_gpu_ctx_render] *)

(** [descs[i]] *)
Definition shader_desc (i : Z) (frame : pl_frame) : pl_shader_desc :=
  Shader_desc (snprintf 32 ("src_tex" +:+ fmt_d i)) PL_DESC_SAMPLED_TEX i
              PL_DESC_ACCESS_READONLY (texture (planes0 frame))
              PL_TEX_ADDRESS_REPEAT PL_TEX_SAMPLE_LINEAR.

(** [verts[0..7]] *)
Definition corner_verts (src : pl_rect2df) : list float :=
  [x0 src; y0 src; x1 src; y0 src; x0 src; y1 src; x1 src; y1 src].

(** The vertex that [verts + k] points to. *)
Definition vert_at (verts : list float) (k : nat) : float * float :=
  (nth k verts 0, nth (k + 1) verts 0).

(** [attribs[i]] *)
Definition shader_va (i : Z) (fmt : Z) (verts : list Z) : pl_shader_va :=
  Shader_va (snprintf 32 ("src_coord" +:+ fmt_d i)) 0 fmt
            [vert_at verts 0; vert_at verts 2; vert_at verts 4;
             vert_at verts 6].

(** [src_frames[i]], a pointer that is then dereferenced. *)
Definition src_frame_at (src_frames : list (option pl_frame)) (i : Z)
    : M pl_frame :=
  match src_frames !! Z.to_nat i with
  | Some (Some f) => ret f
  | _ => fault
  end.

Definition build_descs (src_frames : list (option pl_frame)) (num_frames : Z)
    : M (list pl_shader_desc + Z) :=
  for_upto num_frames
    (fun i descs =>
       do name <- call (Malloc K_char 32);
       if is_null name then
         do _ <- fprintf_stderr "Failed to allocate memory for shader name";
         do _ <- call_void (Free_buf K_shader_desc);
         ret (inr ENOMEM)
       else
         do f <- src_frame_at src_frames i;
         ret (inl (descs ++ [shader_desc i f])))
    [].

Definition build_attribs (ctx : Z) (params : gfx_lowlevel_filter_params)
    (num_frames : Z) : M (list pl_shader_va + Z) :=
  for_upto num_frames
    (fun i attribs =>
       do name <- call (Malloc K_char 32);
       if is_null name then
         do _ <- fprintf_stderr "Failed to allocate memory for shader name";
         do _ <- call_void (Free_buf K_shader_va);
         do _ <- call_void (Free_buf K_shader_desc);
         ret (inr ENOMEM)
       else
         do verts <- call (Malloc K_float (4 * 2));
         if is_null verts then
           do _ <- fprintf_stderr
                     "Failed to allocate memory for shader vertices";
           do _ <- call_void
                     (Free_str (Some (snprintf 32 ("src_coord" +:+ fmt_d i))));
           do _ <- call_void (Free_buf K_shader_va);
           do _ <- call_void (Free_buf K_shader_desc);
           ret (inr ENOMEM)
         else
           do gpu <- ctx_gpu ctx;
           do fmt <- call (Pl_find_vertex_fmt gpu PL_FMT_FLOAT 2);
           ret (inl (attribs ++ [shader_va i fmt (corner_verts (p_src params))])))
    [].

(** [&sh_params] *)
Definition custom_shader_params (params : gfx_lowlevel_filter_params)
    (descs : list pl_shader_desc) (num_descs : Z)
    (attribs : list pl_shader_va) (num_verts : Z) : pl_custom_shader :=
  Custom_shader "Return src tex" (p_prelude params) (p_header params)
                (p_body params) PL_SHADER_SIG_NONE PL_SHADER_SIG_COLOR
                descs num_descs (p_vars params) (p_num_vars params)
                attribs num_verts NULL 0 false.

(** The [debug] branch after a successful [pl_shader_finalize]. *)
Definition print_shader_res (res : pl_shader_res) : M unit :=
  do _ <- fprintf_stderr "Shader finalized successfully";
  do _ <- fprintf_stderr ("Shader input signature: " +:+ fmt_d (res_input res));
  do _ <- fprintf_stderr
            ("Shader output signature: " +:+ fmt_d (res_output res));
  do _ <- fprintf_stderr
            ("Shader num descriptors: " +:+ fmt_d (res_num_descriptors res));
  do _ <- fprintf_stderr
            ("Shader num variables: " +:+ fmt_d (res_num_variables res));
  do _ <- fprintf_stderr
            ("Shader num vertex attributes: "
             +:+ fmt_d (res_num_vertex_attribs res));
  do _ <- fprintf_stderr
            ("Shader num constants: " +:+ fmt_d (res_num_constants res));
  do _ <- fprintf_stderr ("Input signature: " +:+ fmt_d (res_input res));
  do _ <- fprintf_stderr ("Output signature: " +:+ fmt_d (res_output res));
  do _ <- for_upto (R := Empty_set) (res_num_steps res)
            (fun i _ =>
               match res_steps res !! Z.to_nat i with
               | Some step =>
                   do _ <- fprintf_stderr
                             ("Step " +:+ fmt_d i +:+ ": " +:+ step);
                   ret (inl tt)
               | None => fault
               end)
            tt;
  fprintf_stderr ("GLSL code:" +:+ nl +:+ res_glsl res).

(** The two loops that free the names, and the two arrays. *)
Definition free_names (names : list string) (n : Z) : M unit :=
  do _ <- for_upto (R := Empty_set) n
            (fun i _ =>
               match names !! Z.to_nat i with
               | Some name =>
                   do _ <- call_void (Free_str (Some name)); ret (inl tt)
               | None => fault
               end)
            tt;
  ret tt.

(** The body after the NULL checks is cut in two at the declaration of
    [sh_params]: [render_prepare] begins the shader and builds the two
    arrays; it answers [inr code] where the C code returns [code], and
    [inl (sh, descs, attribs)] otherwise.  [render_dispatch] is the rest. *)
Definition render_prepare (ctx mix_ctx : Z)
    (params : gfx_lowlevel_filter_params)
    (src_frames : list (option pl_frame)) (num_frames : Z)
    : M (Z * list pl_shader_desc * list pl_shader_va + Z) :=
  do m <- load_mix mix_ctx;
  do sh <- call (Pl_dispatch_begin (dispatch m));
  if is_null sh then
    do _ <- fprintf_stderr "Failed to begin dispatch";
    ret (inr EINVAL)
  else
    do descs_mem <- call (Malloc K_shader_desc num_frames);
    if is_null descs_mem then
      do _ <- fprintf_stderr
                "Failed to allocate memory for shader descriptors";
      ret (inr ENOMEM)
    else
      do built <- build_descs src_frames num_frames;
      match built with
      | inr code => ret (inr code)
      | inl descs =>
          do attribs_mem <- call (Malloc K_shader_va num_frames);
          if is_null attribs_mem then
            do _ <- fprintf_stderr
                      "Failed to allocate memory for shader attributes";
            do _ <- call_void (Free_buf K_shader_desc);
            ret (inr ENOMEM)
          else
            do built <- build_attribs ctx params num_frames;
            match built with
            | inr code => ret (inr code)
            | inl attribs => ret (inl (sh, descs, attribs))
            end
      end.

Definition render_dispatch (mix_ctx : Z)
    (params : gfx_lowlevel_filter_params) (dst_frame : pl_frame)
    (num_frames : Z) (lut_ : Z) (debug : bool) (sh : Z)
    (descs : list pl_shader_desc) (attribs : list pl_shader_va) : M Z :=
  let num_descs := num_frames in
  let num_verts := num_frames in
  do ok <- call (Pl_shader_custom sh
                   (custom_shader_params params descs num_descs
                                         attribs num_verts));
  if ok =? 0 then
    do _ <- fprintf_stderr "Failed to create custom shader";
    ret EINVAL
  else
    do _ <- (if is_null lut_ then ret tt
             else
               do l <- load_lut lut_;
               when (negb (is_null (lut l)))
                 (do _ <- call_void
                            (Pl_shader_custom_lut sh (lut l) (lut_state l));
                  do st <- written out_ptr;
                  update_lut lut_ (set_lut_state st)));
    do failed <-
      (if debug then
         do m <- load_mix mix_ctx;
         do _ <- call_void (Pl_dispatch_abort (dispatch m) sh);
         do sh' <- written out_ptr;
         do res <- call (Pl_shader_finalize sh');
         if is_null res then
           do _ <- fprintf_stderr "Failed to finalize shader";
           do _ <- call_void (Free_buf K_shader_va);
           do _ <- call_void (Free_buf K_shader_desc);
           exit 1
         else
           do r <- written out_res;
           do _ <- print_shader_res r;
           ret false
       else
         do m <- load_mix mix_ctx;
         let target := texture (planes0 dst_frame) in
         do w <- member tex_w target;
         do h <- member tex_h target;
         do ok <- call (Pl_dispatch_finish (dispatch m)
                          (Dispatch_params sh target
                             (Rect2d
                                (Scaled (x0 (p_dst params)) w)
                                (Scaled (y0 (p_dst params)) h)
                                (Scaled (x1 (p_dst params)) w)
                                (Scaled (y1 (p_dst params)) h))));
         if ok =? 0 then
           do _ <- fprintf_stderr "Failed to finish dispatch";
           ret true
         else ret false);
    if (failed : bool) then ret EINVAL
    else
      do _ <- free_names (map attr_name attribs) num_verts;
      do _ <- call_void (Free_buf K_shader_va);
      do _ <- free_names (map desc_name descs) num_descs;
      do _ <- call_void (Free_buf K_shader_desc);
      ret 0.

Definition render_body (ctx mix_ctx : Z) (params : gfx_lowlevel_filter_params)
    (dst_frame : pl_frame) (src_frames : list (option pl_frame))
    (num_frames : Z) (lut_ : Z) (debug : bool) : M Z :=
  do prepared <- render_prepare ctx mix_ctx params src_frames num_frames;
  match prepared with
  | inr code => ret code
  | inl (sh, descs, attribs) =>
      render_dispatch mix_ctx params dst_frame num_frames lut_ debug sh descs
                      attribs
  end.

Definition gfx_lowlevel_gpu_ctx_render (ctx mix_ctx : Z)
    (params : option gfx_lowlevel_filter_params)
    (dst_frame : option pl_frame)
    (src_frames : option (list (option pl_frame)))
    (num_frames : Z) (lut_ : Z) (debug : bool) : M Z :=
  match params, dst_frame, src_frames with
  | Some params', Some dst_frame', Some src_frames' =>
      if is_null ctx then
        do _ <- fprintf_stderr "Invalid context or frame";
        ret EINVAL
      else
        render_body ctx mix_ctx params' dst_frame' src_frames' num_frames
                    lut_ debug
  | _, _, _ =>
      do _ <- fprintf_stderr "Invalid context or frame";
      ret EINVAL
  end.

(** *** [gfx_lowlevel_mix_ctx_destroy] *)
Definition gfx_lowlevel_mix_ctx_destroy (mix_ctx : option Z)
    : M (option Z) :=
  match mix_ctx with
  | None => ret None
  | Some p =>
      if is_null p then ret (Some p)
      else
        do m <- load_mix p;
        do _ <- call_void (Free_str (m_prelude m));
        do m <- load_mix p;
        do _ <- call_void (Free_str (m_header m));
        do m <- load_mix p;
        do _ <- call_void (Free_str (m_body m));
        do m <- load_mix p;
        do _ <- for_upto (R := Empty_set) (m_num_vars m)
                  (fun i _ =>
                     match m_vars m with
                     | Some vars =>
                         match vars !! Z.to_nat i with
                         | Some v =>
                             do _ <- call_void (Free_ptr K_char (var_name v));
                             do _ <- call_void (Free_ptr K_void (var_data v));
                             ret (inl tt)
                         | None => fault
                         end
                     | None => fault
                     end)
                  tt;
        do m <- load_mix p;
        do _ <- call_void (Free_vars (m_vars m));
        do m <- load_mix p;
        do _ <- when (negb (is_null (dispatch m)))
                  (do _ <- call_void (Pl_dispatch_destroy (dispatch m));
                   update_mix p (set_dispatch NULL));
        do _ <- free_mix p;
        ret (Some NULL)
  end.

(** *** [gfx_lowlevel_mix_ctx_init] *)

(** [dst = malloc(strlen(s) + 1); strncpy(dst, s, strlen(s) + 1)], with no
    check in between. *)
Definition copy_string (s : option string) (p : Z)
    (set : option string -> gfx_lowlevel_mix_ctx -> gfx_lowlevel_mix_ctx)
    : M unit :=
  match s with
  | None => ret tt
  | Some text =>
      do buf <- call (Malloc K_char (strlen text + 1));
      if is_null buf then fault else update_mix p (set (Some text))
  end.

Definition gfx_lowlevel_mix_ctx_init (ctx : Z)
    (prelude header body : option string)
    (vars : option (list pl_shader_var)) (num_vars : Z) : M Z :=
  if is_null ctx then
    do _ <- fprintf_stderr "Invalid context";
    ret NULL
  else
    do mix_ctx <- malloc_at K_mix_ctx mix_ctxs;
    if is_null mix_ctx then
      do _ <- fprintf_stderr
                "Failed to allocate memory for gfx_lowlevel_mix_ctx";
      ret NULL
    else
      do _ <- memset_mix mix_ctx;
      do _ <- update_mix mix_ctx (set_m_ctx ctx);
      do _ <- copy_string prelude mix_ctx set_m_prelude;
      do _ <- copy_string header mix_ctx set_m_header;
      do _ <- copy_string body mix_ctx set_m_body;
      do var_copy <- call (Malloc K_shader_var num_vars);
      if is_null var_copy then
        do _ <- fprintf_stderr
                  "Failed to allocate memory for shader variables";
        do _ <- gfx_lowlevel_mix_ctx_destroy (Some mix_ctx);
        ret NULL
      else
        do copied <- for_upto (R := Empty_set) num_vars
                       (fun i copy =>
                          match vars with
                          | Some vs =>
                              match vs !! Z.to_nat i with
                              | Some v => ret (inl (copy ++ [v]))
                              | None => fault
                              end
                          | None => fault
                          end)
                       [];
        match copied with
        | inr absurd => match absurd with end
        | inl copy =>
            do _ <- update_mix mix_ctx (set_m_vars (Some copy));
            do _ <- update_mix mix_ctx (set_m_num_vars num_vars);
            do c <- load_gpu ctx;
            do gpu <- ctx_gpu ctx;
            do d <- call (Pl_dispatch_create (log c) gpu);
            do _ <- update_mix mix_ctx (set_dispatch d);
            if is_null d then
              do _ <- fprintf_stderr "Failed to create dispatch";
              do _ <- gfx_lowlevel_mix_ctx_destroy (Some mix_ctx);
              ret NULL
            else ret mix_ctx
        end.

(** *** [gfx_lowlevel_destroy_lut]

    The result pairs the [int] returned with what the handle variable
    holds at the end. *)
Definition gfx_lowlevel_destroy_lut (lut_ : option Z) : M (Z * option Z) :=
  match lut_ with
  | None => ret (0, None)
  | Some p =>
      if is_null p then ret (0, Some p)
      else
        do l <- load_lut p;
        do _ <- call_void (Free_str (lut_filename l));
        do l <- load_lut p;
        do _ <- when (negb (is_null (lut l)))
                  (do _ <- call_void (Pl_lut_free (lut l));
                   update_lut p (set_lut NULL));
        do l <- load_lut p;
        do _ <- when (negb (is_null (lut_state l)))
                  (do _ <- call_void (Pl_shader_obj_destroy (lut_state l));
                   update_lut p (set_lut_state NULL));
        do _ <- free_lut p;
        ret (0, Some NULL)
  end.

(** *** [gfx_lowlevel_init_lut]

    [fread] is asked for [file_size] bytes: the buffer holds at most that
    many of the bytes it read, and the terminator after them. *)
Definition gfx_lowlevel_init_lut (ctx : Z) (lut_filename_ : option string)
    : M Z :=
  match lut_filename_ with
  | None =>
      do _ <- fprintf_stderr "Invalid context or LUT filename";
      ret NULL
  | Some name =>
      if is_null ctx then
        do _ <- fprintf_stderr "Invalid context or LUT filename";
        ret NULL
      else
        do l <- malloc_at K_lut luts;
        if is_null l then
          do _ <- fprintf_stderr "Failed to allocate memory for LUT";
          ret NULL
        else
          do _ <- memset_lut l;
          do buf <- call (Malloc K_char (strlen name + 1));
          if is_null buf then
            do _ <- fprintf_stderr
                      "Failed to allocate memory for LUT filename";
            do _ <- free_lut l;
            ret NULL
          else
            do _ <- update_lut l (set_lut_filename (Some name));
            do file <- call (Fopen name "r");
            if is_null file then
              do _ <- fprintf_stderr "Failed to open LUT file";
              do _ <- call_void (Free_str (Some name));
              do _ <- free_lut l;
              ret NULL
            else
              do _ <- call_void (Fseek file 0 SEEK_END);
              do file_size <- call (Ftell file);
              do _ <- call_void (Fseek file 0 SEEK_SET);
              do contents_mem <- call (Malloc K_char (file_size + 1));
              if is_null contents_mem then
                do _ <- fprintf_stderr
                          "Failed to allocate memory for LUT file contents";
                do _ <- call_void (Fclose file);
                do _ <- call_void (Free_str (Some name));
                do _ <- free_lut l;
                ret NULL
              else
                do _ <- call_void (Fread file 1 file_size);
                do text <- written out_text;
                let file_contents := substring 0 (Z.to_nat file_size) text in
                do _ <- (if file_size <? 0 then fault else ret tt);
                do _ <- call_void (Fclose file);
                do c <- load_gpu ctx;
                do parsed <- call (Pl_lut_parse_cube (log c) file_contents
                                                     file_size);
                do _ <- update_lut l (set_lut parsed);
                do _ <- call_void (Free_buf K_char);
                if is_null parsed then
                  do _ <- fprintf_stderr "Failed to parse LUT file";
                  do _ <- gfx_lowlevel_destroy_lut (Some l);
                  ret NULL
                else ret l
  end.

End Program.

(** ** Sample libraries and states

    Concrete oracles and worlds on which the theorems below are
    instantiated. *)

Definition sample_frame : pl_frame :=
  Pl_frame 1 (Pl_plane 40 4 [0; 1; 2; 3]) 0 0 0.

Definition sample_res : pl_shader_res :=
  Shader_res 0 1 2 0 2 0 ["custom"] 1 "void main() {}".

(** A library whose returned values are given by [answer] and whose other
    outputs are fixed. *)
Definition scripted (answer : list event -> Z) : oracle :=
  Oracle answer (fun _ => 7) (fun _ => (640, 480)) (fun _ => sample_frame)
         (fun _ => [41; 42; 43; 44])
         (fun _ => Av_frame AV_PIX_FMT_NV12 640 480 50 60)
         (fun _ => "LUT_3D_SIZE 2") (fun _ => sample_res)
         (fun _ => 5) (fun _ => 6) (fun _ => 640) (fun _ => 480)
         (fun _ => 4) (fun _ => [0; 1; 2; 3]).

(** Every call succeeds. *)
Definition obliging : oracle := scripted (fun _ => 1).

(** The calls selected by [bad] return [v]; every other call succeeds. *)
Definition failing_at (bad : event -> bool) (v : Z) : oracle :=
  scripted (fun t =>
              match last t with
              | Some e => if bad e then v else 1
              | None => 1
              end).

Definition is_transfer (e : event) : bool :=
  match e with Av_hwframe_transfer_data _ _ _ _ => true | _ => false end.
Definition is_finalize (e : event) : bool :=
  match e with Pl_shader_finalize _ => true | _ => false end.
Definition is_resize (e : event) : bool :=
  match e with Pl_swapchain_resize _ _ _ => true | _ => false end.

Definition empty_world : world := World ∅ ∅ ∅ ∅ ∅ [].

(** A gpu context as [gfx_lowlevel_gpu_ctx_init] leaves it. *)
Definition sample_gpu_ctx : gfx_lowlevel_gpu_ctx :=
  Gpu_ctx 9 1 7 1 0 pl_frame_zero 1 1 false.

(** A frame context as [gfx_lowlevel_frame_ctx_init] leaves it. *)
Definition sample_frame_ctx : gfx_lowlevel_frame_ctx :=
  Frame_ctx false pl_frame_zero [NULL; NULL; NULL; NULL] 1 NULL.

Definition sample_avframe : AVFrame :=
  Av_frame AV_PIX_FMT_VIDEOTOOLBOX 640 480 50 60.

(** One gpu context at address 1, one frame context at address 1 that
    refers to it, one mix context, one LUT, and a VideoToolbox frame. *)
Definition sample_world : world :=
  World {[ 1 := sample_gpu_ctx ]}
        {[ 1 := sample_frame_ctx ]}
        {[ 1 := Mix_ctx 1 None None None (Some []) 0 30 ]}
        {[ 1 := Lut (Some "a.cube") 31 NULL ]}
        {[ 1 := sample_avframe ]}
        [].

(** A VideoToolbox frame whose size and buffers differ from those of the
    frame that the sample libraries write, and the sample world with
    it. *)
Definition hardware_frame : AVFrame :=
  Av_frame AV_PIX_FMT_VIDEOTOOLBOX 1920 1080 90 91.

Definition hardware_world : world :=
  set_avframes {[ 1 := hardware_frame ]} sample_world.

Definition sample_params : gfx_lowlevel_filter_params :=
  Filter_params (Rect2df 10 20 30 40) (Rect2df 0 0 1 1) 0
                None None (Some "color = vec4(1.0);") (Some []) 0.

(** The sample world after its gpu context is destroyed, and the empty
    world after a gpu context is created in it. *)
Definition after_destroy : world :=
  snd (gfx_lowlevel_gpu_ctx_destroy obliging (Some 1) sample_world).

Definition after_init : world :=
  snd (gfx_lowlevel_gpu_ctx_init obliging 9 empty_world).

(** The calls made by a computation started in [w]. *)
Definition new_events {A} (m : M A) (w : world) : list event :=
  drop (length (trace w)) (trace (snd (m w))).

(** ** Vocabulary of the statements *)

(** The computation returns, and its value and final state satisfy [P]. *)
Definition returns {A} (r : outcome A * world) (P : A -> world -> Prop)
    : Prop :=
  match r with
  | (Ret a, w') => P a w'
  | _ => False
  end.

(** If the computation returns, its value and final state satisfy [P]. *)
Definition on_return {A} (r : outcome A * world) (P : A -> world -> Prop)
    : Prop :=
  match r with
  | (Ret a, w') => P a w'
  | _ => True
  end.

(** [gfx_lowlevel_destroy_lut], keeping only what the handle variable
    holds at the end. *)
Definition destroy_lut_handle (h : option Z) : M (option Z) :=
  do r <- gfx_lowlevel_destroy_lut h; ret (snd r).

(** What is asked of a destroy function [D] whose structures live in
    [heap]: a NULL pointer and a pointer to a NULL handle leave everything
    as it is; a call that returns after changing anything has freed the
    structure and left NULL in the handle; and a second call on the handle
    changes nothing. *)
Definition null_safe_idempotent {A} (heap : world -> gmap Z A)
    (D : option Z -> M (option Z)) : Prop :=
  (forall w, D None w = (Ret None, w))
  /\ (forall w, D (Some NULL) w = (Ret (Some NULL), w))
  /\ (forall p w h' w',
        D (Some p) w = (Ret h', w') ->
        (w' <> w -> h' = Some NULL /\ heap w' !! p = None)
        /\ D h' w' = (Ret h', w')).

(** However the computation ends, the part [proj] of the state is as it
    was. *)
Definition keeps {X A} (proj : world -> X) (m : M A) : Prop :=
  forall w, let (_, w') := m w in proj w' = proj w.

(** The computation [m] rejects its arguments: it returns [sentinel] and
    all it does is write one diagnostic. *)
Definition rejects {A} (m : M A) (w : world) (sentinel : A) : Prop :=
  exists msg,
    m w = (Ret sentinel, set_trace (trace w ++ [Fprintf_stderr msg]) w).

(** The two ways in which a destroy function returns. *)
Definition freed_or_untouched {A} (heap : world -> gmap Z A) (p : Z)
    (w : world) (h' : option Z) (w' : world) : Prop :=
  h' = Some p /\ w' = w \/ h' = Some NULL /\ heap w' !! p = None.

(** The calls by which [gfx_lowlevel_gpu_ctx_destroy] releases what the
    context [c] holds, in the order of the source. *)
Definition release_calls (L : oracle) (c : gfx_lowlevel_gpu_ctx)
    : list event :=
  (if is_null (renderer c) then [] else [Pl_renderer_destroy (renderer c)]) ++
  (if is_null (swchain c) then [] else [Pl_swapchain_destroy (swchain c)]) ++
  (if is_null (vk_surface c) then []
   else [VkDestroySurfaceKHR (vk_instance L (vk c)) (vk_surface c)]) ++
  (if is_null (vk c) then [] else [Pl_vulkan_destroy (vk c)]) ++
  (if is_null (log c) then [] else [Pl_log_destroy (log c)]).

(** The five resources of a gpu context. *)
Inductive resource :=
  | R_log | R_vulkan | R_surface | R_swapchain | R_renderer.

Definition acquires (e : event) : option resource :=
  match e with
  | Pl_log_create _ => Some R_log
  | Pl_vulkan_create _ _ => Some R_vulkan
  | SDL_Vulkan_CreateSurface _ _ => Some R_surface
  | Pl_vulkan_create_swapchain _ _ _ => Some R_swapchain
  | Pl_renderer_create _ _ => Some R_renderer
  | _ => None
  end.

Definition releases (e : event) : option resource :=
  match e with
  | Pl_log_destroy _ => Some R_log
  | Pl_vulkan_destroy _ => Some R_vulkan
  | VkDestroySurfaceKHR _ _ => Some R_surface
  | Pl_swapchain_destroy _ => Some R_swapchain
  | Pl_renderer_destroy _ => Some R_renderer
  | _ => None
  end.

Definition init_order : list resource :=
  [R_log; R_vulkan; R_surface; R_swapchain; R_renderer].

(** Whether the context holds the resource. *)
Definition holds (c : gfx_lowlevel_gpu_ctx) (r : resource) : bool :=
  negb (is_null match r with
                | R_log => log c
                | R_vulkan => vk c
                | R_surface => vk_surface c
                | R_swapchain => swchain c
                | R_renderer => renderer c
                end).

(** Every frame handed to [pl_map_avframe_ex] is not the frame [src], has the
    RGBA format, and was allocated, given a buffer and written by [sws_scale]
    in the three calls before.  [prev] holds the calls already passed, the
    last one first. *)
Fixpoint maps_only_converted (src : Z) (prev evs : list event) : Prop :=
  match evs with
  | [] => True
  | e :: rest =>
      match e with
      | Pl_map_avframe_ex _ f o _ =>
          f <> src /\ format o = AV_PIX_FMT_RGBA
          /\ match prev with
             | Sws_scale _ _ _ _ _ ddata dlinesize
               :: Av_frame_get_buffer f' _ _ :: Av_frame_alloc :: _ =>
                 f' = f /\ ddata = data o /\ dlinesize = linesize o
             | _ => False
             end
      | _ => True
      end
      /\ maps_only_converted src (e :: prev) rest
  end.

(** However the computation ends, its final state satisfies [P]. *)
Definition always {A} (r : outcome A * world) (P : world -> Prop) : Prop :=
  match r with (_, w') => P w' end.

(** The calls [t], followed by the call [e] when [b] holds. *)
Definition then_call (b : bool) (t : list event) (e : event) : list event :=
  if b then t ++ [e] else t.

(** What a call of [gfx_lowlevel_map_frame_ctx] that returns 0 has done,
    [c], [d] and [s] being what [ctx], [dst] and [src] pointed to at the
    start.  [t1] to [t9] are the calls made so far after each step; every
    argument of a call is given by the arguments of the function and by
    what the libraries answered to the calls before. *)
Definition mapped_as_specified (L : oracle) (dst src : Z)
    (c : gfx_lowlevel_gpu_ctx) (d : gfx_lowlevel_frame_ctx) (s : AVFrame)
    (w w' : world) : Prop :=
  let gpu := vk_gpu L (vk c) in
  let hw := is_videotoolbox (format s) in
  (* the conversion context is created if [dst] has none *)
  let t1 :=
    then_call (is_null (to_rgba d)) (trace w)
      (Sws_getContext (width s) (height s)
         (if hw then AV_PIX_FMT_NV12 else format s)
         (width s) (height s) AV_PIX_FMT_RGBA SWS_BILINEAR) in
  let conv := if is_null (to_rgba d) then ret_int L t1 else to_rgba d in
  (* the frame mapped before is unmapped *)
  let t2 := then_call (is_mapped d) t1 (Pl_unmap_avframe gpu (f_pl_frame d)) in
  (* a hardware frame is transferred to a new frame of format NV12 *)
  let tmp := fresh_addr (avframes w) in
  let t3 := then_call hw t2 Av_frame_alloc in
  let t4 :=
    then_call hw t3
      (Av_hwframe_transfer_data
         tmp (set_format AV_PIX_FMT_NV12 (out_avframe L t3)) src 0) in
  let decoded := if hw then out_avframe L t4 else s in
  (* the decoded frame is converted to a new RGBA frame of its size *)
  let rgba :=
    fresh_addr (if hw then <[tmp := decoded]> (avframes w) else avframes w) in
  let t5 := t4 ++ [Av_frame_alloc] in
  let blank := out_avframe L t5 in
  let t6 :=
    t5 ++ [Av_frame_get_buffer
             rgba (Av_frame AV_PIX_FMT_RGBA (width decoded) (height decoded)
                            (data blank) (linesize blank)) 32] in
  let buf := out_pair L t6 in
  let t7 :=
    t6 ++ [Sws_scale conv (data decoded) (linesize decoded) 0
                     (height decoded) (fst buf) (snd buf)] in
  (* the RGBA frame is mapped into [dst] *)
  let t8 :=
    t7 ++ [Pl_map_avframe_ex
             gpu rgba (Av_frame AV_PIX_FMT_RGBA (width decoded)
                                (height decoded) (fst buf) (snd buf))
             (tex d)] in
  (* the temporary frames are released *)
  let t9 := then_call hw t8 (Av_frame_free tmp) ++ [Av_frame_free rgba] in
  trace w' = t9
  /\ conv <> NULL
  /\ frame_ctxs w'
     = <[dst := Frame_ctx true (out_frame L t8) (out_texs L t8)
                          (ctx_backref d) conv]> (frame_ctxs w).

(** The library reports success to the call that [t] ends with, for the
    calls whose result [gfx_lowlevel_map_frame_ctx] checks. *)
Definition reports_success (L : oracle) (t : list event) : Prop :=
  match last t with
  | Some (Sws_getContext _ _ _ _ _ _ _) | Some Av_frame_alloc =>
      ret_int L t <> NULL
  | Some (Av_hwframe_transfer_data _ _ _ _) | Some (Av_frame_get_buffer _ _ _)
  | Some (Sws_scale _ _ _ _ _ _ _) =>
      0 <= ret_int L t
  | Some (Pl_map_avframe_ex _ _ _ _) => ret_int L t <> 0
  | _ => True
  end.

(** However the computation ends, it has only added calls that satisfy [Q]. *)
Definition emits {A} (Q : event -> Prop) (m : M A) : Prop :=
  forall w,
    let (_, w') := m w in
    exists evs, trace w' = trace w ++ evs /\ Forall Q evs.

(** Neither [pl_shader_custom] nor [pl_dispatch_finish]. *)
Definition quiet (e : event) : Prop :=
  match e with
  | Pl_shader_custom _ _ | Pl_dispatch_finish _ _ => False
  | _ => True
  end.

(** Any call at all. *)
Definition any_event (e : event) : Prop := True.

Definition desc_as_specified (src_frames : list (option pl_frame)) (i : nat)
    (d : pl_shader_desc) : Prop :=
  exists f,
    src_frames !! i = Some (Some f)
    /\ d = Shader_desc ("src_tex" +:+ fmt_d (Z.of_nat i)) PL_DESC_SAMPLED_TEX
                       (Z.of_nat i) PL_DESC_ACCESS_READONLY
                       (texture (planes0 f)) PL_TEX_ADDRESS_REPEAT
                       PL_TEX_SAMPLE_LINEAR.

Definition attrib_as_specified (src : pl_rect2df) (i : nat)
    (a : pl_shader_va) : Prop :=
  attr_name a = "src_coord" +:+ fmt_d (Z.of_nat i)
  /\ attr_offset a = 0
  /\ va_data a
     = [(x0 src, y0 src); (x1 src, y0 src); (x0 src, y1 src);
        (x1 src, y1 src)].

(** The array [l] has [n] elements, the [i]-th of which satisfies [P i]. *)
Definition array_of {A} (P : nat -> A -> Prop) (n : Z) (l : list A) : Prop :=
  Z.of_nat (length l) = n
  /\ forall (i : nat) (x : A), l !! i = Some x -> P i x.

(** What [pl_dispatch_finish] is given, [sh] being the shader that
    [pl_shader_custom] was given; and no second [pl_shader_custom]. *)
Definition after_custom (sh : Z) (dst_frame : pl_frame) (e : event) : Prop :=
  match e with
  | Pl_shader_custom _ _ => False
  | Pl_dispatch_finish _ dp =>
      dp_shader dp = sh /\ dp_target dp = texture (planes0 dst_frame)
  | _ => True
  end.

(** What the calls [evs] of [gfx_lowlevel_gpu_ctx_render] are: at most one
    call of [pl_shader_custom]; it is given [num_frames] descriptors and
    [num_frames] vertex attributes as specified, and the shader text and
    variables of [params]; a call of [pl_dispatch_finish] comes after it
    and is given the same shader. *)
Definition render_forwards (params : gfx_lowlevel_filter_params)
    (dst_frame : pl_frame) (src_frames : list (option pl_frame))
    (num_frames : Z) (evs : list event) : Prop :=
  Forall quiet evs
  \/ exists pre sh descs attribs rest,
       evs = pre
             ++ Pl_shader_custom
                  sh (Custom_shader "Return src tex" (p_prelude params)
                        (p_header params) (p_body params)
                        PL_SHADER_SIG_NONE PL_SHADER_SIG_COLOR
                        descs num_frames (p_vars params) (p_num_vars params)
                        attribs num_frames NULL 0 false)
                :: rest
       /\ Forall quiet pre
       /\ array_of (desc_as_specified src_frames) num_frames descs
       /\ array_of (attrib_as_specified (p_src params)) num_frames attribs
       /\ Forall (after_custom sh dst_frame) rest.

(** What a successful [gfx_lowlevel_gpu_ctx_init] leaves behind. *)
Definition initialised (window ctx : Z) (w w' : world) : Prop :=
  ctx <> NULL ->
  omap acquires (drop (length (trace w)) (trace w')) = init_order
  /\ gpu_ctxs w !! ctx = None
  /\ exists c,
       gpu_ctxs w' !! ctx = Some c
       /\ shared_window c = window /\ started c = false
       /\ log c <> NULL /\ vk c <> NULL /\ swchain c <> NULL
       /\ renderer c <> NULL.

(** When [gfx_lowlevel_gpu_ctx_handle_resize] has to report failure,
    following the three cases of the specification. *)
Definition resize_fails (L : oracle) (ctx width height : Z) (w : world)
    : bool :=
  is_null ctx ||
  match gpu_ctxs w !! ctx with
  | Some c =>
      is_null (swchain c) ||
      (ret_int L (trace w ++ [Pl_swapchain_resize (swchain c) width height])
       =? 0)
  | None => false
  end.

(** ** Vocabulary of the further properties *)

(** However the computation ends, its outcome and final state satisfy
    [P]. *)
Definition ends {A} (r : outcome A * world)
    (P : outcome A -> world -> Prop) : Prop :=
  match r with (o, w') => P o w' end.

(** If the outcome is a return, the value returned satisfies [P]. *)
Definition is_returned {A} (o : outcome A) (P : A -> Prop) : Prop :=
  match o with Ret a => P a | _ => True end.

(** *** [gfx_lowlevel_gpu_ctx_init] *)

Definition is_create_surface (e : event) : bool :=
  match e with SDL_Vulkan_CreateSurface _ _ => true | _ => false end.

(** The resources that the calls [evs], made after the calls [t], have
    obtained: those whose handle is not NULL. *)
Fixpoint acquired (L : oracle) (t evs : list event) : list resource :=
  match evs with
  | [] => []
  | e :: rest =>
      let t' := t ++ [e] in
      match acquires e with
      | Some r =>
          let h := match r with
                   | R_surface => out_ptr L t'
                   | _ => ret_int L t'
                   end in
          if is_null h then [] else [r]
      | None => []
      end ++ acquired L t' rest
  end.

(** What [gfx_lowlevel_gpu_ctx_init] leaves behind when it returns NULL:
    either no gpu context, every resource obtained having been released
    in the reverse order; or, when the surface could not be created, the
    new context with its log and its Vulkan context, nothing released. *)
Definition init_failed (L : oracle) (w w' : world) : Prop :=
  let evs := drop (length (trace w)) (trace w') in
  (gpu_ctxs w' = gpu_ctxs w
   /\ omap releases evs = rev (acquired L (trace w) evs))
  \/ (exists p c,
        last evs
        = Some (Fprintf_stderr ("Failed to create Vulkan surface" +:+ nl))
        /\ gpu_ctxs w !! p = None
        /\ gpu_ctxs w' = <[p := c]> (gpu_ctxs w)
        /\ log c <> NULL /\ vk c <> NULL
        /\ omap releases evs = []).

(** The empty world after [gfx_lowlevel_gpu_ctx_init] has failed to create
    the surface. *)
Definition after_surface_failure : world :=
  snd (gfx_lowlevel_gpu_ctx_init (failing_at is_create_surface 0) 9
                                 empty_world).

(** The calls made so far once the calls [evs] have been added, one by
    one, to the calls [t]. *)
Fixpoint extended (t evs : list event) : list event :=
  match evs with
  | [] => t
  | e :: rest => extended (t ++ [e]) rest
  end.

(** The calls of a successful [gfx_lowlevel_gpu_ctx_init] that leaves the
    context [c], [proc] being the loader obtained from SDL and [size] the
    size of the window. *)
Definition init_calls (L : oracle) (window : Z) (c : gfx_lowlevel_gpu_ctx)
    (proc : Z) (size : Z * Z) : list event :=
  [Malloc K_gpu_ctx 1;
   Pl_log_create PL_LOG_WARN;
   SDL_Vulkan_GetVkGetInstanceProcAddr;
   Pl_vulkan_create (log c)
     (Vulkan_params true true 1 vulkan_extensions
                    (Z.of_nat (length vulkan_extensions)) proc);
   SDL_Vulkan_CreateSurface window (vk_instance L (vk c));
   Pl_vulkan_create_swapchain (vk c) (vk_surface c) VK_PRESENT_MODE_FIFO_KHR;
   SDL_GetWindowSize window;
   Pl_swapchain_resize (swchain c) (fst size) (snd size);
   Pl_renderer_create (log c) (vk_gpu L (vk c))].

(** What a successful [gfx_lowlevel_gpu_ctx_init] has done: the calls, in
    which each handle is the one that the call before returned, and the
    context, which holds these handles. *)
Definition initialised_by (L : oracle) (window ctx : Z) (w w' : world)
    : Prop :=
  exists c proc size,
    let calls := init_calls L window c proc size in
    let said k := extended (trace w) (take k calls) in
    drop (length (trace w)) (trace w') = calls
    /\ gpu_ctxs w' = <[ctx := c]> (gpu_ctxs w)
    /\ c = Gpu_ctx window (ret_int L (said 4%nat)) (out_ptr L (said 5%nat))
                   (ret_int L (said 6%nat)) 0 pl_frame_zero
                   (ret_int L (said 9%nat)) (ret_int L (said 2%nat)) false
    /\ proc = ret_int L (said 3%nat)
    /\ size = out_pair L (said 7%nat).

(** *** The frame contexts *)

(** The calls by which [gfx_lowlevel_frame_ctx_destroy] releases what the
    frame context [d] holds, in the order of the source. *)
Definition frame_release_calls (gpu : Z) (d : gfx_lowlevel_frame_ctx)
    : list event :=
  (if is_mapped d then [Pl_unmap_avframe gpu (f_pl_frame d)] else [])
  ++ map (Pl_tex_destroy gpu)
         (List.filter (fun t => negb (is_null t)) (take 4 (tex d)))
  ++ (if is_null (to_rgba d) then [] else [Sws_freeContext (to_rgba d)]).

(** The frame context [d] refers to a gpu context that is in place and has
    a swapchain and the GPU [gpu]. *)
Definition backref_usable (L : oracle) (w : world)
    (d : gfx_lowlevel_frame_ctx) (gpu : Z) : Prop :=
  ctx_backref d <> NULL
  /\ exists c,
       gpu_ctxs w !! ctx_backref d = Some c
       /\ swchain c <> NULL /\ vk c <> NULL
       /\ vk_gpu L (vk c) = gpu /\ gpu <> NULL.

(** A frame context with a mapped frame, two textures and a conversion
    context; the sample world with it; and the sample world with a frame
    context that refers to no gpu context. *)
Definition mapped_frame_ctx : gfx_lowlevel_frame_ctx :=
  Frame_ctx true sample_frame [41; NULL; 43; NULL] 1 50.

Definition mapped_world : world :=
  set_frame_ctxs {[ 1 := mapped_frame_ctx ]} sample_world.

Definition orphan_world : world :=
  set_frame_ctxs {[ 1 := set_ctx_backref NULL mapped_frame_ctx ]}
                 sample_world.

(** The frame context [d] after [gfx_lowlevel_frame_create_texture] has
    put the texture [t] of format [fmt] in it. *)
Definition textured (L : oracle) (fmt t : Z) (d : gfx_lowlevel_frame_ctx)
    : gfx_lowlevel_frame_ctx :=
  let order := fmt_sample_order L fmt in
  Frame_ctx (is_mapped d)
            (Pl_frame 1
               (Pl_plane t (fmt_num_components L fmt)
                  [nth 0 order 0; nth 1 order 0; nth 2 order 0; nth 3 order 0])
               pl_color_repr_unknown pl_color_space_unknown
               (frame_rest (f_pl_frame d)))
            (<[0%nat := t]> (tex d)) (ctx_backref d) (to_rgba d).

(** What [gfx_lowlevel_frame_create_texture] has done when it returns [r],
    [c] and [d] being what [ctx] and [frame] pointed to at the start. *)
Definition texture_created (L : oracle) (frame width height : Z)
    (c : gfx_lowlevel_gpu_ctx) (d : gfx_lowlevel_frame_ctx) (w : world)
    (r : Z) (w' : world) : Prop :=
  let gpu := vk_gpu L (vk c) in
  let find := Pl_find_named_fmt gpu "rgba8" in
  let fmt := ret_int L (trace w ++ [find]) in
  let create :=
    Pl_tex_create gpu (Tex_params width height 0 fmt true true true true) in
  let t := ret_int L ((trace w ++ [find]) ++ [create]) in
  r = (if is_null fmt || is_null t then EINVAL else 0)
  /\ List.filter wrapped (drop (length (trace w)) (trace w'))
     = (if is_null fmt then [find] else [find; create])
  /\ frame_ctxs w'
     = if is_null fmt then frame_ctxs w
       else if is_null t then
         <[frame := set_tex (<[0%nat := NULL]> (tex d)) d]> (frame_ctxs w)
       else <[frame := textured L fmt t d]> (frame_ctxs w).

(** *** [gfx_lowlevel_map_frame_ctx] *)

Definition is_unmap (e : event) : bool :=
  match e with Pl_unmap_avframe _ _ => true | _ => false end.
Definition is_get_buffer (e : event) : bool :=
  match e with Av_frame_get_buffer _ _ _ => true | _ => false end.
Definition is_map (e : event) : bool :=
  match e with Pl_map_avframe_ex _ _ _ _ => true | _ => false end.

(** What [gfx_lowlevel_map_frame_ctx] leaves of the [is_mapped] flag when
    it returns [r], [d] being what [dst] pointed to at the start: the flag
    is set when [r] is 0 and otherwise left as it was, also when the frame
    it stood for has been unmapped. *)
Definition flag_follows_code (dst : Z) (d : gfx_lowlevel_frame_ctx)
    (w : world) (r : Z) (w' : world) : Prop :=
  (r = 0 \/ r = EINVAL \/ r = ENOMEM \/ r < 0)
  /\ exists d',
       frame_ctxs w' !! dst = Some d'
       /\ is_mapped d' = is_mapped d || (r =? 0)
       /\ (r <> 0 -> is_mapped d = true -> to_rgba d <> NULL ->
           existsb is_unmap (drop (length (trace w)) (trace w')) = true).

(** Neither a call of [sws_getContext], nor a call of [sws_scale] with a
    context other than [c]. *)
Definition uses_context (c : Z) (e : event) : bool :=
  match e with
  | Sws_getContext _ _ _ _ _ _ _ => false
  | Sws_scale c' _ _ _ _ _ _ => c' =? c
  | _ => true
  end.

(** The allocations and the releases of frames. *)
Definition is_frame_call (e : event) : bool :=
  match e with Av_frame_alloc | Av_frame_free _ => true | _ => false end.

(** *** The mix contexts *)

(** The variables that [gfx_lowlevel_mix_ctx_init] copies: the first [n]
    of [vars]. *)
Definition first_vars (vars : option (list pl_shader_var)) (n : Z)
    : list pl_shader_var :=
  take (Z.to_nat n) (default [] vars).

(** The two calls of [free] that [gfx_lowlevel_mix_ctx_destroy] makes for
    one variable. *)
Definition free_var (v : pl_shader_var) : list event :=
  [Free_ptr K_char (var_name v); Free_ptr K_void (var_data v)].

(** The calls by which [gfx_lowlevel_mix_ctx_destroy] releases what the
    mix context [m] holds, in the order of the source. *)
Definition mix_release_calls (m : gfx_lowlevel_mix_ctx) : list event :=
  [Free_str (m_prelude m); Free_str (m_header m); Free_str (m_body m)]
  ++ flat_map free_var (first_vars (m_vars m) (m_num_vars m))
  ++ [Free_vars (m_vars m)]
  ++ (if is_null (dispatch m) then [] else [Pl_dispatch_destroy (dispatch m)]).

Definition is_dispatch_create (e : event) : bool :=
  match e with Pl_dispatch_create _ _ => true | _ => false end.
Definition is_string_alloc (e : event) : bool :=
  match e with Malloc K_char _ => true | _ => false end.

(** What [gfx_lowlevel_mix_ctx_init] has done when it returns [m].  On
    NULL no mix context is left behind, and when [pl_dispatch_create] was
    reached the calls end with the [free] of the name and the data of each
    variable copied; otherwise [m] is a new mix context that holds the
    arguments and a dispatch object. *)
Definition mix_ctx_made (ctx : Z) (prelude header body : option string)
    (vars : option (list pl_shader_var)) (n : Z) (w : world) (m : Z)
    (w' : world) : Prop :=
  let copy := first_vars vars n in
  if is_null m then
    mix_ctxs w' = mix_ctxs w
    /\ (existsb is_dispatch_create (drop (length (trace w)) (trace w'))
        = true ->
        exists p,
          (flat_map free_var copy
           ++ [Free_vars (Some copy); Free_ptr K_mix_ctx p])
          `suffix_of` drop (length (trace w)) (trace w'))
  else
    mix_ctxs w !! m = None
    /\ exists d,
         d <> NULL
         /\ mix_ctxs w'
            = <[m := Mix_ctx ctx prelude header body (Some copy) n d]>
                (mix_ctxs w).

Definition sample_vars : list pl_shader_var :=
  [Shader_var 70 71; Shader_var 72 73].

(** The sample world with a mix context that holds two variables. *)
Definition mixing_world : world :=
  set_mix_ctxs
    {[ 1 := Mix_ctx 1 (Some "p") None (Some "b") (Some sample_vars) 2 30 ]}
    sample_world.

(** *** The LUTs *)

(** The files that the calls [evs], made after the calls [t], have opened:
    the results of [fopen] that are not NULL. *)
Fixpoint opened (L : oracle) (t evs : list event) : list Z :=
  match evs with
  | [] => []
  | e :: rest =>
      let t' := t ++ [e] in
      match e with
      | Fopen _ _ => if is_null (ret_int L t') then [] else [ret_int L t']
      | _ => []
      end ++ opened L t' rest
  end.

(** The files that the calls [evs] have closed. *)
Definition closed (evs : list event) : list Z :=
  omap (fun e => match e with Fclose f => Some f | _ => None end) evs.

(** The calls made when a [gfx_lowlevel_init_lut] started after the calls
    [t] has called [pl_lut_parse_cube], [lg] being the log of the context:
    each call is given what the calls before returned, and the text parsed
    is made of the first [file_size] bytes that [fread] wrote. *)
Definition lut_parse_trace (L : oracle) (lg : Z) (name : string)
    (t : list event) : list event :=
  let t1 := t ++ [Malloc K_lut 1] in
  let t2 := t1 ++ [Malloc K_char (strlen name + 1)] in
  let t3 := t2 ++ [Fopen name "r"] in
  let file := ret_int L t3 in
  let t4 := t3 ++ [Fseek file 0 SEEK_END] in
  let t5 := t4 ++ [Ftell file] in
  let file_size := ret_int L t5 in
  let t6 := t5 ++ [Fseek file 0 SEEK_SET] in
  let t7 := t6 ++ [Malloc K_char (file_size + 1)] in
  let t8 := t7 ++ [Fread file 1 file_size] in
  let t9 := t8 ++ [Fclose file] in
  t9 ++ [Pl_lut_parse_cube
           lg (substring 0 (Z.to_nat file_size) (out_text L t8)) file_size].

(** What [gfx_lowlevel_init_lut] has done when it returns [l]: it has
    closed the file it opened, if any; on NULL no LUT is left behind;
    otherwise its calls are those up to [pl_lut_parse_cube] and the [free]
    of the buffer, and [l] is a new LUT with the file name and the table
    that [pl_lut_parse_cube] returned, which is not NULL. *)
Definition lut_loaded (L : oracle) (ctx : Z) (name : string) (w : world)
    (l : Z) (w' : world) : Prop :=
  let evs := drop (length (trace w)) (trace w') in
  closed evs = opened L (trace w) evs
  /\ if is_null l then luts w' = luts w
     else
       luts w !! l = None
       /\ exists c,
            gpu_ctxs w !! ctx = Some c
            /\ let said := lut_parse_trace L (log c) name (trace w) in
               trace w' = said ++ [Free_buf K_char]
               /\ ret_int L said <> NULL
               /\ luts w'
                  = <[l := Lut (Some name) (ret_int L said) NULL]> (luts w).

(** The calls by which [gfx_lowlevel_destroy_lut] releases what the LUT
    [l] holds, in the order of the source. *)
Definition lut_release_calls (l : gfx_lowlevel_lut) : list event :=
  [Free_str (lut_filename l)]
  ++ (if is_null (lut l) then [] else [Pl_lut_free (lut l)])
  ++ (if is_null (lut_state l) then []
      else [Pl_shader_obj_destroy (lut_state l)]).

(** What [gfx_lowlevel_gpu_ctx_render] never writes of the LUT at [p]. *)
Definition lut_source (p : Z) (w : world) : option (option string * Z) :=
  (fun l => (lut_filename l, lut l)) <$> luts w !! p.

(** *** The frame loop *)


(** *** Shader names *)

(** The number that a string of decimal digits denotes, [v] being the
    value of the digits already read. *)
Fixpoint digits_value (v : Z) (s : string) : Z :=
  match s with
  | EmptyString => v
  | String c s' => digits_value (10 * v + (Z.of_nat (nat_of_ascii c) - 48)) s'
  end.

Definition is_dispatch_finish (e : event) : bool :=
  match e with Pl_dispatch_finish _ _ => true | _ => false end.

(** *** Allocations *)

Definition kind_index (k : alloc_kind) : Z :=
  match k with
  | K_gpu_ctx => 0 | K_frame_ctx => 1 | K_mix_ctx => 2 | K_lut => 3
  | K_shader_desc => 4 | K_shader_va => 5 | K_shader_var => 6
  | K_char => 7 | K_float => 8 | K_void => 9
  end.

Definition same_kind (k k' : alloc_kind) : bool :=
  kind_index k =? kind_index k'.

(** What the call [e], made after the calls [t], adds to the number of
    blocks of kind [k] that are allocated: 1 for a [malloc] that does not
    return NULL, -1 for a [free] of a pointer that is not NULL. *)
Definition balance (L : oracle) (k : alloc_kind) (t : list event)
    (e : event) : Z :=
  match e with
  | Malloc k' _ =>
      if same_kind k k' && negb (is_null (ret_int L (t ++ [e]))) then 1
      else 0
  | Free_ptr k' p => if same_kind k k' && negb (is_null p) then -1 else 0
  | Free_buf k' => if same_kind k k' then -1 else 0
  | Free_str (Some _) => if same_kind k K_char then -1 else 0
  | Free_vars (Some _) => if same_kind k K_shader_var then -1 else 0
  | _ => 0
  end.

(** The blocks of kind [k] that the calls [evs], made after the calls
    [t], have allocated and not freed. *)
Fixpoint outstanding (L : oracle) (k : alloc_kind) (t evs : list event)
    : Z :=
  match evs with
  | [] => 0
  | e :: rest => balance L k t e + outstanding L k (t ++ [e]) rest
  end.

(** The calls [evs], made after the calls [t], leave [d] arrays of
    descriptors, [v] arrays of vertex attributes, [c] strings and [f]
    arrays of vertices allocated. *)
Definition leaves (L : oracle) (d v c f : Z) (t evs : list event) : Prop :=
  outstanding L K_shader_desc t evs = d
  /\ outstanding L K_shader_va t evs = v
  /\ outstanding L K_char t evs = c
  /\ outstanding L K_float t evs = f.

(** From [w] to [w'] calls have been added that leave these blocks
    allocated. *)
Definition grows (L : oracle) (d v c f : Z) (w w' : world) : Prop :=
  exists evs, trace w' = trace w ++ evs /\ leaves L d v c f (trace w) evs.

(** What [gfx_lowlevel_init_lut] leaves allocated when it returns [l]:
    nothing when [l] is NULL, the structure and the copy of the file name
    otherwise. *)
Definition lut_blocks (L : oracle) (l : Z) (t evs : list event) : Prop :=
  let n := if is_null l then 0 else 1 in
  outstanding L K_lut t evs = n /\ outstanding L K_char t evs = n.

Definition is_vertices (e : event) : bool :=
  match e with Malloc K_float _ => true | _ => false end.

Definition is_parse (e : event) : bool :=
  match e with Pl_lut_parse_cube _ _ _ => true | _ => false end.

(** * Properties *)

(** ** Symbolic execution

    [exec] runs a computation on a symbolic world: it unfolds the field
    updates, rewrites with what is known of the heap, and splits on the
    test that blocks the evaluation.  It stops at loops. *)

Create HintDb fields.
#[global] Hint Unfold set_gpu_ctxs set_frame_ctxs set_mix_ctxs set_luts
  set_avframes set_trace set_shared_window set_vk set_vk_surface set_swchain
  set_swap_frame set_window_frame set_renderer set_log set_started
  set_is_mapped set_f_pl_frame set_tex set_ctx_backref set_to_rgba set_m_ctx
  set_m_prelude set_m_header set_m_body set_m_vars set_m_num_vars
  set_dispatch set_lut_filename set_lut set_lut_state set_format set_width
  set_height : fields.

Ltac stuck t :=
  match t with
  | match ?x with _ => _ end => match x with _ => stuck x | _ => x end
  | ?f _ => stuck f
  end.

Ltac rew_known s :=
  match goal with
  | H : s = _ |- _ => rewrite H
  end.

(** A [bool] stored in an [int] is not negative. *)
Lemma int_of_bool_not_negative (b : Z) : (int_of_bool b <? 0) = false.
Proof. unfold int_of_bool. destruct (b =? 0); reflexivity. Qed.

Ltac tidy :=
  repeat (progress (autounfold with fields; simpl;
                    rewrite ?lookup_insert_eq, ?int_of_bool_not_negative)).

Ltac exec_step :=
  tidy;
  lazymatch goal with
  | |- ?G =>
      let s := stuck G in
      first [ rew_known s
            | lazymatch s with
              | <[?k:=?x]> ?m !! ?k => rewrite (lookup_insert_eq m k x)
              end
            | lazymatch s with
              | for_upto _ _ _ _ => fail
              | for_loop _ _ _ _ _ => fail
              | negb ?b => first [rew_known b | destruct b eqn:?]
              | _ => destruct s eqn:?
              end ]
  end.

Ltac exec := repeat exec_step; tidy.

Ltac events := rewrite <- ?app_assoc, ?drop_app_length; simpl.

(** ** Addresses and NULL *)

Lemma fresh_addr_not_null {A} (h : gmap Z A) : fresh_addr h <> NULL.
Proof.
  unfold fresh_addr. intros E.
  pose proof (is_fresh ({[NULL]} ∪ dom h)) as F. rewrite E in F.
  set_solver.
Qed.

Lemma fresh_addr_unused {A} (h : gmap Z A) : h !! fresh_addr h = None.
Proof.
  unfold fresh_addr.
  pose proof (is_fresh ({[NULL]} ∪ dom h)) as F.
  apply not_elem_of_dom. set_solver.
Qed.

Lemma is_null_true p : is_null p = true <-> p = NULL.
Proof. unfold is_null. apply Z.eqb_eq. Qed.

Lemma is_null_false p : is_null p = false <-> p <> NULL.
Proof. unfold is_null. apply Z.eqb_neq. Qed.

Lemma fresh_null_false {A} (h : gmap Z A) : is_null (fresh_addr h) = false.
Proof. apply is_null_false, fresh_addr_not_null. Qed.

Lemma fresh_addr_ne {A} (h : gmap Z A) (j : Z) :
  is_Some (h !! j) -> fresh_addr h <> j.
Proof.
  intros [v Hv] E. rewrite <- E, fresh_addr_unused in Hv. discriminate.
Qed.

Ltac live :=
  repeat first [ rewrite lookup_insert_eq
               | rewrite lookup_insert_ne by (apply fresh_addr_ne; live) ];
  eauto.

(** Gives a name to every answer of the libraries, so that the calls made
    later do not carry the whole history in their arguments. *)
Ltac name_answers :=
  repeat match goal with
         | |- context [?f ?L ?t] =>
             lazymatch f with
             | ret_int => idtac
             | out_ptr => idtac
             | out_pair => idtac
             | out_frame => idtac
             | out_texs => idtac
             | out_avframe => idtac
             | out_text => idtac
             | out_res => idtac
             end;
             let x := fresh "x" in
             let E := fresh "E" in
             remember (f L t) as x eqn:E; symmetry in E
         end.

Ltac exec_named_step :=
  tidy; name_answers;
  lazymatch goal with
  | |- ?G =>
      let s := stuck G in
      first [ rew_known s
            | lazymatch s with
              | is_null (fresh_addr ?h) => rewrite (fresh_null_false h)
              | <[?k:=?x]> ?m !! ?k => rewrite (lookup_insert_eq m k x)
              | <[?k:=?x]> ?m !! ?j =>
                  rewrite (lookup_insert_ne m k j x)
                    by (apply fresh_addr_ne; live)
              end
            | lazymatch s with
              | for_upto _ _ _ _ => fail
              | for_loop _ _ _ _ _ => fail
              | negb ?b => first [rew_known b | destruct b eqn:?]
              | _ => destruct s eqn:?
              end ]
  end.

Ltac exec_named := repeat exec_named_step; tidy; name_answers.

(** Puts the answers of the libraries back in place of their names. *)
Ltac unname :=
  repeat match goal with
         | E : _ = ?x |- _ => is_var x; subst x
         end.



(** ** [gfx_lowlevel_gpu_ctx_handle_resize] *)

(** C7.  Called with NULL or with a live context, the function returns -1
    when the context is NULL, its swapchain is NULL or
    [pl_swapchain_resize] answers false, and 0 otherwise; it writes a
    diagnostic in exactly the cases where it returns -1. *)
Theorem handle_resize_sentinel (L : oracle) (ctx width height : Z)
    (w : world) :
  ctx = NULL \/ is_Some (gpu_ctxs w !! ctx) ->
  fst (gfx_lowlevel_gpu_ctx_handle_resize L ctx width height w)
    = Ret (if resize_fails L ctx width height w then -1 else 0)
  /\ existsb is_diagnostic
       (new_events (gfx_lowlevel_gpu_ctx_handle_resize L ctx width height) w)
     = resize_fails L ctx width height w.
Proof.
  intros H.
  unfold resize_fails, new_events, gfx_lowlevel_gpu_ctx_handle_resize, bind,
    load_gpu, call, fprintf_stderr, call_void, ret.
  destruct (is_null ctx) eqn:En.
  - simpl. events. auto.
  - destruct H as [H | [c Hc]]; [apply is_null_false in En; contradiction|].
    rewrite Hc. simpl.
    destruct (is_null (swchain c)) eqn:Es; simpl.
    + events. auto.
    + rewrite ?En, ?Hc. simpl.
      destruct (ret_int L _ =? 0) eqn:Er; simpl; events; auto.
Qed.

Lemma handle_resize_sentinel_witness :
  (1 = NULL \/ is_Some (gpu_ctxs sample_world !! 1))
  /\ fst (gfx_lowlevel_gpu_ctx_handle_resize obliging 1 800 600 sample_world)
     = Ret 0
  /\ fst (gfx_lowlevel_gpu_ctx_handle_resize (failing_at is_resize 0)
                                             1 800 600 sample_world)
     = Ret (-1).
Proof.
  assert (H : 1 = NULL \/ is_Some (gpu_ctxs sample_world !! 1))
    by (right; exists sample_gpu_ctx; reflexivity).
  split; [exact H|].
  split.
  - exact (proj1 (handle_resize_sentinel obliging 1 800 600 sample_world H)).
  - exact (proj1 (handle_resize_sentinel (failing_at is_resize 0) 1 800 600
                                         sample_world H)).
Defined.

(** ** [gfx_lowlevel_frame_ctx_init] *)

(** C10.  [gfx_lowlevel_frame_ctx_init] returns NULL when [ctx] is NULL or
    [malloc] fails.  Otherwise it returns a new, non-NULL frame context
    whose [is_mapped] is false, whose [pl_frame] is zeroed, whose four
    texture slots and [to_rgba] are NULL, and whose [ctx_backref] is
    [ctx]. *)
Theorem frame_ctx_init_reset (L : oracle) (ctx : Z) (w : world) :
  (ctx = NULL \/ ret_int L (trace w ++ [Malloc K_frame_ctx 1]) = NULL ->
   fst (gfx_lowlevel_frame_ctx_init L ctx w) = Ret NULL)
  /\ (ctx <> NULL -> ret_int L (trace w ++ [Malloc K_frame_ctx 1]) <> NULL ->
      exists frame w',
        gfx_lowlevel_frame_ctx_init L ctx w = (Ret frame, w')
        /\ frame <> NULL
        /\ frame_ctxs w !! frame = None
        /\ frame_ctxs w' !! frame
           = Some (Frame_ctx false pl_frame_zero [NULL; NULL; NULL; NULL]
                             ctx NULL)).
Proof.
  unfold gfx_lowlevel_frame_ctx_init, malloc_at, memset_frame, update_frame,
    load_frame, bind, call, fprintf_stderr, call_void, ret.
  split.
  - intros [-> | E].
    + reflexivity.
    + destruct (is_null ctx); [reflexivity|].
      simpl. rewrite E. reflexivity.
  - intros Hc Hm. apply is_null_false in Hc, Hm. rewrite Hc. simpl.
    rewrite Hm. simpl. rewrite !fresh_null_false. simpl.
    rewrite lookup_insert_eq. simpl.
    eexists _, _. split; [reflexivity|].
    split; [apply fresh_addr_not_null|].
    split; [apply fresh_addr_unused|].
    simpl. rewrite lookup_insert_eq. reflexivity.
Qed.

Lemma frame_ctx_init_reset_witness :
  (1 <> NULL
   /\ ret_int obliging (trace sample_world ++ [Malloc K_frame_ctx 1]) <> NULL)
  /\ exists frame w',
       gfx_lowlevel_frame_ctx_init obliging 1 sample_world = (Ret frame, w')
       /\ frame <> NULL
       /\ frame_ctxs sample_world !! frame = None
       /\ frame_ctxs w' !! frame
          = Some (Frame_ctx false pl_frame_zero [NULL; NULL; NULL; NULL]
                            1 NULL).
Proof.
  assert (H1 : 1 <> NULL) by discriminate.
  assert (H2 : ret_int obliging
                 (trace sample_world ++ [Malloc K_frame_ctx 1]) <> NULL)
    by discriminate.
  split; [split; assumption|].
  exact (proj2 (frame_ctx_init_reset obliging 1 sample_world) H1 H2).
Defined.

(** ** Rules for [on_return] and [returns] *)

Lemma on_return_elim {A} (r : outcome A * world) P a w' :
  on_return r P -> r = (Ret a, w') -> P a w'.
Proof. intros H ->. exact H. Qed.

Lemma returns_elim {A} (r : outcome A * world) P :
  returns r P -> exists a w', r = (Ret a, w') /\ P a w'.
Proof.
  destruct r as [[a| | |] w']; simpl; intros H; try contradiction. eauto.
Qed.

Lemma on_return_bind {A B} (m : M A) (k : A -> M B) w P :
  on_return (m w) (fun a w1 => on_return (k a w1) P) ->
  on_return (bind m k w) P.
Proof.
  unfold bind. destruct (m w) as [[a| | |] w1]; simpl; auto.
Qed.

Lemma on_return_any {A} (r : outcome A * world) (P : A -> world -> Prop) :
  (forall a w', P a w') -> on_return r P.
Proof. destruct r as [[a| | |] w']; simpl; auto. Qed.

(** Skips the steps of a computation whose effect does not matter. *)
Ltac skip_binds stop :=
  repeat (cbv beta;
          lazymatch goal with
          | |- on_return (bind ?m _ _) _ =>
              stop m; apply on_return_bind, on_return_any; intros
          end).

(** ** The destroy functions *)

Lemma gpu_ctx_destroy_run (L : oracle) p c w :
  p <> NULL -> gpu_ctxs w !! p = Some c ->
  (vk_surface c <> NULL -> vk c <> NULL) ->
  returns (gfx_lowlevel_gpu_ctx_destroy L (Some p) w)
    (fun h w' =>
       h = Some NULL
       /\ w' = set_trace
                 (trace w ++ release_calls L c ++ [Free_ptr K_gpu_ctx p])
                 (set_gpu_ctxs (delete p (gpu_ctxs w)) w)).
Proof.
  intros Hp Hc Hwf. apply is_null_false in Hp.
  assert (Hwf' : is_null (vk_surface c) = false -> is_null (vk c) = false).
  { rewrite !is_null_false. exact Hwf. }
  clear Hwf.
  unfold returns, gfx_lowlevel_gpu_ctx_destroy, release_calls, when, member,
    free_gpu, update_gpu, load_gpu, bind, call_void, ret, fault.
  destruct c as [sw v vs sc sf wf r l st]. simpl in *.
  exec; try (specialize (Hwf' eq_refl); discriminate);
    (split; [reflexivity|]);
    rewrite ?delete_insert_eq, <- ?app_assoc; simpl; reflexivity.
Qed.

Lemma gpu_ctx_destroy_cases (L : oracle) p w :
  on_return (gfx_lowlevel_gpu_ctx_destroy L (Some p) w)
            (freed_or_untouched gpu_ctxs p w).
Proof.
  unfold on_return, freed_or_untouched, gfx_lowlevel_gpu_ctx_destroy, when,
    member, free_gpu, update_gpu, load_gpu, bind, call_void, ret, fault.
  exec; auto; right; (split; [reflexivity|]); apply lookup_delete_eq.
Qed.

Lemma frame_ctx_destroy_cases (L : oracle) p w :
  on_return (gfx_lowlevel_frame_ctx_destroy L (Some p) w)
            (freed_or_untouched frame_ctxs p w).
Proof.
  unfold on_return, freed_or_untouched, gfx_lowlevel_frame_ctx_destroy,
    frame_ctx_destroy_guard, backref_gpu, ctx_gpu, for_upto, when, member,
    free_frame, update_frame, load_frame, load_gpu, bind, written, call_void,
    ret, fault.
  simpl.
  exec; auto; right; (split; [reflexivity|]); apply lookup_delete_eq.
Qed.

Lemma mix_ctx_destroy_cases p w :
  on_return (gfx_lowlevel_mix_ctx_destroy (Some p) w)
            (freed_or_untouched mix_ctxs p w).
Proof.
  unfold gfx_lowlevel_mix_ctx_destroy. destruct (is_null p).
  - left; auto.
  - skip_binds ltac:(fun m => lazymatch m with
                              | free_mix _ => fail
                              | _ => idtac
                              end).
    unfold on_return, freed_or_untouched, free_mix, bind, call_void, ret.
    simpl. right. split; [reflexivity|]. apply lookup_delete_eq.
Qed.

Lemma destroy_lut_cases p w :
  on_return (destroy_lut_handle (Some p) w) (freed_or_untouched luts p w).
Proof.
  unfold on_return, freed_or_untouched, destroy_lut_handle,
    gfx_lowlevel_destroy_lut, when, free_lut, update_lut, load_lut, bind,
    call_void, ret, fault.
  exec; auto; right; (split; [reflexivity|]); apply lookup_delete_eq.
Qed.

Lemma null_safe_idempotent_intro {A} (heap : world -> gmap Z A) D :
  (forall w, D None w = (Ret None, w)) ->
  (forall w, D (Some NULL) w = (Ret (Some NULL), w)) ->
  (forall p w, on_return (D (Some p) w) (freed_or_untouched heap p w)) ->
  null_safe_idempotent heap D.
Proof.
  intros Hn Hz Hc. split; [exact Hn|]. split; [exact Hz|].
  intros p w h' w' E.
  destruct (on_return_elim _ _ _ _ (Hc p w) E) as [[-> ->] | [-> Hp]].
  - split; [intros N; contradiction|exact E].
  - split; [auto|apply Hz].
Qed.

(** C1.  Each of the four destroy functions leaves everything as it is
    when given a NULL pointer or a pointer to a NULL handle; when it
    returns after doing anything, the structure is freed and the handle is
    NULL; and calling it again on the same handle is a no-op.
    [gfx_lowlevel_destroy_lut] moreover returns 0. *)
Theorem destroy_null_safe_idempotent (L : oracle) :
  null_safe_idempotent gpu_ctxs (gfx_lowlevel_gpu_ctx_destroy L)
  /\ null_safe_idempotent frame_ctxs (gfx_lowlevel_frame_ctx_destroy L)
  /\ null_safe_idempotent mix_ctxs gfx_lowlevel_mix_ctx_destroy
  /\ null_safe_idempotent luts destroy_lut_handle
  /\ (forall h w,
        on_return (gfx_lowlevel_destroy_lut h w) (fun r _ => fst r = 0)).
Proof.
  split; [|split; [|split; [|split]]].
  - apply null_safe_idempotent_intro; try reflexivity.
    apply gpu_ctx_destroy_cases.
  - apply null_safe_idempotent_intro; try reflexivity.
    apply frame_ctx_destroy_cases.
  - apply null_safe_idempotent_intro; try reflexivity.
    apply mix_ctx_destroy_cases.
  - apply null_safe_idempotent_intro; try reflexivity.
    apply destroy_lut_cases.
  - intros [p|] w; [|reflexivity].
    unfold gfx_lowlevel_destroy_lut. destruct (is_null p); [reflexivity|].
    skip_binds ltac:(fun m => idtac).
    reflexivity.
Qed.

Lemma destroy_null_safe_idempotent_witness :
  gfx_lowlevel_gpu_ctx_destroy obliging (Some 1) sample_world
    = (Ret (Some NULL), after_destroy)
  /\ (after_destroy <> sample_world ->
      Some NULL = Some NULL /\ gpu_ctxs after_destroy !! 1 = None)
  /\ gfx_lowlevel_gpu_ctx_destroy obliging (Some NULL) after_destroy
     = (Ret (Some NULL), after_destroy).
Proof.
  assert (E : gfx_lowlevel_gpu_ctx_destroy obliging (Some 1) sample_world
              = (Ret (Some NULL), after_destroy))
    by (vm_compute; reflexivity).
  split; [exact E|].
  exact (proj2 (proj2 (proj1 (destroy_null_safe_idempotent obliging)))
               1 sample_world (Some NULL) after_destroy E).
Defined.

(** ** [gfx_lowlevel_gpu_ctx_init] against [gfx_lowlevel_gpu_ctx_destroy] *)

Lemma gpu_ctx_init_cases (L : oracle) window w :
  on_return (gfx_lowlevel_gpu_ctx_init L window w)
            (fun ctx w' => initialised window ctx w w').
Proof.
  unfold on_return, initialised, gfx_lowlevel_gpu_ctx_init, malloc_at,
    memset_gpu, member, update_gpu, load_gpu, bind, call, written,
    fprintf_stderr, call_void, ret, fault.
  exec; try exact I; intros N; try (exfalso; apply N; reflexivity).
  split; [events; reflexivity|].
  split; [apply fresh_addr_unused|].
  eexists. split; [reflexivity|]. simpl.
  repeat split; try (apply is_null_false; assumption).
Qed.

(** In the order of the source, the release calls are the resources held,
    in the reverse of the order of initialisation. *)
Lemma release_calls_reverse (L : oracle) (c : gfx_lowlevel_gpu_ctx) :
  omap releases (release_calls L c) = List.filter (holds c) (rev init_order).
Proof.
  unfold release_calls, holds. simpl.
  destruct (is_null (renderer c)), (is_null (swchain c)),
    (is_null (vk_surface c)), (is_null (vk c)), (is_null (log c));
    reflexivity.
Qed.

(** C2.  A successful [gfx_lowlevel_gpu_ctx_init] acquires the log, the
    Vulkan context, the surface, the swapchain and the renderer, in this
    order, and the context it returns can be destroyed.  On a context
    whose surface, if any, comes with a Vulkan context,
    [gfx_lowlevel_gpu_ctx_destroy] releases what is held in the reverse
    order (renderer, swapchain, surface, Vulkan context, log), then frees
    the structure. *)
Theorem gpu_ctx_destroy_reverses_init (L : oracle) :
  (forall window w ctx w',
     gfx_lowlevel_gpu_ctx_init L window w = (Ret ctx, w') -> ctx <> NULL ->
     omap acquires (drop (length (trace w)) (trace w')) = init_order
     /\ exists c,
          gpu_ctxs w' !! ctx = Some c
          /\ (vk_surface c <> NULL -> vk c <> NULL))
  /\ (forall p c w,
        p <> NULL -> gpu_ctxs w !! p = Some c ->
        (vk_surface c <> NULL -> vk c <> NULL) ->
        exists w',
          gfx_lowlevel_gpu_ctx_destroy L (Some p) w = (Ret (Some NULL), w')
          /\ trace w'
             = trace w ++ release_calls L c ++ [Free_ptr K_gpu_ctx p]
          /\ omap releases (release_calls L c)
             = List.filter (holds c) (rev init_order)
          /\ gpu_ctxs w' !! p = None).
Proof.
  split.
  - intros window w ctx w' E N.
    destruct (on_return_elim _ _ _ _ (gpu_ctx_init_cases L window w) E N)
      as (Ho & _ & c & Hc & _ & _ & _ & Hv & _).
    split; [exact Ho|]. exists c. auto.
  - intros p c w Hp Hc Hwf.
    destruct (returns_elim _ _ (gpu_ctx_destroy_run L p c w Hp Hc Hwf))
      as (h & w' & E & -> & ->).
    exists (set_trace
              (trace w ++ release_calls L c ++ [Free_ptr K_gpu_ctx p])
              (set_gpu_ctxs (delete p (gpu_ctxs w)) w)).
    split; [exact E|]. split; [reflexivity|].
    split; [apply release_calls_reverse|]. apply lookup_delete_eq.
Qed.

Lemma gpu_ctx_destroy_reverses_init_witness :
  (gfx_lowlevel_gpu_ctx_init obliging 9 empty_world = (Ret 1, after_init)
   /\ 1 <> NULL)
  /\ omap acquires (drop (length (trace empty_world)) (trace after_init))
     = init_order
  /\ exists w',
       gfx_lowlevel_gpu_ctx_destroy obliging (Some 1) after_init
         = (Ret (Some NULL), w')
       /\ omap releases (drop (length (trace after_init)) (trace w'))
          = rev init_order ++ [].
Proof.
  assert (E : gfx_lowlevel_gpu_ctx_init obliging 9 empty_world
              = (Ret 1, after_init)) by (vm_compute; reflexivity).
  assert (N : 1 <> NULL) by discriminate.
  split; [split; assumption|].
  destruct (proj1 (gpu_ctx_destroy_reverses_init obliging)
                  9 empty_world 1 after_init E N) as (Ho & c & Hc & Hwf).
  split; [exact Ho|].
  destruct (proj2 (gpu_ctx_destroy_reverses_init obliging)
                  1 c after_init N Hc Hwf) as (w' & Ed & Ht & Hr & _).
  exists w'. split; [exact Ed|].
  rewrite Ht, drop_app_length, omap_app, Hr.
  assert (Hc' : gpu_ctxs after_init !! 1
                = Some (Gpu_ctx 9 1 7 1 0 pl_frame_zero 1 1 false))
    by (vm_compute; reflexivity).
  rewrite Hc' in Hc. injection Hc as <-. reflexivity.
Defined.

(** ** Failures of the libraries *)

(** C3.  Two failures of the libraries end the process instead of being
    returned: [gfx_lowlevel_map_frame_ctx] calls [exit(1)] when
    [av_hwframe_transfer_data] answers -5 for a VideoToolbox frame, and
    [gfx_lowlevel_gpu_ctx_render] in debug mode calls [exit(1)] when
    [pl_shader_finalize] answers NULL. *)
Theorem library_failure_exits_process :
  fst (gfx_lowlevel_map_frame_ctx (failing_at is_transfer (-5)) 1 1 1
                                  sample_world)
    = Exit 1
  /\ fst (gfx_lowlevel_gpu_ctx_render (failing_at is_finalize NULL) 1 1
            (Some sample_params) (Some sample_frame)
            (Some [Some sample_frame]) 1 NULL true sample_world)
     = Exit 1.
Proof. split; vm_compute; reflexivity. Qed.

(** ** NULL arguments *)

(** C4, as stated, fails: with a NULL [mix_ctx] and every checked argument
    in place [gfx_lowlevel_gpu_ctx_render] does not return EINVAL, and
    with a NULL [ctx] neither [gfx_lowlevel_gpu_ctx_start_frame] nor
    [gfx_lowlevel_gpu_ctx_finish_frame] returns at all. *)
Lemma null_handles_not_rejected :
  fst (gfx_lowlevel_gpu_ctx_render obliging 1 NULL (Some sample_params)
         (Some sample_frame) (Some [Some sample_frame]) 1 NULL false
         sample_world)
    <> Ret EINVAL
  /\ (forall b,
        fst (gfx_lowlevel_gpu_ctx_start_frame obliging NULL sample_world)
          <> Ret b)
  /\ (forall r,
        fst (gfx_lowlevel_gpu_ctx_finish_frame NULL sample_world) <> Ret r).
Proof. repeat split; intros; vm_compute; discriminate. Qed.

(** C4, amended.  The functions that report errors by their return value
    return their sentinel, after one diagnostic and no other call, when a
    pointer argument they check is NULL: -1 for handle_resize, EINVAL for
    map_frame_ctx, frame_create_texture, frame_clear and render (which
    checks [ctx], [params], [dst_frame] and [src_frames]), NULL for
    frame_ctx_init, mix_ctx_init and init_lut.  The functions
    start_frame and finish_frame guard [ctx] with [assert]: on NULL they
    abort, having called nothing. *)
Theorem null_arguments_rejected (L : oracle) (w : world) :
  (forall width height,
     rejects (gfx_lowlevel_gpu_ctx_handle_resize L NULL width height) w (-1))
  /\ (forall ctx dst src,
        ctx = NULL \/ dst = NULL \/ src = NULL ->
        rejects (gfx_lowlevel_map_frame_ctx L ctx dst src) w EINVAL)
  /\ (forall ctx frame width height,
        ctx = NULL \/ frame = NULL ->
        rejects (gfx_lowlevel_frame_create_texture L ctx frame width height)
                w EINVAL)
  /\ rejects (gfx_lowlevel_frame_ctx_init L NULL) w NULL
  /\ (forall ctx dst_frame r g b a,
        ctx = NULL \/ dst_frame = None ->
        rejects (gfx_lowlevel_frame_clear L ctx dst_frame r g b a) w EINVAL)
  /\ (forall ctx mix_ctx params dst_frame src_frames num_frames lut_ debug,
        ctx = NULL \/ params = None \/ dst_frame = None
        \/ src_frames = None ->
        rejects (gfx_lowlevel_gpu_ctx_render L ctx mix_ctx params dst_frame
                   src_frames num_frames lut_ debug) w EINVAL)
  /\ (forall prelude header body vars num_vars,
        rejects (gfx_lowlevel_mix_ctx_init L NULL prelude header body vars
                   num_vars) w NULL)
  /\ (forall ctx name,
        ctx = NULL \/ name = None ->
        rejects (gfx_lowlevel_init_lut L ctx name) w NULL)
  /\ gfx_lowlevel_gpu_ctx_start_frame L NULL w = (Abort, w)
  /\ gfx_lowlevel_gpu_ctx_finish_frame NULL w = (Abort, w)
  /\ (forall A (m : M A) v,
        rejects m w v ->
        fst (m w) = Ret v
        /\ forallb (fun e => negb (wrapped e)) (new_events m w) = true).
Proof.
  unfold rejects.
  repeat match goal with |- _ /\ _ => split end; try reflexivity.
  - intros. eexists. reflexivity.
  - intros ctx dst src H. unfold gfx_lowlevel_map_frame_ctx.
    assert (E : is_null ctx || is_null dst || is_null src = true).
    { destruct H as [-> | [-> | ->]]; simpl;
        rewrite ?orb_true_r; reflexivity. }
    rewrite E. eexists. reflexivity.
  - intros ctx frame width height H.
    unfold gfx_lowlevel_frame_create_texture.
    assert (E : is_null ctx || is_null frame = true).
    { destruct H as [-> | ->]; simpl; rewrite ?orb_true_r; reflexivity. }
    rewrite E. eexists. reflexivity.
  - eexists. reflexivity.
  - intros ctx dst_frame r g b a H. unfold gfx_lowlevel_frame_clear.
    destruct dst_frame as [f|]; [|eexists; reflexivity].
    destruct H as [-> | H]; [|discriminate]. eexists. reflexivity.
  - intros ctx mix_ctx params dst_frame src_frames num_frames lut_ debug H.
    unfold gfx_lowlevel_gpu_ctx_render.
    destruct params, dst_frame, src_frames; try (eexists; reflexivity).
    destruct H as [-> | [H | [H | H]]]; try discriminate.
    eexists. reflexivity.
  - intros. eexists. reflexivity.
  - intros ctx name H. unfold gfx_lowlevel_init_lut.
    destruct name as [n|]; [|eexists; reflexivity].
    destruct H as [-> | H]; [|discriminate]. eexists. reflexivity.
  - intros A m v [msg E]. unfold new_events. rewrite E. simpl.
    rewrite drop_app_length. auto.
Qed.

Lemma null_arguments_rejected_witness :
  (NULL = NULL \/ Some sample_params = None \/ Some sample_frame = None
   \/ Some [Some sample_frame] = None)
  /\ rejects (gfx_lowlevel_gpu_ctx_render obliging NULL 1
                (Some sample_params) (Some sample_frame)
                (Some [Some sample_frame]) 1 NULL false)
             sample_world EINVAL.
Proof.
  assert (H : NULL = NULL \/ Some sample_params = None
              \/ Some sample_frame = None
              \/ Some [Some sample_frame] = None) by (left; reflexivity).
  split; [exact H|].
  exact (proj1 (proj2 (proj2 (proj2 (proj2 (proj2
           (null_arguments_rejected obliging sample_world))))))
           NULL 1 (Some sample_params) (Some sample_frame)
           (Some [Some sample_frame]) 1 NULL false H).
Defined.

(** ** What a computation leaves untouched *)

Section Keeps.
Context {X : Type} (proj : world -> X).

Lemma keeps_ret {A} (a : A) : keeps proj (ret a).
Proof. intros w. reflexivity. Qed.

Lemma keeps_bind {A B} (m : M A) (k : A -> M B) :
  keeps proj m -> (forall a, keeps proj (k a)) -> keeps proj (bind m k).
Proof.
  intros Hm Hk w. unfold bind. specialize (Hm w).
  destruct (m w) as [[a| | |] w1]; try exact Hm.
  specialize (Hk a w1). destruct (k a w1) as [o w2]. congruence.
Qed.

Lemma keeps_when (b : bool) (m : M unit) :
  keeps proj m -> keeps proj (when b m).
Proof. intros Hm. destruct b; [exact Hm|apply keeps_ret]. Qed.

Lemma keeps_for_loop {St R} fuel i (body : Z -> St -> M (St + R)) s :
  (forall i s, keeps proj (body i s)) -> keeps proj (for_loop fuel i body s).
Proof.
  intros Hb. revert i s. induction fuel as [|fuel IH]; intros i s; simpl.
  - apply keeps_ret.
  - apply keeps_bind; [apply Hb|]. intros [s'|r]; [apply IH|apply keeps_ret].
Qed.

Lemma keeps_for_upto {St R} n (body : Z -> St -> M (St + R)) s :
  (forall i s, keeps proj (body i s)) -> keeps proj (for_upto n body s).
Proof. apply keeps_for_loop. Qed.

Lemma keeps_elim {A} (m : M A) w : keeps proj m -> proj (snd (m w)) = proj w.
Proof. intros H. specialize (H w). destruct (m w). exact H. Qed.

End Keeps.

Ltac keep_prim :=
  let w := fresh "w" in
  intros w;
  unfold update_gpu, update_frame, update_mix, update_lut, update_av,
    malloc_at, memset_gpu, memset_frame, memset_mix, memset_lut, free_gpu,
    free_frame, free_mix, free_lut, av_frame_alloc, av_frame_free,
    fprintf_stderr, member, assert;
  unfold load_gpu, load_frame, load_mix, load_lut, load_av, call, call_void,
    written, fault, exit, ret, bind;
  exec;
  repeat first [ rewrite lookup_insert_ne by congruence
               | rewrite lookup_delete_ne by congruence ];
  reflexivity.

Ltac keep :=
  cbv beta zeta;
  lazymatch goal with
  | |- keeps _ (bind _ _) => apply keeps_bind; [keep | intros ?; keep]
  | |- keeps _ (ret _) => apply keeps_ret
  | |- keeps _ (when _ _) => apply keeps_when; keep
  | |- keeps _ (for_upto _ _ _) => apply keeps_for_upto; intros ? ?; keep
  | |- keeps _ (if ?b then _ else _) => destruct b; keep
  | |- keeps _ (match ?x with _ => _ end) => destruct x; keep
  | |- keeps _ ?m =>
      first [ keep_prim
            | progress unfold ctx_gpu, backref_gpu, copy_string, src_frame_at,
                build_descs, build_attribs, print_shader_res, free_names,
                render_body, render_prepare, render_dispatch,
                map_frame_prepare, map_frame_convert,
                frame_ctx_destroy_guard, gfx_lowlevel_mix_ctx_destroy,
                gfx_lowlevel_destroy_lut, gfx_lowlevel_gpu_ctx_destroy; keep ]
  end.

(** ** The [started] flag *)

Lemma others_keep_gpu_ctxs (L : oracle) :
  (forall ctx, keeps gpu_ctxs (gfx_lowlevel_swapwindow ctx))
  /\ (forall ctx w h, keeps gpu_ctxs (gfx_lowlevel_gpu_ctx_handle_resize L ctx w h))
  /\ (forall ctx dst src, keeps gpu_ctxs (gfx_lowlevel_map_frame_ctx L ctx dst src))
  /\ (forall ctx frame w h, keeps gpu_ctxs (gfx_lowlevel_frame_create_texture L ctx frame w h))
  /\ (forall ctx, keeps gpu_ctxs (gfx_lowlevel_frame_ctx_init L ctx))
  /\ (forall frame, keeps gpu_ctxs (gfx_lowlevel_frame_ctx_destroy L frame))
  /\ (forall ctx dst r g b a, keeps gpu_ctxs (gfx_lowlevel_frame_clear L ctx dst r g b a))
  /\ (forall ctx mix params dst srcs n lut_ debug,
        keeps gpu_ctxs (gfx_lowlevel_gpu_ctx_render L ctx mix params dst srcs n lut_ debug))
  /\ (forall ctx prelude header body vars n,
        keeps gpu_ctxs (gfx_lowlevel_mix_ctx_init L ctx prelude header body vars n))
  /\ (forall mix, keeps gpu_ctxs (gfx_lowlevel_mix_ctx_destroy mix))
  /\ (forall ctx name, keeps gpu_ctxs (gfx_lowlevel_init_lut L ctx name))
  /\ (forall l, keeps gpu_ctxs (gfx_lowlevel_destroy_lut l)).
Proof.
  repeat match goal with |- _ /\ _ => split end; intros.
  - unfold gfx_lowlevel_swapwindow. keep.
  - unfold gfx_lowlevel_gpu_ctx_handle_resize. keep.
  - unfold gfx_lowlevel_map_frame_ctx. keep.
  - unfold gfx_lowlevel_frame_create_texture. keep.
  - unfold gfx_lowlevel_frame_ctx_init. keep.
  - unfold gfx_lowlevel_frame_ctx_destroy. keep.
  - unfold gfx_lowlevel_frame_clear. keep.
  - unfold gfx_lowlevel_gpu_ctx_render. keep.
  - unfold gfx_lowlevel_mix_ctx_init. keep.
  - unfold gfx_lowlevel_mix_ctx_destroy. keep.
  - unfold gfx_lowlevel_init_lut. keep.
  - unfold gfx_lowlevel_destroy_lut. keep.
Qed.

Lemma start_frame_run (L : oracle) ctx c w :
  ctx <> NULL -> gpu_ctxs w !! ctx = Some c -> swchain c <> NULL ->
  started c = false ->
  returns (gfx_lowlevel_gpu_ctx_start_frame L ctx w)
    (fun b w' =>
       (b = true <-> ret_int L (trace w ++ [Pl_swapchain_start_frame (swchain c)]) <> 0)
       /\ exists c', gpu_ctxs w' !! ctx = Some c' /\ started c' = b).
Proof.
  intros Hn Hc Hs Hf. apply is_null_false in Hn, Hs.
  unfold returns, gfx_lowlevel_gpu_ctx_start_frame, assert, update_gpu,
    load_gpu, bind, call, written, call_void, ret.
  destruct c as [sw v vs sc sf wf r l st]. simpl in *. subst st.
  exec. 
  - split.
    + split; [discriminate|]. intros N. apply Z.eqb_eq in Heqb. contradiction.
    + eexists. split; reflexivity.
  - split.
    + split; [|reflexivity]. intros _. apply Z.eqb_neq. assumption.
    + eexists. split; reflexivity.
Qed.

Lemma finish_frame_run ctx c w :
  ctx <> NULL -> gpu_ctxs w !! ctx = Some c -> swchain c <> NULL ->
  started c = true ->
  returns (gfx_lowlevel_gpu_ctx_finish_frame ctx w)
    (fun r w' =>
       r = 0 /\ exists c', gpu_ctxs w' !! ctx = Some c' /\ started c' = false).
Proof.
  intros Hn Hc Hs Hf. apply is_null_false in Hn, Hs.
  unfold returns, gfx_lowlevel_gpu_ctx_finish_frame, assert, update_gpu,
    load_gpu, bind, call_void, ret.
  destruct c as [sw v vs sc sf wf r l st]. simpl in *. subst st.
  exec. split; [reflexivity|]. eexists. split; reflexivity.
Qed.

Lemma destroy_keeps_others (L : oracle) p q :
  q <> p -> keeps (fun w => gpu_ctxs w !! q) (gfx_lowlevel_gpu_ctx_destroy L (Some p)).
Proof.
  intros N. unfold gfx_lowlevel_gpu_ctx_destroy. keep.
Qed.

Lemma init_keeps_others (L : oracle) window q c w :
  gpu_ctxs w !! q = Some c ->
  gpu_ctxs (snd (gfx_lowlevel_gpu_ctx_init L window w)) !! q = Some c.
Proof.
  intros Hq. unfold gfx_lowlevel_gpu_ctx_init.
  match goal with
  | |- context [bind _ ?k] =>
      assert (Hk : forall p, q <> p ->
                           keeps (fun w => gpu_ctxs w !! q) (k p))
  end.
  { intros p N. keep. }
  unfold bind at 1. unfold malloc_at at 1. unfold bind at 1, call at 1.
  cbv beta iota zeta.
  destruct (is_null (ret_int L _)) eqn:Em.
  - unfold ret at 1. cbv beta iota. change (is_null NULL) with true.
    cbv iota. rewrite <- Hq.
    match goal with
    | |- context [snd (?m ?w1)] =>
        apply (keeps_elim (fun w => gpu_ctxs w !! q) m w1)
    end.
    keep.
  - rewrite <- Hq.
    assert (N : q <> fresh_addr (gpu_ctxs w)).
    { intros ->. rewrite fresh_addr_unused in Hq. discriminate. }
    exact (keeps_elim _ _ (set_trace (trace w ++ [Malloc K_gpu_ctx 1]) w)
                      (Hk (fresh_addr (gpu_ctxs w)) N)).
Qed.

(** C9.  The [started] flag is false in the context that a successful
    [gfx_lowlevel_gpu_ctx_init] returns.  On a live context with a
    swapchain, [gfx_lowlevel_gpu_ctx_start_frame] requires the flag to be
    false (it aborts otherwise), returns true exactly when
    [pl_swapchain_start_frame] does, and leaves the flag equal to the value
    it returns; [gfx_lowlevel_gpu_ctx_finish_frame] requires the flag to be
    true (it aborts otherwise), returns 0 and leaves the flag false.  Every
    other function leaves all gpu contexts as they are, except that
    [gfx_lowlevel_gpu_ctx_init] adds one and
    [gfx_lowlevel_gpu_ctx_destroy] removes the one it is given. *)
Theorem started_flag_alternates (L : oracle) :
  (forall window w ctx w',
     gfx_lowlevel_gpu_ctx_init L window w = (Ret ctx, w') -> ctx <> NULL ->
     exists c, gpu_ctxs w' !! ctx = Some c /\ started c = false)
  /\ (forall ctx c w,
        ctx <> NULL -> gpu_ctxs w !! ctx = Some c -> swchain c <> NULL ->
        (started c = true ->
         fst (gfx_lowlevel_gpu_ctx_start_frame L ctx w) = Abort)
        /\ (started c = false ->
            exists b w' c',
              gfx_lowlevel_gpu_ctx_start_frame L ctx w = (Ret b, w')
              /\ (b = true <->
                  ret_int L (trace w
                             ++ [Pl_swapchain_start_frame (swchain c)]) <> 0)
              /\ gpu_ctxs w' !! ctx = Some c' /\ started c' = b))
  /\ (forall ctx c w,
        ctx <> NULL -> gpu_ctxs w !! ctx = Some c -> swchain c <> NULL ->
        (started c = false ->
         fst (gfx_lowlevel_gpu_ctx_finish_frame ctx w) = Abort)
        /\ (started c = true ->
            exists w' c',
              gfx_lowlevel_gpu_ctx_finish_frame ctx w = (Ret 0, w')
              /\ gpu_ctxs w' !! ctx = Some c' /\ started c' = false))
  /\ ((forall ctx, keeps gpu_ctxs (gfx_lowlevel_swapwindow ctx))
      /\ (forall ctx w h,
            keeps gpu_ctxs (gfx_lowlevel_gpu_ctx_handle_resize L ctx w h))
      /\ (forall ctx dst src,
            keeps gpu_ctxs (gfx_lowlevel_map_frame_ctx L ctx dst src))
      /\ (forall ctx frame w h,
            keeps gpu_ctxs
                  (gfx_lowlevel_frame_create_texture L ctx frame w h))
      /\ (forall ctx, keeps gpu_ctxs (gfx_lowlevel_frame_ctx_init L ctx))
      /\ (forall frame,
            keeps gpu_ctxs (gfx_lowlevel_frame_ctx_destroy L frame))
      /\ (forall ctx dst r g b a,
            keeps gpu_ctxs (gfx_lowlevel_frame_clear L ctx dst r g b a))
      /\ (forall ctx mix params dst srcs n lut_ debug,
            keeps gpu_ctxs
                  (gfx_lowlevel_gpu_ctx_render L ctx mix params dst srcs n
                                               lut_ debug))
      /\ (forall ctx prelude header body vars n,
            keeps gpu_ctxs
                  (gfx_lowlevel_mix_ctx_init L ctx prelude header body vars
                                             n))
      /\ (forall mix, keeps gpu_ctxs (gfx_lowlevel_mix_ctx_destroy mix))
      /\ (forall ctx name, keeps gpu_ctxs (gfx_lowlevel_init_lut L ctx name))
      /\ (forall l, keeps gpu_ctxs (gfx_lowlevel_destroy_lut l)))
  /\ (forall p q,
        q <> p ->
        keeps (fun w => gpu_ctxs w !! q)
              (gfx_lowlevel_gpu_ctx_destroy L (Some p)))
  /\ (forall window q c w,
        gpu_ctxs w !! q = Some c ->
        gpu_ctxs (snd (gfx_lowlevel_gpu_ctx_init L window w)) !! q = Some c).
Proof.
  split; [|split; [|split; [|split; [|split]]]].
  - intros window w ctx w' E N.
    destruct (on_return_elim _ _ _ _ (gpu_ctx_init_cases L window w) E N)
      as (_ & _ & c & Hc & _ & Hs & _).
    exists c. auto.
  - intros ctx c w Hn Hc Hs. split; intros Hf.
    + apply is_null_false in Hn, Hs.
      unfold gfx_lowlevel_gpu_ctx_start_frame, assert, load_gpu, bind.
      rewrite Hn. simpl. rewrite Hc. simpl. rewrite Hs. simpl.
      rewrite Hf. reflexivity.
    + destruct (returns_elim _ _ (start_frame_run L ctx c w Hn Hc Hs Hf))
        as (b & w' & E & Hb & c' & Hc' & Hs').
      exists b, w', c'. auto.
  - intros ctx c w Hn Hc Hs. split; intros Hf.
    + apply is_null_false in Hn, Hs.
      unfold gfx_lowlevel_gpu_ctx_finish_frame, assert, load_gpu, bind.
      rewrite Hn. simpl. rewrite Hc. simpl. rewrite Hs. simpl.
      rewrite Hf. reflexivity.
    + destruct (returns_elim _ _ (finish_frame_run ctx c w Hn Hc Hs Hf))
        as (r & w' & E & -> & c' & Hc' & Hs').
      exists w', c'. auto.
  - apply others_keep_gpu_ctxs.
  - intros p q N. apply destroy_keeps_others. exact N.
  - apply init_keeps_others.
Qed.

Lemma started_flag_alternates_witness :
  (1 <> NULL /\ gpu_ctxs sample_world !! 1 = Some sample_gpu_ctx
   /\ swchain sample_gpu_ctx <> NULL /\ started sample_gpu_ctx = false)
  /\ exists b w' c',
       gfx_lowlevel_gpu_ctx_start_frame obliging 1 sample_world = (Ret b, w')
       /\ (b = true <->
           ret_int obliging
             (trace sample_world
              ++ [Pl_swapchain_start_frame (swchain sample_gpu_ctx)]) <> 0)
       /\ gpu_ctxs w' !! 1 = Some c' /\ started c' = b.
Proof.
  assert (H1 : 1 <> NULL) by discriminate.
  assert (H2 : gpu_ctxs sample_world !! 1 = Some sample_gpu_ctx)
    by (vm_compute; reflexivity).
  assert (H3 : swchain sample_gpu_ctx <> NULL) by discriminate.
  assert (H4 : started sample_gpu_ctx = false) by reflexivity.
  split; [exact (conj H1 (conj H2 (conj H3 H4)))|].
  exact (proj2 (proj1 (proj2 (started_flag_alternates obliging))
                      1 sample_gpu_ctx sample_world H1 H2 H3) H4).
Defined.

(** ** [gfx_lowlevel_map_frame_ctx] *)

Ltac unfold_map_frame :=
  unfold gfx_lowlevel_map_frame_ctx, map_frame_prepare, map_frame_convert,
    ctx_gpu, av_frame_alloc, av_frame_free, when, member;
  unfold update_frame, update_av, fprintf_stderr;
  unfold load_gpu, load_frame, load_av, call, call_void, written, fault,
    exit, ret, bind.

Lemma map_frame_events (L : oracle) ctx dst src w :
  always (gfx_lowlevel_map_frame_ctx L ctx dst src w)
    (fun w' => maps_only_converted src [] (drop (length (trace w)) (trace w'))).
Proof.
  unfold always. unfold_map_frame.
  exec_named.
  all: events; rewrite ?drop_all; simpl; repeat split; auto;
    apply fresh_addr_ne; live.
Qed.

Lemma map_frame_prepare_to_rgba (L : oracle) ctx dst src w :
  on_return (map_frame_prepare L ctx dst src w)
    (fun r w1 =>
       match r with
       | inl _ => exists d1, frame_ctxs w1 !! dst = Some d1 /\ to_rgba d1 <> NULL
       | inr _ => True
       end).
Proof.
  unfold on_return. unfold_map_frame.
  exec_named; auto; eexists; (split; [first [eassumption | reflexivity]|]);
    apply is_null_false; assumption.
Qed.

Ltac absurd_code :=
  exfalso;
  repeat match goal with
         | H : (_ <? _) = true |- _ => apply Z.ltb_lt in H
         end;
  unfold EINVAL, ENOMEM in *; subst; lia.

Lemma map_frame_success (L : oracle) ctx dst src c d s w :
  gpu_ctxs w !! ctx = Some c ->
  frame_ctxs w !! dst = Some d -> avframes w !! src = Some s ->
  on_return (gfx_lowlevel_map_frame_ctx L ctx dst src w)
    (fun r w' => r = 0 -> mapped_as_specified L dst src c d s w w').
Proof.
  intros Hc Hd Hs.
  unfold on_return, mapped_as_specified, then_call. unfold_map_frame.
  destruct d as [dm df dt db dr]. destruct s as [sf sw sh sd sl].
  exec_named; try exact I; intros R; try discriminate R; try absurd_code.
  all: unname; rewrite ?insert_insert_eq.
  all: repeat split; try reflexivity; apply is_null_false; assumption.
Qed.

(** A call that the library is known to answer with success has not
    failed. *)
Ltac not_refused H :=
  exfalso;
  match goal with
  | E : ret_int ?L (?t ++ [?e]) = ?x, N : is_null ?x = true |- _ =>
      let C := fresh in
      pose proof (H (t ++ [e])) as C; unfold reports_success in C;
      rewrite last_snoc, E in C; apply is_null_true in N; contradiction
  | E : ret_int ?L (?t ++ [?e]) = ?x, N : (?x <? 0) = true |- _ =>
      let C := fresh in
      pose proof (H (t ++ [e])) as C; unfold reports_success in C;
      rewrite last_snoc, E in C; apply Z.ltb_lt in N; lia
  end.

Lemma map_frame_goes_through (L : oracle) ctx dst src c d s w :
  ctx <> NULL -> dst <> NULL -> src <> NULL ->
  gpu_ctxs w !! ctx = Some c -> vk c <> NULL ->
  frame_ctxs w !! dst = Some d -> avframes w !! src = Some s ->
  (forall t, reports_success L t) ->
  returns (gfx_lowlevel_map_frame_ctx L ctx dst src w) (fun r _ => r = 0).
Proof.
  intros Nc Nd Ns Hc Hv Hd Hs H.
  apply is_null_false in Nc, Nd, Ns, Hv.
  unfold returns. unfold_map_frame.
  rewrite Nc, Nd, Ns. simpl.
  exec_named; try reflexivity; try discriminate; try not_refused H.
Qed.

(** C6.  On live [ctx], [dst] and [src], a [gfx_lowlevel_map_frame_ctx] to
    which the libraries report success returns 0; and a call that returns 0
    has made exactly these calls, in this order: the creation of the RGBA
    conversion context if [dst] had none; the unmapping of the frame
    previously mapped in [dst], if any; for a VideoToolbox frame, the
    allocation of a frame of format NV12 and the transfer of [src] to it;
    the allocation of an RGBA frame of the size of the decoded frame (the
    transferred one, or [src] itself), [sws_scale] of the decoded frame
    into it, and [pl_map_avframe_ex] of it with the GPU of [ctx] and the
    textures of [dst]; the release of the temporary frames.  In the end
    [dst->is_mapped] is true, [dst->pl_frame] and [dst->tex] are what
    [pl_map_avframe_ex] wrote and [dst->to_rgba] is the conversion
    context. *)
Theorem map_frame_ctx_success (L : oracle) (ctx dst src : Z)
    (c : gfx_lowlevel_gpu_ctx) (d : gfx_lowlevel_frame_ctx) (s : AVFrame)
    (w : world) :
  ctx <> NULL -> dst <> NULL -> src <> NULL ->
  gpu_ctxs w !! ctx = Some c -> vk c <> NULL ->
  frame_ctxs w !! dst = Some d -> avframes w !! src = Some s ->
  ((forall t, reports_success L t) ->
   exists w', gfx_lowlevel_map_frame_ctx L ctx dst src w = (Ret 0, w'))
  /\ (forall w',
        gfx_lowlevel_map_frame_ctx L ctx dst src w = (Ret 0, w') ->
        mapped_as_specified L dst src c d s w w').
Proof.
  intros Nc Nd Ns Hc Hv Hd Hs. split.
  - intros H.
    pose proof (map_frame_goes_through L ctx dst src c d s w Nc Nd Ns Hc Hv
                                       Hd Hs H) as G.
    destruct (returns_elim _ _ G) as (r & w' & E & R).
    exists w'. rewrite E, R. reflexivity.
  - intros w' E.
    exact (on_return_elim _ _ _ _
             (map_frame_success L ctx dst src c d s w Hc Hd Hs) E eq_refl).
Qed.

Lemma map_frame_ctx_success_witness :
  let run := gfx_lowlevel_map_frame_ctx obliging 1 1 1 in
  (1 <> NULL /\ gpu_ctxs hardware_world !! 1 = Some sample_gpu_ctx
   /\ vk sample_gpu_ctx <> NULL
   /\ frame_ctxs hardware_world !! 1 = Some sample_frame_ctx
   /\ avframes hardware_world !! 1 = Some hardware_frame
   /\ (forall t, reports_success obliging t))
  /\ run hardware_world = (Ret 0, snd (run hardware_world))
  /\ mapped_as_specified obliging 1 1 sample_gpu_ctx sample_frame_ctx
                         hardware_frame hardware_world
                         (snd (run hardware_world))
  /\ new_events run hardware_world
     = [Sws_getContext 1920 1080 AV_PIX_FMT_NV12 1920 1080 AV_PIX_FMT_RGBA
                       SWS_BILINEAR;
        Av_frame_alloc;
        Av_hwframe_transfer_data 2 (Av_frame AV_PIX_FMT_NV12 640 480 50 60)
                                 1 0;
        Av_frame_alloc;
        Av_frame_get_buffer 3 (Av_frame AV_PIX_FMT_RGBA 640 480 50 60) 32;
        Sws_scale 1 50 60 0 480 640 480;
        Pl_map_avframe_ex 6 3 (Av_frame AV_PIX_FMT_RGBA 640 480 640 480)
                          [NULL; NULL; NULL; NULL];
        Av_frame_free 2; Av_frame_free 3].
Proof.
  cbv zeta.
  assert (N : 1 <> NULL) by discriminate.
  assert (H0 : gpu_ctxs hardware_world !! 1 = Some sample_gpu_ctx)
    by (vm_compute; reflexivity).
  assert (Hv : vk sample_gpu_ctx <> NULL) by discriminate.
  assert (H1 : frame_ctxs hardware_world !! 1 = Some sample_frame_ctx)
    by (vm_compute; reflexivity).
  assert (H2 : avframes hardware_world !! 1 = Some hardware_frame)
    by (vm_compute; reflexivity).
  assert (H3 : forall t, reports_success obliging t).
  { intros t. unfold reports_success.
    destruct (last t) as [[]|]; simpl; try exact I; try discriminate; lia. }
  split; [exact (conj N (conj H0 (conj Hv (conj H1 (conj H2 H3)))))|].
  destruct (map_frame_ctx_success obliging 1 1 1 sample_gpu_ctx
              sample_frame_ctx hardware_frame hardware_world N N N H0 Hv H1
              H2) as [G S].
  destruct (G H3) as [w' E].
  split; [rewrite E; reflexivity|].
  split; [|vm_compute; reflexivity].
  apply S. rewrite E. reflexivity.
Defined.

(** C8.  When [map_frame_prepare] hands over to the mapping step, the
    conversion context [dst->to_rgba] is not NULL; and whatever way
    [gfx_lowlevel_map_frame_ctx] ends, every frame it has passed to
    [pl_map_avframe_ex] is an RGBA frame that it allocated and that
    [sws_scale] wrote just before, never the frame [src]. *)
Theorem map_frame_always_converts (L : oracle) (ctx dst src : Z) (w : world) :
  on_return (map_frame_prepare L ctx dst src w)
    (fun r w1 =>
       match r with
       | inl _ =>
           exists d1, frame_ctxs w1 !! dst = Some d1 /\ to_rgba d1 <> NULL
       | inr _ => True
       end)
  /\ maps_only_converted src []
       (new_events (gfx_lowlevel_map_frame_ctx L ctx dst src) w).
Proof.
  split; [apply map_frame_prepare_to_rgba|].
  pose proof (map_frame_events L ctx dst src w) as H.
  unfold always, new_events in *.
  destruct (gfx_lowlevel_map_frame_ctx L ctx dst src w) as [o w'].
  exact H.
Qed.

(** The predicate of C8 does exclude the direct mapping of [src]. *)
Example direct_mapping_is_excluded :
  ~ maps_only_converted 1 []
      [Pl_map_avframe_ex 6 1 (Av_frame AV_PIX_FMT_NV12 640 480 50 60) []].
Proof. simpl. intros [[N _] _]. apply N. reflexivity. Qed.

(** ** [gfx_lowlevel_gpu_ctx_render] *)

Lemma dec_digits_length fuel n acc :
  (String.length (dec_digits fuel n acc) <= fuel + String.length acc)%nat.
Proof.
  revert n acc. induction fuel as [|fuel IH]; intros n acc; simpl.
  - lia.
  - destruct (n <? 10); simpl; [lia|].
    etransitivity; [apply IH|]. simpl. lia.
Qed.

Lemma substring_whole (s : string) (n : nat) :
  (String.length s <= n)%nat -> substring 0 n s = s.
Proof.
  revert n. induction s as [|c s IH]; intros n H; simpl in *.
  - destruct n; reflexivity.
  - destruct n as [|n]; [lia|]. rewrite IH by lia. reflexivity.
Qed.

Lemma string_app_length (s t : string) :
  String.length (s +:+ t) = (String.length s + String.length t)%nat.
Proof. induction s as [|c s IH]; simpl; [reflexivity|]. rewrite IH. reflexivity. Qed.

Lemma fmt_d_length (i : Z) : 0 <= i -> (String.length (fmt_d i) <= 10)%nat.
Proof.
  intros H. unfold fmt_d. destruct (i <? 0) eqn:E; [apply Z.ltb_lt in E; lia|].
  etransitivity; [apply dec_digits_length|]. simpl. lia.
Qed.

Lemma snprintf_name (prefix : string) (i : Z) :
  0 <= i -> (String.length prefix <= 21)%nat ->
  snprintf 32 (prefix +:+ fmt_d i) = prefix +:+ fmt_d i.
Proof.
  intros Hi Hp. unfold snprintf. apply substring_whole.
  rewrite string_app_length. pose proof (fmt_d_length i Hi). simpl. lia.
Qed.

(** *** The calls a computation makes *)

Section Emits.
Context (Q : event -> Prop).

Lemma emits_silent {A} (m : M A) :
  keeps trace m -> emits Q m.
Proof.
  intros H w. specialize (H w). destruct (m w) as [o w'].
  exists []. rewrite app_nil_r. auto.
Qed.

Lemma emits_ret {A} (a : A) : emits Q (ret a).
Proof. apply emits_silent, keeps_ret. Qed.

Lemma emits_bind_post {A B} (R : A -> Prop) (m : M A) (k : A -> M B) :
  (forall w, on_return (m w) (fun a _ => R a)) ->
  emits Q m -> (forall a, R a -> emits Q (k a)) -> emits Q (bind m k).
Proof.
  intros Hr Hm Hk w. unfold bind. specialize (Hm w). specialize (Hr w).
  destruct (m w) as [[a| | |] w1]; try exact Hm.
  simpl in Hr. specialize (Hk a Hr w1). destruct (k a w1) as [o w2].
  destruct Hm as (e1 & T1 & F1), Hk as (e2 & T2 & F2).
  exists (e1 ++ e2). rewrite T2, T1, app_assoc. split; [reflexivity|].
  apply Forall_app. auto.
Qed.

Lemma emits_bind {A B} (m : M A) (k : A -> M B) :
  emits Q m -> (forall a, emits Q (k a)) -> emits Q (bind m k).
Proof.
  intros Hm Hk. apply (emits_bind_post (fun _ => True)); auto.
  intros w. apply on_return_any. auto.
Qed.

Lemma emits_when (b : bool) (m : M unit) : emits Q m -> emits Q (when b m).
Proof. intros Hm. destruct b; [exact Hm|apply emits_ret]. Qed.

Lemma emits_for_loop {St R} fuel i (body : Z -> St -> M (St + R)) s :
  (forall i s, emits Q (body i s)) -> emits Q (for_loop fuel i body s).
Proof.
  intros Hb. revert i s. induction fuel as [|fuel IH]; intros i s; simpl.
  - apply emits_ret.
  - apply emits_bind; [apply Hb|]. intros [s'|r]; [apply IH|apply emits_ret].
Qed.

Lemma emits_for_upto {St R} n (body : Z -> St -> M (St + R)) s :
  (forall i s, emits Q (body i s)) -> emits Q (for_upto n body s).
Proof. apply emits_for_loop. Qed.

Lemma emits_call_void (e : event) : Q e -> emits Q (call_void e).
Proof.
  intros H w. simpl. exists [e]. split; [reflexivity|]. constructor; auto.
Qed.

Lemma emits_call (L : oracle) (e : event) : Q e -> emits Q (call L e).
Proof.
  intros H w. simpl. exists [e]. split; [reflexivity|]. constructor; auto.
Qed.

Lemma emits_elim {A} (m : M A) w :
  emits Q m ->
  exists evs, trace (snd (m w)) = trace w ++ evs /\ Forall Q evs.
Proof. intros H. specialize (H w). destruct (m w). exact H. Qed.

End Emits.

Ltac emit_prim :=
  first [ apply emits_call; first [exact I | simpl; auto]
        | apply emits_call_void; first [exact I | simpl; auto]
        | apply emits_silent; keep_prim ].

Ltac emit :=
  cbv beta zeta;
  lazymatch goal with
  | |- emits _ (bind _ _) => apply emits_bind; [emit | intros ?; emit]
  | |- emits _ (ret _) => apply emits_ret
  | |- emits _ (when _ _) => apply emits_when; emit
  | |- emits _ (for_upto _ _ _) => apply emits_for_upto; intros ? ?; emit
  | |- emits _ (if ?b then _ else _) => destruct b; emit
  | |- emits _ (match ?x with _ => _ end) => destruct x; emit
  | |- emits _ ?m =>
      first [ emit_prim
            | progress unfold fprintf_stderr, ctx_gpu, src_frame_at,
                build_descs, build_attribs, print_shader_res, free_names,
                render_prepare; emit ]
  end.

Lemma render_prepare_quiet (L : oracle) ctx mix params src_frames n :
  emits quiet (render_prepare L ctx mix params src_frames n).
Proof. emit. Qed.

(** *** The two arrays *)

Lemma array_of_snoc {A} (P : nat -> A -> Prop) (l : list A) (x : A) :
  array_of P (Z.of_nat (length l)) l -> P (length l) x ->
  array_of P (Z.of_nat (length (l ++ [x]))) (l ++ [x]).
Proof.
  intros [_ Hl] Hx. split; [reflexivity|].
  intros i y Hy. apply lookup_app_Some in Hy as [Hy | [Hi Hy]].
  - eauto.
  - destruct (i - length l)%nat as [|k] eqn:E; simpl in Hy; [|destruct k; discriminate].
    injection Hy as <-. replace i with (length l) by lia. exact Hx.
Qed.

Lemma build_loop {A} (P : nat -> A -> Prop)
    (body : Z -> list A -> M (list A + Z)) :
  (forall (acc : list A) w,
     on_return (body (Z.of_nat (length acc)) acc w)
       (fun r _ =>
          match r with
          | inl l => exists x, l = acc ++ [x] /\ P (length acc) x
          | inr code => code <> 0
          end)) ->
  forall fuel acc w,
    array_of P (Z.of_nat (length acc)) acc ->
    on_return (for_loop fuel (Z.of_nat (length acc)) body acc w)
      (fun r _ =>
         match r with
         | inl l => array_of P (Z.of_nat (length acc + fuel)) l
         | inr code => code <> 0
         end).
Proof.
  intros Hb. induction fuel as [|fuel IH]; intros acc w Hacc; simpl.
  - rewrite Nat.add_0_r. exact Hacc.
  - apply on_return_bind. specialize (Hb acc w).
    destruct (body (Z.of_nat (length acc)) acc w) as [[[l|code]| | |] w1];
      simpl in *; auto.
    destruct Hb as (x & -> & Hx).
    pose proof (array_of_snoc P acc x Hacc Hx) as Hl.
    specialize (IH (acc ++ [x]) w1 Hl).
    rewrite length_app in IH. simpl in IH.
    replace (Z.of_nat (length acc + 1)) with (Z.of_nat (length acc) + 1)
      in IH by lia.
    replace (length acc + S fuel)%nat with (length acc + 1 + fuel)%nat by lia.
    exact IH.
Qed.

Lemma array_of_nil {A} (P : nat -> A -> Prop) :
  array_of P (Z.of_nat (length (@nil A))) [].
Proof. split; [reflexivity|]. intros i x Hx. discriminate. Qed.

Lemma build_descs_specified (L : oracle) src_frames n w :
  0 <= n ->
  on_return (build_descs L src_frames n w)
    (fun r _ =>
       match r with
       | inl descs => array_of (desc_as_specified src_frames) n descs
       | inr code => code <> 0
       end).
Proof.
  intros Hn. unfold build_descs, for_upto.
  match goal with
  | |- on_return (for_loop _ _ ?body _ _) _ =>
      pose proof (build_loop (desc_as_specified src_frames) body) as H
  end.
  specialize (fun Hb => H Hb (Z.to_nat n) [] w (array_of_nil _)).
  cbn [length Nat.add] in H. rewrite Z2Nat.id in H by exact Hn.
  apply H. clear H. intros acc w0.
  unfold on_return, src_frame_at, fprintf_stderr, call, call_void, fault,
    ret, bind, desc_as_specified, shader_desc.
  rewrite Nat2Z.id.
  exec; auto; try discriminate.
  eexists; (split; [reflexivity|]).
  eexists; (split; [reflexivity|]).
  rewrite snprintf_name by (simpl; lia). reflexivity.
Qed.

Lemma build_attribs_specified (L : oracle) ctx params n w :
  0 <= n ->
  on_return (build_attribs L ctx params n w)
    (fun r _ =>
       match r with
       | inl attribs =>
           array_of (attrib_as_specified (p_src params)) n attribs
       | inr code => code <> 0
       end).
Proof.
  intros Hn. unfold build_attribs, for_upto.
  match goal with
  | |- on_return (for_loop _ _ ?body _ _) _ =>
      pose proof (build_loop (attrib_as_specified (p_src params)) body) as H
  end.
  specialize (fun Hb => H Hb (Z.to_nat n) [] w (array_of_nil _)).
  cbn [length Nat.add] in H. rewrite Z2Nat.id in H by exact Hn.
  apply H. clear H. intros acc w0.
  unfold on_return, ctx_gpu, member, load_gpu, fprintf_stderr, call,
    call_void, fault, ret, bind, attrib_as_specified, shader_va,
    corner_verts, vert_at.
  exec; auto; try discriminate;
    eexists; (split; [reflexivity|]); simpl;
    rewrite snprintf_name by (simpl; lia); auto.
Qed.

Lemma on_return_bind_post {A B} (R : A -> world -> Prop) (m : M A)
    (k : A -> M B) w P :
  on_return (m w) R ->
  (forall a w1, R a w1 -> on_return (k a w1) P) ->
  on_return (bind m k w) P.
Proof.
  intros Hm Hk. unfold bind.
  destruct (m w) as [[a| | |] w1]; simpl in *; auto.
Qed.

Lemma render_prepare_specified (L : oracle) ctx mix params src_frames n w :
  0 <= n ->
  on_return (render_prepare L ctx mix params src_frames n w)
    (fun r _ =>
       match r with
       | inl (_, descs, attribs) =>
           array_of (desc_as_specified src_frames) n descs
           /\ array_of (attrib_as_specified (p_src params)) n attribs
       | inr code => code <> 0
       end).
Proof.
  intros Hn. unfold render_prepare.
  apply on_return_bind, on_return_any. intros m w1.
  apply on_return_bind, on_return_any. intros sh w2.
  destruct (is_null sh).
  { apply on_return_bind, on_return_any. intros. discriminate. }
  apply on_return_bind, on_return_any. intros mem w3.
  destruct (is_null mem).
  { apply on_return_bind, on_return_any. intros. discriminate. }
  eapply on_return_bind_post; [apply build_descs_specified, Hn|].
  intros [descs|code] w4 Hd; [|exact Hd].
  apply on_return_bind, on_return_any. intros mem' w5.
  destruct (is_null mem').
  { apply on_return_bind, on_return_any. intros.
    apply on_return_bind, on_return_any. intros. discriminate. }
  eapply on_return_bind_post; [apply build_attribs_specified, Hn|].
  intros [attribs|code] w6 Ha; [|exact Ha].
  split; assumption.
Qed.

Lemma emits_after_call (Q : event -> Prop) (L : oracle) {B} (e : event)
    (k : Z -> M B) w :
  (forall a, emits Q (k a)) ->
  always (bind (call L e) k w)
    (fun w' => exists rest, trace w' = trace w ++ e :: rest /\ Forall Q rest).
Proof.
  intros H.
  specialize (H (ret_int L (trace w ++ [e])) (set_trace (trace w ++ [e]) w)).
  unfold always, bind, call. cbv beta zeta iota.
  destruct (k _ _) as [o w']. destruct H as (rest & T & F).
  exists rest. simpl in T. rewrite T, <- app_assoc. auto.
Qed.

Lemma render_dispatch_events (L : oracle) mix params dst n lut_ debug sh
    descs attribs w :
  always (render_dispatch L mix params dst n lut_ debug sh descs attribs w)
    (fun w' =>
       exists rest,
         trace w' = trace w
                    ++ Pl_shader_custom
                         sh (custom_shader_params params descs n attribs n)
                       :: rest
         /\ Forall (after_custom sh dst) rest).
Proof.
  unfold render_dispatch. cbv zeta.
  apply emits_after_call. intros ok. emit.
Qed.

Lemma on_return_extends {A} (m : M A) w :
  emits any_event m ->
  on_return (m w) (fun _ w' => exists evs, trace w' = trace w ++ evs).
Proof.
  intros H. specialize (H w). destruct (m w) as [[a| | |] w']; simpl; auto.
  destruct H as (evs & T & _). eauto.
Qed.

Lemma render_dispatch_success (L : oracle) mix params dst n lut_ sh descs
    attribs w :
  on_return
    (render_dispatch L mix params dst n lut_ false sh descs attribs w)
    (fun r w' =>
       r = 0 ->
       exists d dp,
         In (Pl_dispatch_finish d dp) (drop (length (trace w)) (trace w'))).
Proof.
  unfold render_dispatch. cbv zeta.
  apply on_return_bind_post
    with (R := fun _ w1 => exists evs, trace w1 = trace w ++ evs).
  { apply on_return_extends. emit. }
  intros ok w1 (e1 & T1). destruct (ok =? 0).
  { apply on_return_bind, on_return_any. intros. discriminate. }
  apply on_return_bind_post
    with (R := fun _ w2 => exists evs, trace w2 = trace w1 ++ evs).
  { apply on_return_extends. emit. }
  intros _ w2 (e2 & T2).
  apply on_return_bind_post
    with (R := fun (failed : bool) w3 =>
                 failed = false ->
                 exists d dp, trace w3 = trace w2 ++ [Pl_dispatch_finish d dp]).
  { unfold on_return, member, load_mix, fprintf_stderr, call, call_void,
      fault, ret, bind.
    exec; auto; try discriminate. intros _. eauto. }
  intros [|] w3 T3; [intros H; discriminate|].
  destruct (T3 eq_refl) as (d & dp & T3').
  repeat (eapply on_return_bind_post;
          [apply on_return_extends; emit
          |let e := fresh "e" in let T := fresh "T" in
           intros ? ? (e & T)]).
  intros _. exists d, dp. simpl.
  repeat match goal with T : trace _ = _ |- _ => rewrite T; clear T end.
  rewrite <- !app_assoc, drop_app_length, !in_app_iff. simpl. auto.
Qed.

Lemma render_body_forwards (L : oracle) ctx mix params dst src_frames n lut_
    debug w :
  0 <= n ->
  let run := render_body L ctx mix params dst src_frames n lut_ debug in
  render_forwards params dst src_frames n (new_events run w)
  /\ (fst (run w) = Ret 0 ->
      (exists sh p, In (Pl_shader_custom sh p) (new_events run w))
      /\ (debug = false ->
          exists d dp, In (Pl_dispatch_finish d dp) (new_events run w))).
Proof.
  intros Hn run. unfold run, new_events, render_body, bind.
  pose proof (render_prepare_specified L ctx mix params src_frames n w Hn)
    as Hr.
  pose proof (emits_elim quiet _ w
                (render_prepare_quiet L ctx mix params src_frames n))
    as (pre & Tp & Fp).
  destruct (render_prepare L ctx mix params src_frames n w)
    as [[[[[sh descs] attribs]|code]| | |] w1]; simpl in *.
  2-5: rewrite Tp, drop_app_length;
       (split; [left; exact Fp|intros E; try discriminate E]).
  2: injection E as ->; contradiction.
  destruct Hr as [Hd Ha].
  pose proof (render_dispatch_events L mix params dst n lut_ debug sh descs
                                     attribs w1) as He.
  pose proof (render_dispatch_success L mix params dst n lut_ sh descs
                                      attribs w1) as Hs.
  unfold always in He.
  destruct debug;
    destruct (render_dispatch L mix params dst n lut_ _ sh descs attribs w1)
      as [o w2]; destruct He as (rest & T & F); simpl;
    rewrite T, Tp, <- app_assoc, drop_app_length.
  - split.
    + right. exists pre, sh, descs, attribs, rest. auto.
    + intros _. split; [|discriminate].
      exists sh, (custom_shader_params params descs n attribs n).
      rewrite in_app_iff. right. left. reflexivity.
  - split.
    + right. exists pre, sh, descs, attribs, rest. auto.
    + intros ->. split.
      * exists sh, (custom_shader_params params descs n attribs n).
        rewrite in_app_iff. right. left. reflexivity.
      * intros _. simpl in Hs. destruct (Hs eq_refl) as (d & dp & Hi).
        exists d, dp. rewrite T, drop_app_length in Hi.
        rewrite in_app_iff. right. exact Hi.
Qed.

(** C5, as stated, fails in debug mode: with [debug] set and every call
    of the libraries succeeding, [gfx_lowlevel_gpu_ctx_render] returns 0
    after it has called [pl_shader_custom], and it has not called
    [pl_dispatch_finish]. *)
Lemma debug_render_skips_dispatch :
  let run :=
    gfx_lowlevel_gpu_ctx_render obliging 1 1 (Some sample_params)
      (Some sample_frame) (Some [Some sample_frame; Some sample_frame])
      2 1 true in
  0 <= 2
  /\ fst (run sample_world) = Ret 0
  /\ (exists sh p, In (Pl_shader_custom sh p) (new_events run sample_world))
  /\ ~ (exists d dp, In (Pl_dispatch_finish d dp) (new_events run sample_world)).
Proof.
  cbv zeta. split; [lia|]. split; [vm_compute; reflexivity|]. split.
  - eexists. eexists. vm_compute. do 11 right. left. reflexivity.
  - intros (d & dp & H).
    assert (E : existsb is_dispatch_finish
                  (new_events
                     (gfx_lowlevel_gpu_ctx_render obliging 1 1
                        (Some sample_params) (Some sample_frame)
                        (Some [Some sample_frame; Some sample_frame]) 2 1
                        true)
                     sample_world) = false) by (vm_compute; reflexivity).
    apply not_true_iff_false in E. apply E.
    apply existsb_exists. exists (Pl_dispatch_finish d dp).
    split; [exact H|reflexivity].
Qed.

(** C5, amended.  For [num_frames >= 0] and non-NULL [params],
    [dst_frame] and [src_frames], [gfx_lowlevel_gpu_ctx_render] calls
    [pl_shader_custom] at most once, with exactly [num_frames] descriptors, the [i]-th named
    src_tex<i>, of type sampled texture, binding [i], read-only, bound to
    the texture of the first plane of [src_frames[i]], with exactly
    [num_frames] vertex attributes, the [i]-th named src_coord<i> and
    carrying the four corners of [params->src], and with the prelude,
    header, body and variables of [params]; any call of
    [pl_dispatch_finish] comes after it, with the same shader and the
    texture of the first plane of [dst_frame] as target.  When the function
    returns 0 it has called [pl_shader_custom], and, unless in debug mode,
    [pl_dispatch_finish]. *)
Theorem render_builds_descriptors (L : oracle) (ctx mix_ctx : Z)
    (params : gfx_lowlevel_filter_params) (dst_frame : pl_frame)
    (src_frames : list (option pl_frame)) (num_frames lut_ : Z)
    (debug : bool) (w : world) :
  0 <= num_frames ->
  let run :=
    gfx_lowlevel_gpu_ctx_render L ctx mix_ctx (Some params) (Some dst_frame)
                                (Some src_frames) num_frames lut_ debug in
  render_forwards params dst_frame src_frames num_frames (new_events run w)
  /\ (fst (run w) = Ret 0 ->
      (exists sh p, In (Pl_shader_custom sh p) (new_events run w))
      /\ (debug = false ->
          exists d dp, In (Pl_dispatch_finish d dp) (new_events run w))).
Proof.
  intros Hn run. unfold run, gfx_lowlevel_gpu_ctx_render.
  destruct (is_null ctx).
  - split; [|intros E; discriminate E].
    left. unfold new_events. simpl. rewrite drop_app_length.
    constructor; [exact I|constructor].
  - apply render_body_forwards. exact Hn.
Qed.

Lemma render_builds_descriptors_witness :
  (0 <= 2
   /\ fst (gfx_lowlevel_gpu_ctx_render obliging 1 1 (Some sample_params)
             (Some sample_frame) (Some [Some sample_frame; Some sample_frame])
             2 1 false sample_world) = Ret 0)
  /\ let run :=
       gfx_lowlevel_gpu_ctx_render obliging 1 1 (Some sample_params)
         (Some sample_frame) (Some [Some sample_frame; Some sample_frame])
         2 1 false in
     render_forwards sample_params sample_frame
                     [Some sample_frame; Some sample_frame] 2
                     (new_events run sample_world)
     /\ (fst (run sample_world) = Ret 0 ->
         (exists sh p, In (Pl_shader_custom sh p) (new_events run sample_world))
         /\ (false = false ->
             exists d dp,
               In (Pl_dispatch_finish d dp) (new_events run sample_world))).
Proof.
  assert (H : 0 <= 2) by lia.
  split; [split; [exact H|vm_compute; reflexivity]|].
  exact (render_builds_descriptors obliging 1 1 sample_params sample_frame
           [Some sample_frame; Some sample_frame] 2 1 false sample_world H).
Defined.

(** * Further properties *)

(** ** Rules for runs given by an equation *)

Lemma ends_eq {A} (r : outcome A * world) o w :
  ends r (fun o' w' => o' = o /\ w' = w) -> r = (o, w).
Proof. destruct r as [o' w']. simpl. intros [-> ->]. reflexivity. Qed.

Lemma returns_eq {A} (r : outcome A * world) a w :
  returns r (fun a' w' => a' = a /\ w' = w) -> r = (Ret a, w).
Proof.
  destruct r as [[a'| | |] w']; simpl; try contradiction.
  intros [-> ->]. reflexivity.
Qed.

(** Replaces the answers of the libraries by their names, and the tests on
    them by their results. *)
Ltac answers :=
  repeat match goal with
         | E : ?f ?L ?t = ?x |- context [?f ?L ?t] => rewrite E
         end.

Ltac known_nulls :=
  repeat match goal with
         | H : is_null ?x = _ |- context [is_null ?x] => rewrite H
         end.

(** ** Failure of [gfx_lowlevel_gpu_ctx_init] *)

Lemma gpu_ctx_init_total (L : oracle) window w :
  returns (gfx_lowlevel_gpu_ctx_init L window w)
    (fun ctx w' => ctx = NULL -> init_failed L w w').
Proof.
  unfold returns, init_failed, gfx_lowlevel_gpu_ctx_init,
    gfx_lowlevel_gpu_ctx_destroy, malloc_at, memset_gpu, free_gpu, when,
    member, update_gpu, load_gpu, bind, call, written, fprintf_stderr,
    call_void, ret, fault.
  exec_named.
  all: intros N; try (exfalso; exact (fresh_addr_not_null _ N)); clear N.
  all: first
    [ left; split;
      [ rewrite ?delete_insert_eq; try apply delete_id;
        first [apply fresh_addr_unused | reflexivity]
      | events; answers; known_nulls; reflexivity ]
    | right; eexists _, _; events;
      split; [reflexivity|];
      split; [apply fresh_addr_unused|];
      split; [rewrite !insert_insert_eq; reflexivity|];
      simpl; repeat split; try (apply is_null_false; assumption) ].
Qed.

(** X1.  [gfx_lowlevel_gpu_ctx_init] always returns: whatever the window
    and whatever the libraries answer, it does not exit, fails no assertion
    and dereferences no invalid pointer. *)
Theorem gpu_ctx_init_returns (L : oracle) (window : Z) (w : world) :
  exists ctx w', gfx_lowlevel_gpu_ctx_init L window w = (Ret ctx, w').
Proof.
  destruct (returns_elim _ _ (gpu_ctx_init_total L window w))
    as (ctx & w' & E & _).
  eauto.
Qed.

(** X2.  When [gfx_lowlevel_gpu_ctx_init] returns NULL it has released, in
    the reverse order, every resource it had obtained, and freed the
    context; except when [SDL_Vulkan_CreateSurface] fails: then it
    releases nothing, and the context stays allocated with its log and its
    Vulkan context. *)
Theorem gpu_ctx_init_failure_cleanup (L : oracle) (window : Z)
    (w w' : world) :
  gfx_lowlevel_gpu_ctx_init L window w = (Ret NULL, w') ->
  init_failed L w w'.
Proof.
  intros E.
  pose proof (gpu_ctx_init_total L window w) as H. rewrite E in H.
  exact (H eq_refl).
Qed.

Lemma gpu_ctx_init_failure_cleanup_witness :
  gfx_lowlevel_gpu_ctx_init (failing_at is_create_surface 0) 9 empty_world
    = (Ret NULL, after_surface_failure)
  /\ init_failed (failing_at is_create_surface 0) empty_world
                 after_surface_failure
  /\ gpu_ctxs after_surface_failure !! 1
     = Some (Gpu_ctx 9 1 7 NULL 0 pl_frame_zero NULL 1 false).
Proof.
  assert (E : gfx_lowlevel_gpu_ctx_init (failing_at is_create_surface 0) 9
                                        empty_world
              = (Ret NULL, after_surface_failure))
    by (vm_compute; reflexivity).
  split; [exact E|].
  split; [|vm_compute; reflexivity].
  exact (gpu_ctx_init_failure_cleanup (failing_at is_create_surface 0) 9
           empty_world after_surface_failure E).
Defined.

Lemma gpu_ctx_init_success (L : oracle) window w :
  on_return (gfx_lowlevel_gpu_ctx_init L window w)
    (fun ctx w' => ctx <> NULL -> initialised_by L window ctx w w').
Proof.
  unfold on_return, initialised_by, gfx_lowlevel_gpu_ctx_init,
    gfx_lowlevel_gpu_ctx_destroy, malloc_at, memset_gpu, free_gpu, when,
    member, update_gpu, load_gpu, bind, call, written, fprintf_stderr,
    call_void, ret, fault.
  exec_named; try exact I; intros N; try (exfalso; apply N; reflexivity).
  eexists (Gpu_ctx _ _ _ _ _ _ _ _ _), _, _. cbv zeta.
  split; [events; reflexivity|].
  split; [rewrite !insert_insert_eq; reflexivity|].
  simpl. answers. subst. auto.
Qed.

(** X3.  A [gfx_lowlevel_gpu_ctx_init] that returns a context has made,
    in this order, the calls [malloc], [pl_log_create] at level WARN,
    [SDL_Vulkan_GetVkGetInstanceProcAddr], [pl_vulkan_create] with the log,
    the three MoltenVK and surface extensions and the loader obtained,
    [SDL_Vulkan_CreateSurface] with the window and the instance of the
    Vulkan context, [pl_vulkan_create_swapchain] on this surface in FIFO
    mode, [SDL_GetWindowSize], [pl_swapchain_resize] with the size that
    SDL wrote, and [pl_renderer_create] with the log and the GPU; and the
    new context holds the window and the handles that these calls
    returned, no frame being started. *)
Theorem gpu_ctx_init_success_calls (L : oracle) (window ctx : Z)
    (w w' : world) :
  gfx_lowlevel_gpu_ctx_init L window w = (Ret ctx, w') -> ctx <> NULL ->
  initialised_by L window ctx w w'.
Proof.
  intros E N.
  exact (on_return_elim _ _ _ _ (gpu_ctx_init_success L window w) E N).
Qed.

Lemma gpu_ctx_init_success_calls_witness :
  (gfx_lowlevel_gpu_ctx_init obliging 9 empty_world = (Ret 1, after_init)
   /\ 1 <> NULL)
  /\ initialised_by obliging 9 1 empty_world after_init
  /\ new_events (gfx_lowlevel_gpu_ctx_init obliging 9) empty_world
     = [Malloc K_gpu_ctx 1; Pl_log_create PL_LOG_WARN;
        SDL_Vulkan_GetVkGetInstanceProcAddr;
        Pl_vulkan_create 1
          (Vulkan_params true true 1
             ["VK_MVK_moltenvk"; "VK_MVK_macos_surface";
              "VK_EXT_metal_surface"] 3 1);
        SDL_Vulkan_CreateSurface 9 5;
        Pl_vulkan_create_swapchain 1 7 VK_PRESENT_MODE_FIFO_KHR;
        SDL_GetWindowSize 9; Pl_swapchain_resize 1 640 480;
        Pl_renderer_create 1 6].
Proof.
  assert (E : gfx_lowlevel_gpu_ctx_init obliging 9 empty_world
              = (Ret 1, after_init)) by (vm_compute; reflexivity).
  assert (N : 1 <> NULL) by discriminate.
  split; [exact (conj E N)|].
  split; [|vm_compute; reflexivity].
  exact (gpu_ctx_init_success_calls obliging 9 1 empty_world after_init E N).
Defined.

(** ** [gfx_lowlevel_frame_ctx_destroy] *)

Ltac unfold_frame_destroy :=
  unfold gfx_lowlevel_frame_ctx_destroy, frame_ctx_destroy_guard,
    backref_gpu, ctx_gpu, for_upto, when, member, free_frame, update_frame,
    load_frame, load_gpu, bind, written, call_void, ret, fault.

Lemma frame_ctx_destroy_run (L : oracle) p d gpu w :
  p <> NULL -> frame_ctxs w !! p = Some d -> length (tex d) = 4%nat ->
  backref_usable L w d gpu ->
  returns (gfx_lowlevel_frame_ctx_destroy L (Some p) w)
    (fun h w' =>
       h = Some NULL
       /\ w' = set_trace
                 (trace w ++ frame_release_calls gpu d
                  ++ [Free_ptr K_frame_ctx p])
                 (set_frame_ctxs (delete p (frame_ctxs w)) w)).
Proof.
  intros Hp Hd Hl (Hb & c & Hc & Hs & Hv & Hg & Hn). subst gpu.
  apply is_null_false in Hp, Hb, Hs, Hv, Hn.
  destruct d as [dm df dt db dr]. simpl in *.
  destruct dt as [|t0 [|t1 [|t2 [|t3 [|]]]]]; try discriminate Hl. clear Hl.
  unfold returns, frame_release_calls. unfold_frame_destroy. simpl.
  unfold bind, call_void, ret.
  exec.
  all: split; [reflexivity|].
  all: rewrite ?delete_insert_eq, <- ?app_assoc; simpl; reflexivity.
Qed.

Lemma frame_ctx_destroy_skip (L : oracle) p d w :
  p <> NULL -> frame_ctxs w !! p = Some d ->
  ctx_backref d = NULL
  \/ (exists c,
        gpu_ctxs w !! ctx_backref d = Some c
        /\ (swchain c = NULL \/ vk c <> NULL /\ vk_gpu L (vk c) = NULL)) ->
  returns (gfx_lowlevel_frame_ctx_destroy L (Some p) w)
    (fun h w' => h = Some p /\ w' = w).
Proof.
  intros Hp Hd H. apply is_null_false in Hp.
  destruct d as [dm df dt db dr]. simpl in *.
  unfold returns. unfold_frame_destroy.
  destruct H as [H | (c & Hc & [H | [Hv H]])]; apply is_null_true in H;
    try apply is_null_false in Hv; exec; auto; congruence.
Qed.

Lemma frame_ctx_destroy_dangling (L : oracle) p d w :
  p <> NULL -> frame_ctxs w !! p = Some d ->
  ctx_backref d <> NULL -> gpu_ctxs w !! ctx_backref d = None ->
  ends (gfx_lowlevel_frame_ctx_destroy L (Some p) w)
    (fun o w' => o = Fault /\ w' = w).
Proof.
  intros Hp Hd Hb Hc. apply is_null_false in Hp, Hb.
  destruct d as [dm df dt db dr]. simpl in *.
  unfold ends. unfold_frame_destroy. exec. auto.
Qed.

Lemma gpu_ctx_destroy_frees (L : oracle) p w :
  p <> NULL ->
  on_return (gfx_lowlevel_gpu_ctx_destroy L (Some p) w)
    (fun _ w' => gpu_ctxs w' !! p = None /\ frame_ctxs w' = frame_ctxs w).
Proof.
  intros Hp. apply is_null_false in Hp.
  unfold on_return, gfx_lowlevel_gpu_ctx_destroy, when, member, free_gpu,
    update_gpu, load_gpu, bind, call_void, ret, fault.
  exec; auto; (split; [apply lookup_delete_eq|reflexivity]).
Qed.

(** X4.  On a frame context whose gpu context is in place, with a
    swapchain and a GPU, [gfx_lowlevel_frame_ctx_destroy] unmaps the frame
    if one is mapped, destroys each texture that is not NULL, in the order
    of the four slots, frees the conversion context if there is one, and
    then frees the structure; the handle is left NULL. *)
Theorem frame_ctx_destroy_releases (L : oracle) (p gpu : Z)
    (d : gfx_lowlevel_frame_ctx) (w : world) :
  p <> NULL -> frame_ctxs w !! p = Some d -> length (tex d) = 4%nat ->
  backref_usable L w d gpu ->
  exists w',
    gfx_lowlevel_frame_ctx_destroy L (Some p) w = (Ret (Some NULL), w')
    /\ new_events (gfx_lowlevel_frame_ctx_destroy L (Some p)) w
       = frame_release_calls gpu d ++ [Free_ptr K_frame_ctx p]
    /\ frame_ctxs w' = delete p (frame_ctxs w).
Proof.
  intros Hp Hd Hl Hb.
  pose proof (returns_eq _ _ _ (frame_ctx_destroy_run L p d gpu w Hp Hd Hl Hb))
    as E.
  eexists. split; [exact E|]. unfold new_events. rewrite E. simpl.
  rewrite drop_app_length. auto.
Qed.

Lemma frame_ctx_destroy_releases_witness :
  (1 <> NULL /\ frame_ctxs mapped_world !! 1 = Some mapped_frame_ctx
   /\ length (tex mapped_frame_ctx) = 4%nat
   /\ backref_usable obliging mapped_world mapped_frame_ctx 6)
  /\ new_events (gfx_lowlevel_frame_ctx_destroy obliging (Some 1))
                mapped_world
     = [Pl_unmap_avframe 6 sample_frame; Pl_tex_destroy 6 41;
        Pl_tex_destroy 6 43; Sws_freeContext 50; Free_ptr K_frame_ctx 1].
Proof.
  assert (H1 : 1 <> NULL) by discriminate.
  assert (H2 : frame_ctxs mapped_world !! 1 = Some mapped_frame_ctx)
    by (vm_compute; reflexivity).
  assert (H3 : length (tex mapped_frame_ctx) = 4%nat) by reflexivity.
  assert (H4 : backref_usable obliging mapped_world mapped_frame_ctx 6).
  { split; [discriminate|]. exists sample_gpu_ctx.
    split; [vm_compute; reflexivity|].
    split; [discriminate|]. split; [discriminate|].
    split; [reflexivity|discriminate]. }
  split; [exact (conj H1 (conj H2 (conj H3 H4)))|].
  destruct (frame_ctx_destroy_releases obliging 1 6 mapped_frame_ctx
              mapped_world H1 H2 H3 H4) as (w' & _ & E & _).
  exact E.
Defined.

(** X5.  [gfx_lowlevel_frame_ctx_destroy] does nothing at all, and leaves
    the frame context allocated with whatever it holds, when the frame
    context refers to no gpu context, or to one that has no swapchain or
    no GPU. *)
Theorem frame_ctx_destroy_skipped (L : oracle) (p : Z)
    (d : gfx_lowlevel_frame_ctx) (w : world) :
  p <> NULL -> frame_ctxs w !! p = Some d ->
  ctx_backref d = NULL
  \/ (exists c,
        gpu_ctxs w !! ctx_backref d = Some c
        /\ (swchain c = NULL \/ vk c <> NULL /\ vk_gpu L (vk c) = NULL)) ->
  gfx_lowlevel_frame_ctx_destroy L (Some p) w = (Ret (Some p), w).
Proof.
  intros Hp Hd H. apply returns_eq, (frame_ctx_destroy_skip L p d w Hp Hd H).
Qed.

Lemma frame_ctx_destroy_skipped_witness :
  (1 <> NULL
   /\ frame_ctxs orphan_world !! 1
      = Some (set_ctx_backref NULL mapped_frame_ctx)
   /\ ctx_backref (set_ctx_backref NULL mapped_frame_ctx) = NULL)
  /\ gfx_lowlevel_frame_ctx_destroy obliging (Some 1) orphan_world
     = (Ret (Some 1), orphan_world).
Proof.
  assert (H1 : 1 <> NULL) by discriminate.
  assert (H2 : frame_ctxs orphan_world !! 1
               = Some (set_ctx_backref NULL mapped_frame_ctx))
    by (vm_compute; reflexivity).
  assert (H3 : ctx_backref (set_ctx_backref NULL mapped_frame_ctx) = NULL)
    by reflexivity.
  split; [exact (conj H1 (conj H2 H3))|].
  exact (frame_ctx_destroy_skipped obliging 1
           (set_ctx_backref NULL mapped_frame_ctx) orphan_world H1 H2
           (or_introl H3)).
Defined.

(** X6.  A frame context has to be destroyed before its gpu context: once
    [gfx_lowlevel_gpu_ctx_destroy] has returned,
    [gfx_lowlevel_frame_ctx_destroy] on a frame context that refers to the
    destroyed context reads freed memory. *)
Theorem frame_ctx_outlives_gpu_ctx (L : oracle) (p ctx : Z)
    (d : gfx_lowlevel_frame_ctx) (w w' : world) (h : option Z) :
  p <> NULL -> frame_ctxs w !! p = Some d -> ctx_backref d = ctx ->
  ctx <> NULL ->
  gfx_lowlevel_gpu_ctx_destroy L (Some ctx) w = (Ret h, w') ->
  gfx_lowlevel_frame_ctx_destroy L (Some p) w' = (Fault, w').
Proof.
  intros Hp Hd Hb Hc E. subst ctx.
  destruct (on_return_elim _ _ _ _ (gpu_ctx_destroy_frees L _ w Hc) E)
    as [Hg Hf].
  apply ends_eq, (frame_ctx_destroy_dangling L p d w' Hp); auto.
  rewrite Hf. exact Hd.
Qed.

Lemma frame_ctx_outlives_gpu_ctx_witness :
  (1 <> NULL /\ frame_ctxs sample_world !! 1 = Some sample_frame_ctx
   /\ ctx_backref sample_frame_ctx = 1
   /\ gfx_lowlevel_gpu_ctx_destroy obliging (Some 1) sample_world
      = (Ret (Some NULL), after_destroy))
  /\ gfx_lowlevel_frame_ctx_destroy obliging (Some 1) after_destroy
     = (Fault, after_destroy).
Proof.
  assert (H1 : 1 <> NULL) by discriminate.
  assert (H2 : frame_ctxs sample_world !! 1 = Some sample_frame_ctx)
    by (vm_compute; reflexivity).
  assert (H3 : ctx_backref sample_frame_ctx = 1) by reflexivity.
  assert (H4 : gfx_lowlevel_gpu_ctx_destroy obliging (Some 1) sample_world
               = (Ret (Some NULL), after_destroy))
    by (vm_compute; reflexivity).
  split; [exact (conj H1 (conj H2 (conj H3 H4)))|].
  exact (frame_ctx_outlives_gpu_ctx obliging 1 1 sample_frame_ctx
           sample_world after_destroy (Some NULL) H1 H2 H3 H1 H4).
Defined.

(** X7.  On a gpu context with a swapchain and a GPU,
    [gfx_lowlevel_frame_ctx_destroy] undoes
    [gfx_lowlevel_frame_ctx_init]: the frame contexts are those of before,
    and the two calls together are one [malloc] and one [free]. *)
Theorem frame_ctx_init_destroy_round_trip (L : oracle) (ctx gpu frame : Z)
    (c : gfx_lowlevel_gpu_ctx) (w w1 : world) :
  ctx <> NULL -> gpu_ctxs w !! ctx = Some c ->
  swchain c <> NULL -> vk c <> NULL -> vk_gpu L (vk c) = gpu -> gpu <> NULL ->
  gfx_lowlevel_frame_ctx_init L ctx w = (Ret frame, w1) -> frame <> NULL ->
  exists w2,
    gfx_lowlevel_frame_ctx_destroy L (Some frame) w1 = (Ret (Some NULL), w2)
    /\ frame_ctxs w2 = frame_ctxs w
    /\ trace w2
       = trace w ++ [Malloc K_frame_ctx 1; Free_ptr K_frame_ctx frame].
Proof.
  intros Hn Hc Hs Hv Hg Hgn E Hf.
  assert (I : on_return (gfx_lowlevel_frame_ctx_init L ctx w)
                (fun f w1 =>
                   f <> NULL ->
                   frame_ctxs w !! f = None
                   /\ w1 = set_trace (trace w ++ [Malloc K_frame_ctx 1])
                             (set_frame_ctxs
                                (<[f := set_ctx_backref ctx frame_ctx_zero]>
                                   (frame_ctxs w)) w))).
  { apply is_null_false in Hn.
    unfold on_return, gfx_lowlevel_frame_ctx_init, malloc_at, memset_frame,
      update_frame, load_frame, bind, call, fprintf_stderr, call_void, ret.
    exec_named; intros N; try (exfalso; apply N; reflexivity).
    split; [apply fresh_addr_unused|]. rewrite insert_insert_eq. reflexivity. }
  destruct (on_return_elim _ _ _ _ I E Hf) as [Hfresh ->]. clear I E.
  pose proof (frame_ctx_destroy_run L frame
                (set_ctx_backref ctx frame_ctx_zero) gpu
                (set_trace (trace w ++ [Malloc K_frame_ctx 1])
                   (set_frame_ctxs
                      (<[frame := set_ctx_backref ctx frame_ctx_zero]>
                         (frame_ctxs w)) w)) Hf) as R.
  apply returns_eq in R.
  - eexists. split; [exact R|]. simpl.
    rewrite delete_insert_eq, delete_id by exact Hfresh.
    rewrite <- app_assoc. auto.
  - simpl. apply lookup_insert_eq.
  - reflexivity.
  - split; [exact Hn|]. exists c. simpl. auto.
Qed.

Lemma frame_ctx_init_destroy_round_trip_witness :
  (1 <> NULL /\ gpu_ctxs sample_world !! 1 = Some sample_gpu_ctx
   /\ swchain sample_gpu_ctx <> NULL /\ vk sample_gpu_ctx <> NULL
   /\ vk_gpu obliging (vk sample_gpu_ctx) = 6 /\ 6 <> NULL)
  /\ exists w1 w2,
       gfx_lowlevel_frame_ctx_init obliging 1 sample_world = (Ret 2, w1)
       /\ 2 <> NULL
       /\ gfx_lowlevel_frame_ctx_destroy obliging (Some 2) w1
          = (Ret (Some NULL), w2)
       /\ frame_ctxs w2 = frame_ctxs sample_world
       /\ trace w2
          = trace sample_world
            ++ [Malloc K_frame_ctx 1; Free_ptr K_frame_ctx 2].
Proof.
  assert (H1 : 1 <> NULL) by discriminate.
  assert (H2 : gpu_ctxs sample_world !! 1 = Some sample_gpu_ctx)
    by (vm_compute; reflexivity).
  assert (H3 : 6 <> NULL) by discriminate.
  assert (H4 : 2 <> NULL) by discriminate.
  assert (E : gfx_lowlevel_frame_ctx_init obliging 1 sample_world
              = (Ret 2, snd (gfx_lowlevel_frame_ctx_init obliging 1
                               sample_world)))
    by (vm_compute; reflexivity).
  split; [exact (conj H1 (conj H2 (conj H1 (conj H1 (conj eq_refl H3)))))|].
  destruct (frame_ctx_init_destroy_round_trip obliging 1 6 2 sample_gpu_ctx
              sample_world _ H1 H2 H1 H1 eq_refl H3 E H4)
    as (w2 & Ed & Hh & Ht).
  exists (snd (gfx_lowlevel_frame_ctx_init obliging 1 sample_world)), w2.
  exact (conj E (conj H4 (conj Ed (conj Hh Ht)))).
Defined.

(** ** [gfx_lowlevel_frame_create_texture] *)

Lemma frame_create_texture_run (L : oracle) ctx frame width height c d w :
  ctx <> NULL -> frame <> NULL -> gpu_ctxs w !! ctx = Some c ->
  vk c <> NULL -> frame_ctxs w !! frame = Some d -> length (tex d) = 4%nat ->
  returns (gfx_lowlevel_frame_create_texture L ctx frame width height w)
    (texture_created L frame width height c d w).
Proof.
  intros Hc Hf Hg Hv Hd Hl. apply is_null_false in Hc, Hf, Hv.
  destruct d as [dm df dt db dr]. simpl in *.
  destruct dt as [|t0 [|t1 [|t2 [|t3 [|]]]]]; try discriminate Hl. clear Hl.
  unfold returns, texture_created, textured,
    gfx_lowlevel_frame_create_texture, ctx_gpu, member, update_frame,
    load_frame, load_gpu, fprintf_stderr, bind, call, call_void, ret, fault.
  rewrite Hc, Hf. simpl.
  exec; (split; [reflexivity|]); (split; [events; reflexivity|]);
    rewrite ?insert_insert_eq; try reflexivity.
  apply is_null_true in Heqb0. rewrite Heqb0. reflexivity.
Qed.

(** X8.  On a live context and a live frame context,
    [gfx_lowlevel_frame_create_texture] returns EINVAL when the format
    rgba8 is not found or the texture cannot be created, and 0 otherwise.
    It calls [pl_find_named_fmt] and then, with the size given, depth 0
    and the four usage flags set, [pl_tex_create], and no other function
    of the libraries: a texture already in slot 0 is not destroyed.  On 0
    slot 0 holds the new texture and [pl_frame] has one plane, made of
    this texture with the components and the sample order of the format,
    and unknown colour representation and space; when [pl_tex_create]
    fails slot 0 is left NULL. *)
Theorem frame_create_texture_result (L : oracle)
    (ctx frame width height : Z) (c : gfx_lowlevel_gpu_ctx)
    (d : gfx_lowlevel_frame_ctx) (w : world) :
  ctx <> NULL -> frame <> NULL -> gpu_ctxs w !! ctx = Some c ->
  vk c <> NULL -> frame_ctxs w !! frame = Some d -> length (tex d) = 4%nat ->
  exists r w',
    gfx_lowlevel_frame_create_texture L ctx frame width height w
    = (Ret r, w')
    /\ texture_created L frame width height c d w r w'.
Proof.
  intros Hc Hf Hg Hv Hd Hl.
  apply returns_elim, frame_create_texture_run; assumption.
Qed.

Lemma frame_create_texture_result_witness :
  (1 <> NULL /\ gpu_ctxs mapped_world !! 1 = Some sample_gpu_ctx
   /\ vk sample_gpu_ctx <> NULL
   /\ frame_ctxs mapped_world !! 1 = Some mapped_frame_ctx
   /\ length (tex mapped_frame_ctx) = 4%nat)
  /\ (exists r w',
        gfx_lowlevel_frame_create_texture obliging 1 1 640 480 mapped_world
        = (Ret r, w')
        /\ texture_created obliging 1 640 480 sample_gpu_ctx mapped_frame_ctx
                           mapped_world r w')
  /\ fst (gfx_lowlevel_frame_create_texture obliging 1 1 640 480
                                            mapped_world) = Ret 0
  /\ frame_ctxs (snd (gfx_lowlevel_frame_create_texture obliging 1 1 640 480
                                                        mapped_world)) !! 1
     = Some (Frame_ctx true (Pl_frame 1 (Pl_plane 1 4 [0; 1; 2; 3]) 0 0 0)
                       [1; NULL; 43; NULL] 1 50).
Proof.
  assert (H1 : 1 <> NULL) by discriminate.
  assert (H2 : gpu_ctxs mapped_world !! 1 = Some sample_gpu_ctx)
    by (vm_compute; reflexivity).
  assert (H3 : frame_ctxs mapped_world !! 1 = Some mapped_frame_ctx)
    by (vm_compute; reflexivity).
  assert (H4 : length (tex mapped_frame_ctx) = 4%nat) by reflexivity.
  split; [exact (conj H1 (conj H2 (conj H1 (conj H3 H4))))|].
  split; [|split; vm_compute; reflexivity].
  exact (frame_create_texture_result obliging 1 1 640 480 sample_gpu_ctx
           mapped_frame_ctx mapped_world H1 H1 H2 H1 H3 H4).
Defined.

(** ** More on [gfx_lowlevel_map_frame_ctx] *)

Ltac neg_code :=
  repeat match goal with
         | H : (_ <? _) = true |- _ => apply Z.ltb_lt in H
         | H : (_ <? _) = false |- _ => apply Z.ltb_ge in H
         end.

Ltac code_class :=
  neg_code; unfold EINVAL, ENOMEM;
  first [ left; reflexivity
        | right; left; reflexivity
        | right; right; left; reflexivity
        | right; right; right; lia ].

Ltac code_zero :=
  neg_code; unfold EINVAL, ENOMEM;
  try match goal with
      | |- context [?r =? 0] =>
          first [ replace (r =? 0) with false
                    by (symmetry; apply Z.eqb_neq; lia)
                | replace (r =? 0) with true by reflexivity ]
      end;
  rewrite ?orb_true_r, ?orb_false_r; reflexivity.

Lemma map_frame_flag (L : oracle) ctx dst src d s w :
  ctx <> NULL -> dst <> NULL -> src <> NULL ->
  frame_ctxs w !! dst = Some d -> avframes w !! src = Some s ->
  on_return (gfx_lowlevel_map_frame_ctx L ctx dst src w)
    (flag_follows_code dst d w).
Proof.
  intros Hc Hdn Hsn Hd Hs. apply is_null_false in Hc, Hdn, Hsn.
  unfold on_return, flag_follows_code. unfold_map_frame.
  destruct d as [dm df dt db dr]. destruct s as [sf sw sh sd sl].
  rewrite Hc, Hdn, Hsn. simpl.
  exec_named; try exact I.
  all: split; [code_class|].
  all: eexists; split; [first [reflexivity | exact Hd]|].
  all: split; [simpl; code_zero|].
  all: intros _ Hm Hr; try discriminate Hm;
    try (apply is_null_false in Hr; congruence);
    events; rewrite ?drop_all; simpl; rewrite ?orb_true_r; reflexivity.
Qed.

(** X9.  [gfx_lowlevel_map_frame_ctx] returns 0, the positive codes EINVAL
    or ENOMEM, or the negative code of the library call that failed.  It
    sets [dst->is_mapped] exactly when it returns 0 and never clears it:
    when [dst] held a mapped frame and a conversion context and the call
    fails, the old frame has been unmapped and [is_mapped] is still
    true. *)
Theorem map_frame_ctx_flag_follows_code (L : oracle) (ctx dst src : Z)
    (d : gfx_lowlevel_frame_ctx) (s : AVFrame) (w w' : world) (r : Z) :
  ctx <> NULL -> dst <> NULL -> src <> NULL ->
  frame_ctxs w !! dst = Some d -> avframes w !! src = Some s ->
  gfx_lowlevel_map_frame_ctx L ctx dst src w = (Ret r, w') ->
  flag_follows_code dst d w r w'.
Proof.
  intros Hc Hdn Hsn Hd Hs E.
  exact (on_return_elim _ _ _ _
           (map_frame_flag L ctx dst src d s w Hc Hdn Hsn Hd Hs) E).
Qed.

Lemma map_frame_ctx_flag_follows_code_witness :
  let L := failing_at is_get_buffer (-12) in
  let w' := snd (gfx_lowlevel_map_frame_ctx L 1 1 1 mapped_world) in
  (1 <> NULL /\ frame_ctxs mapped_world !! 1 = Some mapped_frame_ctx
   /\ avframes mapped_world !! 1 = Some sample_avframe
   /\ gfx_lowlevel_map_frame_ctx L 1 1 1 mapped_world = (Ret (-12), w'))
  /\ flag_follows_code 1 mapped_frame_ctx mapped_world (-12) w'
  /\ existsb is_unmap (drop (length (trace mapped_world)) (trace w')) = true
  /\ (is_mapped <$> frame_ctxs w' !! 1) = Some true.
Proof.
  cbv zeta.
  assert (H1 : 1 <> NULL) by discriminate.
  assert (H2 : frame_ctxs mapped_world !! 1 = Some mapped_frame_ctx)
    by (vm_compute; reflexivity).
  assert (H3 : avframes mapped_world !! 1 = Some sample_avframe)
    by (vm_compute; reflexivity).
  assert (E : gfx_lowlevel_map_frame_ctx (failing_at is_get_buffer (-12))
                1 1 1 mapped_world
              = (Ret (-12),
                 snd (gfx_lowlevel_map_frame_ctx
                        (failing_at is_get_buffer (-12)) 1 1 1 mapped_world)))
    by (vm_compute; reflexivity).
  split; [exact (conj H1 (conj H2 (conj H3 E)))|].
  split; [|split; vm_compute; reflexivity].
  exact (map_frame_ctx_flag_follows_code (failing_at is_get_buffer (-12))
           1 1 1 mapped_frame_ctx sample_avframe mapped_world _ (-12)
           H1 H1 H1 H2 H3 E).
Defined.

Lemma map_frame_reuses (L : oracle) ctx dst src d w :
  frame_ctxs w !! dst = Some d -> to_rgba d <> NULL ->
  always (gfx_lowlevel_map_frame_ctx L ctx dst src w)
    (fun w' =>
       forallb (uses_context (to_rgba d))
               (drop (length (trace w)) (trace w')) = true
       /\ exists d', frame_ctxs w' !! dst = Some d' /\ to_rgba d' = to_rgba d).
Proof.
  intros Hd Hr. apply is_null_false in Hr.
  unfold always. unfold_map_frame.
  destruct d as [dm df dt db dr]. simpl in *.
  exec_named.
  all: split;
    [events; rewrite ?drop_all; simpl; rewrite ?Z.eqb_refl; reflexivity|].
  all: eexists; split; [first [reflexivity | exact Hd]|reflexivity].
Qed.

(** X10.  Once [dst] holds a conversion context,
    [gfx_lowlevel_map_frame_ctx] keeps it: whatever the size and the
    format of [src] and however the call ends, it does not call
    [sws_getContext], every [sws_scale] it calls is given the context that
    [dst] held, and [dst->to_rgba] is unchanged. *)
Theorem map_frame_ctx_reuses_conversion (L : oracle) (ctx dst src : Z)
    (d : gfx_lowlevel_frame_ctx) (w : world) :
  frame_ctxs w !! dst = Some d -> to_rgba d <> NULL ->
  let run := gfx_lowlevel_map_frame_ctx L ctx dst src in
  forallb (uses_context (to_rgba d)) (new_events run w) = true
  /\ exists d',
       frame_ctxs (snd (run w)) !! dst = Some d' /\ to_rgba d' = to_rgba d.
Proof.
  intros Hd Hr run.
  pose proof (map_frame_reuses L ctx dst src d w Hd Hr) as H.
  unfold always, new_events, run in *.
  destruct (gfx_lowlevel_map_frame_ctx L ctx dst src w) as [o w'].
  exact H.
Qed.

Lemma map_frame_ctx_reuses_conversion_witness :
  (frame_ctxs mapped_world !! 1 = Some mapped_frame_ctx
   /\ to_rgba mapped_frame_ctx <> NULL)
  /\ new_events (gfx_lowlevel_map_frame_ctx obliging 1 1 1) mapped_world
     = [Pl_unmap_avframe 6 sample_frame; Av_frame_alloc;
        Av_hwframe_transfer_data 2 (Av_frame AV_PIX_FMT_NV12 640 480 50 60)
                                 1 0;
        Av_frame_alloc;
        Av_frame_get_buffer 3 (Av_frame AV_PIX_FMT_RGBA 640 480 50 60) 32;
        Sws_scale 50 50 60 0 480 640 480;
        Pl_map_avframe_ex 6 3 (Av_frame AV_PIX_FMT_RGBA 640 480 640 480)
                          [41; NULL; 43; NULL];
        Av_frame_free 2; Av_frame_free 3]
  /\ forallb (uses_context 50)
       (new_events (gfx_lowlevel_map_frame_ctx obliging 1 1 1) mapped_world)
     = true.
Proof.
  assert (H1 : frame_ctxs mapped_world !! 1 = Some mapped_frame_ctx)
    by (vm_compute; reflexivity).
  assert (H2 : to_rgba mapped_frame_ctx <> NULL) by discriminate.
  split; [exact (conj H1 H2)|].
  split; [vm_compute; reflexivity|].
  exact (proj1 (map_frame_ctx_reuses_conversion obliging 1 1 1
                  mapped_frame_ctx mapped_world H1 H2)).
Defined.

Lemma fresh_addr_unused_below {A} (h h' : gmap Z A) :
  dom h ⊆ dom h' -> h !! fresh_addr h' = None.
Proof.
  intros Hsub. apply not_elem_of_dom. intros Hin.
  pose proof (fresh_addr_unused h') as U. apply not_elem_of_dom in U.
  apply U, Hsub, Hin.
Qed.

(** Equality of two heaps, key by key; [Hz] says that nothing lives at
    NULL. *)
Ltac heap_eq Hz :=
  apply map_eq; intros ?k;
  repeat first
    [ rewrite lookup_delete_eq
    | rewrite lookup_insert_eq
    | match goal with
      | |- context [delete ?a _ !! ?k] =>
          destruct (decide (a = k)) as [<-|?];
          [rewrite lookup_delete_eq|rewrite lookup_delete_ne by assumption]
      | |- context [<[?a:=_]> _ !! ?k] =>
          destruct (decide (a = k)) as [<-|?];
          [rewrite lookup_insert_eq|rewrite lookup_insert_ne by assumption]
      end ];
  try reflexivity; try congruence;
  symmetry; first [exact Hz | apply fresh_addr_unused_below; set_solver].

Ltac key_ne :=
  first [ apply fresh_addr_ne; live
        | apply not_eq_sym, is_null_false; assumption ].

Lemma map_frame_frees (L : oracle) ctx dst src s w :
  avframes w !! NULL = None -> avframes w !! src = Some s ->
  ends (gfx_lowlevel_map_frame_ctx L ctx dst src w)
    (fun o w' =>
       avframes w' !! src = Some s
       /\ is_returned o (fun _ => avframes w' = avframes w)).
Proof.
  intros Hz Hs.
  unfold ends, is_returned. unfold_map_frame.
  destruct s as [sf sw sh sd sl].
  exec_named.
  all: split;
    [ repeat first [ rewrite lookup_delete_ne by key_ne
                   | rewrite lookup_insert_ne by key_ne ];
      exact Hs | ].
  all: try exact I.
  all: try reflexivity.
  all: heap_eq Hz.
Qed.

(** X11.  However [gfx_lowlevel_map_frame_ctx] ends, the frame [src] is
    still there, with the content it had.  Whenever the function returns,
    with 0 or with an error code, the temporary frames it allocated are
    freed: the frames are those of before. *)
Theorem map_frame_ctx_temporaries (L : oracle) (ctx dst src : Z)
    (s : AVFrame) (w : world) :
  avframes w !! NULL = None -> avframes w !! src = Some s ->
  avframes (snd (gfx_lowlevel_map_frame_ctx L ctx dst src w)) !! src = Some s
  /\ forall r w',
       gfx_lowlevel_map_frame_ctx L ctx dst src w = (Ret r, w') ->
       avframes w' = avframes w.
Proof.
  intros Hz Hs.
  pose proof (map_frame_frees L ctx dst src s w Hz Hs) as H.
  unfold ends in H.
  destruct (gfx_lowlevel_map_frame_ctx L ctx dst src w) as [o w1].
  destruct H as [H1 H2]. split; [exact H1|].
  intros r w' E. injection E as -> ->. exact H2.
Qed.

Lemma map_frame_ctx_temporaries_witness :
  let run := gfx_lowlevel_map_frame_ctx (failing_at is_get_buffer (-12)) 1 1 1 in
  (avframes sample_world !! NULL = None
   /\ avframes sample_world !! 1 = Some sample_avframe)
  /\ run sample_world = (Ret (-12), snd (run sample_world))
  /\ avframes (snd (run sample_world)) = avframes sample_world
  /\ List.filter is_frame_call (new_events run sample_world)
     = [Av_frame_alloc; Av_frame_alloc; Av_frame_free 3; Av_frame_free 2].
Proof.
  cbv zeta.
  assert (H1 : avframes sample_world !! NULL = None)
    by (vm_compute; reflexivity).
  assert (H2 : avframes sample_world !! 1 = Some sample_avframe)
    by (vm_compute; reflexivity).
  assert (E : gfx_lowlevel_map_frame_ctx (failing_at is_get_buffer (-12)) 1 1 1
                sample_world
              = (Ret (-12),
                 snd (gfx_lowlevel_map_frame_ctx (failing_at is_get_buffer (-12))
                        1 1 1 sample_world))) by (vm_compute; reflexivity).
  split; [exact (conj H1 H2)|].
  split; [exact E|].
  split; [|vm_compute; reflexivity].
  exact (proj2 (map_frame_ctx_temporaries (failing_at is_get_buffer (-12)) 1 1 1
                  sample_avframe sample_world H1 H2) _ _ E).
Defined.

Lemma map_frame_after_mapping (L : oracle) ctx dst src w :
  ends (gfx_lowlevel_map_frame_ctx L ctx dst src w)
    (fun o w' =>
       existsb is_map (drop (length (trace w)) (trace w')) = true ->
       o = Ret 0
       /\ exists d', frame_ctxs w' !! dst = Some d' /\ is_mapped d' = true).
Proof.
  unfold ends. unfold_map_frame.
  exec_named.
  all: events; rewrite ?drop_all; simpl; intros M; try discriminate M.
  all: split; [reflexivity|]; eexists; split; reflexivity.
Qed.

(** X25.  [gfx_lowlevel_map_frame_ctx] does not detect a failure of
    [pl_map_avframe_ex]: the [bool] it returns is stored in an [int] and
    compared with [< 0].  Once [pl_map_avframe_ex] has been called, the
    function returns 0 with [dst->is_mapped] set, whatever the answer
    was. *)
Theorem map_frame_ctx_ignores_map_failure (L : oracle) (ctx dst src : Z)
    (w : world) :
  let run := gfx_lowlevel_map_frame_ctx L ctx dst src in
  existsb is_map (new_events run w) = true ->
  exists w' d',
    run w = (Ret 0, w')
    /\ frame_ctxs w' !! dst = Some d' /\ is_mapped d' = true.
Proof.
  intros run M.
  pose proof (map_frame_after_mapping L ctx dst src w) as H.
  unfold ends, new_events, run in *.
  destruct (gfx_lowlevel_map_frame_ctx L ctx dst src w) as [o w'].
  destruct (H M) as (-> & d' & Hd & Hm).
  exists w', d'. auto.
Qed.

Lemma map_frame_ctx_ignores_map_failure_witness :
  let L := failing_at is_map 0 in
  let run := gfx_lowlevel_map_frame_ctx L 1 1 1 in
  (existsb is_map (new_events run sample_world) = true
   /\ ret_int L (take 7 (new_events run sample_world)) = 0)
  /\ exists w' d',
       run sample_world = (Ret 0, w')
       /\ frame_ctxs w' !! 1 = Some d' /\ is_mapped d' = true.
Proof.
  cbv zeta.
  assert (M : existsb is_map
                (new_events
                   (gfx_lowlevel_map_frame_ctx (failing_at is_map 0) 1 1 1)
                   sample_world) = true) by (vm_compute; reflexivity).
  split; [split; [exact M|vm_compute; reflexivity]|].
  exact (map_frame_ctx_ignores_map_failure (failing_at is_map 0) 1 1 1
           sample_world M).
Defined.

(** ** Loops over an array *)

Lemma set_trace_app_nil w : set_trace (trace w ++ []) w = w.
Proof.
  destruct w. unfold set_trace. simpl. rewrite app_nil_r. reflexivity.
Qed.

Lemma set_trace_app_app w t1 t2 :
  set_trace (trace (set_trace (trace w ++ t1) w) ++ t2)
            (set_trace (trace w ++ t1) w)
  = set_trace (trace w ++ t1 ++ t2) w.
Proof. unfold set_trace. simpl. rewrite app_assoc. reflexivity. Qed.

(** A loop whose body reads the [i]-th element [x] of [vs], makes the
    calls [calls x] and goes on with the state [step s x], does this for
    the elements of [vs] in turn. *)
Lemma for_loop_reads {X St R} (vs : list X)
    (body : Z -> St -> M (St + R)) (step : St -> X -> St)
    (calls : X -> list event) :
  (forall (i : nat) x s w,
     vs !! i = Some x ->
     body (Z.of_nat i) s w
     = (Ret (inl (step s x)), set_trace (trace w ++ calls x) w)) ->
  forall fuel (i : nat) s w,
    (i + fuel <= length vs)%nat ->
    for_loop fuel (Z.of_nat i) body s w
    = (Ret (inl (fold_left step (take fuel (drop i vs)) s)),
       set_trace (trace w ++ flat_map calls (take fuel (drop i vs))) w).
Proof.
  intros Hb. induction fuel as [|fuel IH]; intros i s w Hi; simpl.
  - rewrite set_trace_app_nil. reflexivity.
  - destruct (lookup_lt_is_Some_2 vs i) as [x Hx]; [lia|].
    rewrite (drop_S _ _ _ Hx). simpl.
    unfold bind. rewrite (Hb i x s w Hx).
    replace (Z.of_nat i + 1) with (Z.of_nat (S i)) by lia.
    rewrite IH by lia. rewrite set_trace_app_app. reflexivity.
Qed.

Lemma for_upto_reads {X St R} (vs : list X)
    (body : Z -> St -> M (St + R)) (step : St -> X -> St)
    (calls : X -> list event) n s w :
  (forall (i : nat) x s w,
     vs !! i = Some x ->
     body (Z.of_nat i) s w
     = (Ret (inl (step s x)), set_trace (trace w ++ calls x) w)) ->
  (Z.to_nat n <= length vs)%nat ->
  for_upto n body s w
  = (Ret (inl (fold_left step (take (Z.to_nat n) vs) s)),
     set_trace (trace w ++ flat_map calls (take (Z.to_nat n) vs)) w).
Proof.
  intros Hb Hn. unfold for_upto.
  pose proof (for_loop_reads vs body step calls Hb (Z.to_nat n) 0 s w Hn)
    as E.
  rewrite drop_0 in E. exact E.
Qed.

Lemma fold_left_snoc {X} (l acc : list X) :
  fold_left (fun c v => c ++ [v]) l acc = acc ++ l.
Proof.
  revert acc. induction l as [|x l IH]; intros acc; simpl.
  - rewrite app_nil_r. reflexivity.
  - rewrite IH, <- app_assoc. reflexivity.
Qed.

Lemma flat_map_nil {X Y} (l : list X) :
  flat_map (fun _ => @nil Y) l = [].
Proof. induction l; simpl; auto. Qed.

Lemma take_take_same {X} (n : nat) (l : list X) :
  take n (take n l) = take n l.
Proof. rewrite take_take. f_equal. lia. Qed.

(** The loop that copies the variables, and the loop that frees them. *)
Ltac copy_loop vars Hn :=
  erewrite (for_upto_reads (default [] vars) _ (fun c v => c ++ [v])
                           (fun _ => []));
  [ | intros ?i ?x ?s ?w Hx; destruct vars as [?vs|]; simpl in Hx;
      [ rewrite Nat2Z.id, Hx; rewrite set_trace_app_nil; reflexivity
      | discriminate Hx ]
    | exact Hn ];
  rewrite fold_left_snoc, flat_map_nil; simpl; rewrite ?app_nil_r.

Ltac free_loop vars Hn :=
  erewrite (for_upto_reads (take (Z.to_nat _) (default [] vars)) _
                           (fun _ _ => tt) free_var);
  [ | intros ?i ?x ?s ?w Hx;
      rewrite Nat2Z.id, Hx; unfold set_trace, free_var; simpl;
      rewrite <- app_assoc; reflexivity
    | rewrite length_take; lia ];
  rewrite take_take_same.

(** ** The mix contexts *)

Lemma mix_ctx_destroy_run p m w :
  p <> NULL -> mix_ctxs w !! p = Some m ->
  (Z.to_nat (m_num_vars m) <= length (default [] (m_vars m)))%nat ->
  returns (gfx_lowlevel_mix_ctx_destroy (Some p) w)
    (fun h w' =>
       h = Some NULL
       /\ w' = set_trace
                 (trace w ++ mix_release_calls m ++ [Free_ptr K_mix_ctx p])
                 (set_mix_ctxs (delete p (mix_ctxs w)) w)).
Proof.
  intros Hp Hm Hn. apply is_null_false in Hp.
  destruct m as [mc mp mh mb mv mn md]. simpl in *.
  unfold returns, mix_release_calls, first_vars, gfx_lowlevel_mix_ctx_destroy,
    when, free_mix, update_mix, load_mix, bind, call_void, ret, fault.
  simpl.
  exec.
  erewrite (for_upto_reads (default [] mv) _ (fun _ _ => tt) free_var);
    [|intros i x s w0 Hx; destruct mv as [vs|]; simpl in Hx;
      [rewrite Nat2Z.id, Hx; unfold set_trace, free_var; simpl;
       rewrite <- app_assoc; reflexivity
      |discriminate Hx]
     |exact Hn].
  exec; (split; [reflexivity|]);
    rewrite ?delete_insert_eq, <- ?app_assoc; simpl;
    rewrite <- ?app_assoc; reflexivity.
Qed.

Lemma mix_ctx_init_run (L : oracle) ctx prelude header body vars n c w :
  ctx <> NULL -> gpu_ctxs w !! ctx = Some c -> vk c <> NULL ->
  (Z.to_nat n <= length (default [] vars))%nat ->
  on_return (gfx_lowlevel_mix_ctx_init L ctx prelude header body vars n w)
    (mix_ctx_made ctx prelude header body vars n w).
Proof.
  intros Hc Hg Hv Hn. apply is_null_false in Hc, Hv.
  unfold on_return, mix_ctx_made, first_vars, gfx_lowlevel_mix_ctx_init,
    gfx_lowlevel_mix_ctx_destroy, copy_string, ctx_gpu, member, malloc_at,
    memset_mix, when, free_mix, update_mix, load_mix, load_gpu,
    fprintf_stderr, bind, call, call_void, ret, fault.
  rewrite Hc. simpl.
  exec_named; try exact I.
  all: try (copy_loop vars Hn; exec_named; try exact I).
  all: try (free_loop vars Hn; exec_named; try exact I).
  all: first
    [ split;
      [ rewrite ?delete_insert_eq;
        first [reflexivity | apply delete_id, fresh_addr_unused]
      | events; intros Hx; try discriminate Hx;
        eexists; repeat apply suffix_cons_r; reflexivity ]
    | split; [apply fresh_addr_unused|];
      eexists; split; [apply is_null_false; eassumption|];
      rewrite !insert_insert_eq; reflexivity ].
Qed.

(** X12.  On a live context, and with at least [num_vars] variables in
    [vars], a [gfx_lowlevel_mix_ctx_init] that returns a mix context has
    stored in it the context, the three texts, the first [num_vars]
    variables as they are ([name] and [data] pointers included),
    [num_vars] and a dispatch object that is not NULL.  One that returns
    NULL leaves no mix context behind; if it is [pl_dispatch_create] that
    failed, it has freed the [name] and the [data] of each of these
    variables of the caller. *)
Theorem mix_ctx_init_result (L : oracle) (ctx : Z)
    (prelude header body : option string)
    (vars : option (list pl_shader_var)) (n : Z) (c : gfx_lowlevel_gpu_ctx)
    (w w' : world) (m : Z) :
  ctx <> NULL -> gpu_ctxs w !! ctx = Some c -> vk c <> NULL ->
  (Z.to_nat n <= length (default [] vars))%nat ->
  gfx_lowlevel_mix_ctx_init L ctx prelude header body vars n w
  = (Ret m, w') ->
  mix_ctx_made ctx prelude header body vars n w m w'.
Proof.
  intros Hc Hg Hv Hn E.
  exact (on_return_elim _ _ _ _
           (mix_ctx_init_run L ctx prelude header body vars n c w Hc Hg Hv Hn)
           E).
Qed.

Lemma mix_ctx_init_result_witness :
  let L := failing_at is_dispatch_create NULL in
  let run :=
    gfx_lowlevel_mix_ctx_init L 1 (Some "p") None (Some "b")
                              (Some sample_vars) 2 in
  (1 <> NULL /\ gpu_ctxs sample_world !! 1 = Some sample_gpu_ctx
   /\ vk sample_gpu_ctx <> NULL
   /\ (Z.to_nat 2 <= length (default [] (Some sample_vars)))%nat
   /\ run sample_world = (Ret NULL, snd (run sample_world)))
  /\ mix_ctx_made 1 (Some "p") None (Some "b") (Some sample_vars) 2
                  sample_world NULL (snd (run sample_world))
  /\ List.filter (fun e => negb (is_diagnostic e))
                 (new_events run sample_world)
     = [Malloc K_mix_ctx 1; Malloc K_char 2; Malloc K_char 2;
        Malloc K_shader_var 2; Pl_dispatch_create 1 6;
        Free_str (Some "p"); Free_str None; Free_str (Some "b");
        Free_ptr K_char 70; Free_ptr K_void 71;
        Free_ptr K_char 72; Free_ptr K_void 73;
        Free_vars (Some sample_vars); Free_ptr K_mix_ctx 2].
Proof.
  cbv zeta.
  assert (H1 : 1 <> NULL) by discriminate.
  assert (H2 : gpu_ctxs sample_world !! 1 = Some sample_gpu_ctx)
    by (vm_compute; reflexivity).
  assert (H3 : (Z.to_nat 2 <= length (default [] (Some sample_vars)))%nat)
    by (vm_compute; lia).
  assert (E : gfx_lowlevel_mix_ctx_init (failing_at is_dispatch_create NULL)
                1 (Some "p") None (Some "b") (Some sample_vars) 2 sample_world
              = (Ret NULL,
                 snd (gfx_lowlevel_mix_ctx_init
                        (failing_at is_dispatch_create NULL) 1 (Some "p") None
                        (Some "b") (Some sample_vars) 2 sample_world)))
    by (vm_compute; reflexivity).
  split; [exact (conj H1 (conj H2 (conj H1 (conj H3 E))))|].
  split; [|vm_compute; reflexivity].
  exact (mix_ctx_init_result (failing_at is_dispatch_create NULL) 1
           (Some "p") None (Some "b") (Some sample_vars) 2 sample_gpu_ctx
           sample_world _ NULL H1 H2 H1 H3 E).
Defined.

(** X13.  On a mix context that holds at least [num_vars] variables,
    [gfx_lowlevel_mix_ctx_destroy] frees the three texts, then the [name]
    and the [data] of each of the [num_vars] variables in turn, then the
    array of variables, destroys the dispatch object if there is one, and
    frees the structure; the handle is left NULL. *)
Theorem mix_ctx_destroy_releases (p : Z) (m : gfx_lowlevel_mix_ctx)
    (w : world) :
  p <> NULL -> mix_ctxs w !! p = Some m ->
  (Z.to_nat (m_num_vars m) <= length (default [] (m_vars m)))%nat ->
  exists w',
    gfx_lowlevel_mix_ctx_destroy (Some p) w = (Ret (Some NULL), w')
    /\ new_events (gfx_lowlevel_mix_ctx_destroy (Some p)) w
       = mix_release_calls m ++ [Free_ptr K_mix_ctx p]
    /\ mix_ctxs w' = delete p (mix_ctxs w).
Proof.
  intros Hp Hm Hn.
  pose proof (returns_eq _ _ _ (mix_ctx_destroy_run p m w Hp Hm Hn)) as E.
  eexists. split; [exact E|]. unfold new_events. rewrite E. simpl.
  rewrite drop_app_length. auto.
Qed.

Lemma mix_ctx_destroy_releases_witness :
  let m := Mix_ctx 1 (Some "p") None (Some "b") (Some sample_vars) 2 30 in
  (1 <> NULL /\ mix_ctxs mixing_world !! 1 = Some m
   /\ (Z.to_nat (m_num_vars m) <= length (default [] (m_vars m)))%nat)
  /\ new_events (gfx_lowlevel_mix_ctx_destroy (Some 1)) mixing_world
     = [Free_str (Some "p"); Free_str None; Free_str (Some "b");
        Free_ptr K_char 70; Free_ptr K_void 71;
        Free_ptr K_char 72; Free_ptr K_void 73;
        Free_vars (Some sample_vars); Pl_dispatch_destroy 30;
        Free_ptr K_mix_ctx 1].
Proof.
  cbv zeta.
  assert (H1 : 1 <> NULL) by discriminate.
  assert (H2 : mix_ctxs mixing_world !! 1
               = Some (Mix_ctx 1 (Some "p") None (Some "b")
                               (Some sample_vars) 2 30))
    by (vm_compute; reflexivity).
  assert (H3 : (Z.to_nat 2 <= length (default [] (Some sample_vars)))%nat)
    by (vm_compute; lia).
  split; [exact (conj H1 (conj H2 H3))|].
  destruct (mix_ctx_destroy_releases 1 _ mixing_world H1 H2 H3)
    as (w' & _ & E & _).
  exact E.
Defined.

(** X14.  [gfx_lowlevel_mix_ctx_destroy] undoes a successful
    [gfx_lowlevel_mix_ctx_init]: the mix contexts are those of before.  In
    doing so it frees the [name] and the [data] of the caller's
    variables, of which the mix context held copies of the pointers. *)
Theorem mix_ctx_init_destroy_round_trip (L : oracle) (ctx : Z)
    (prelude header body : option string)
    (vars : option (list pl_shader_var)) (n : Z) (c : gfx_lowlevel_gpu_ctx)
    (w w1 : world) (m : Z) :
  ctx <> NULL -> gpu_ctxs w !! ctx = Some c -> vk c <> NULL ->
  (Z.to_nat n <= length (default [] vars))%nat ->
  gfx_lowlevel_mix_ctx_init L ctx prelude header body vars n w
  = (Ret m, w1) ->
  m <> NULL ->
  exists w2 d,
    gfx_lowlevel_mix_ctx_destroy (Some m) w1 = (Ret (Some NULL), w2)
    /\ mix_ctxs w2 = mix_ctxs w
    /\ drop (length (trace w1)) (trace w2)
       = mix_release_calls
           (Mix_ctx ctx prelude header body (Some (first_vars vars n)) n d)
         ++ [Free_ptr K_mix_ctx m].
Proof.
  intros Hc Hg Hv Hn E Hm.
  pose proof (on_return_elim _ _ _ _
                (mix_ctx_init_run L ctx prelude header body vars n c w
                                  Hc Hg Hv Hn) E) as H.
  unfold mix_ctx_made in H. apply is_null_false in Hm. rewrite Hm in H.
  apply is_null_false in Hm.
  destruct H as (Hfresh & d & Hd & Hh).
  pose proof (mix_ctx_destroy_run m
                (Mix_ctx ctx prelude header body (Some (first_vars vars n))
                         n d) w1 Hm) as R.
  apply returns_eq in R.
  - eexists. exists d. split; [exact R|]. simpl.
    rewrite drop_app_length. split; [|reflexivity].
    rewrite Hh, delete_insert_eq, delete_id by exact Hfresh. reflexivity.
  - rewrite Hh. apply lookup_insert_eq.
  - simpl. unfold first_vars. rewrite length_take. lia.
Qed.

Lemma mix_ctx_init_destroy_round_trip_witness :
  let run :=
    gfx_lowlevel_mix_ctx_init obliging 1 (Some "p") None (Some "b")
                              (Some sample_vars) 2 in
  (1 <> NULL /\ gpu_ctxs sample_world !! 1 = Some sample_gpu_ctx
   /\ vk sample_gpu_ctx <> NULL
   /\ (Z.to_nat 2 <= length (default [] (Some sample_vars)))%nat
   /\ run sample_world = (Ret 2, snd (run sample_world))
   /\ 2 <> NULL)
  /\ exists w2 d,
       gfx_lowlevel_mix_ctx_destroy (Some 2) (snd (run sample_world))
       = (Ret (Some NULL), w2)
       /\ mix_ctxs w2 = mix_ctxs sample_world
       /\ drop (length (trace (snd (run sample_world)))) (trace w2)
          = mix_release_calls
              (Mix_ctx 1 (Some "p") None (Some "b")
                       (Some (first_vars (Some sample_vars) 2)) 2 d)
            ++ [Free_ptr K_mix_ctx 2].
Proof.
  cbv zeta.
  assert (H1 : 1 <> NULL) by discriminate.
  assert (H2 : gpu_ctxs sample_world !! 1 = Some sample_gpu_ctx)
    by (vm_compute; reflexivity).
  assert (H3 : (Z.to_nat 2 <= length (default [] (Some sample_vars)))%nat)
    by (vm_compute; lia).
  assert (H4 : 2 <> NULL) by discriminate.
  assert (E : gfx_lowlevel_mix_ctx_init obliging 1 (Some "p") None (Some "b")
                (Some sample_vars) 2 sample_world
              = (Ret 2,
                 snd (gfx_lowlevel_mix_ctx_init obliging 1 (Some "p") None
                        (Some "b") (Some sample_vars) 2 sample_world)))
    by (vm_compute; reflexivity).
  split; [exact (conj H1 (conj H2 (conj H1 (conj H3 (conj E H4)))))|].
  exact (mix_ctx_init_destroy_round_trip obliging 1 (Some "p") None
           (Some "b") (Some sample_vars) 2 sample_gpu_ctx sample_world _ 2
           H1 H2 H1 H3 E H4).
Defined.

(** X15.  [gfx_lowlevel_mix_ctx_init] does not check the [malloc] of the
    copy of a text: when the structure is allocated and the [malloc] for
    the prelude returns NULL, [strncpy] writes through the NULL
    pointer. *)
Theorem mix_ctx_init_unchecked_malloc (L : oracle) (ctx : Z) (text : string)
    (header body : option string) (vars : option (list pl_shader_var))
    (n : Z) (w : world) :
  ctx <> NULL ->
  ret_int L (trace w ++ [Malloc K_mix_ctx 1]) <> NULL ->
  ret_int L ((trace w ++ [Malloc K_mix_ctx 1])
             ++ [Malloc K_char (strlen text + 1)]) = NULL ->
  fst (gfx_lowlevel_mix_ctx_init L ctx (Some text) header body vars n w)
  = Fault.
Proof.
  intros Hc Hm Ht. apply is_null_false in Hc, Hm. apply is_null_true in Ht.
  assert (H : ends (gfx_lowlevel_mix_ctx_init L ctx (Some text) header body
                      vars n w)
                (fun o _ => o = Fault)).
  { unfold ends, gfx_lowlevel_mix_ctx_init, copy_string, malloc_at,
      memset_mix, update_mix, load_mix, bind, call, ret, fault.
    rewrite Hc. simpl. rewrite Hm. simpl.
    rewrite !fresh_null_false. simpl. rewrite lookup_insert_eq. simpl.
    rewrite Ht. reflexivity. }
  unfold ends in H.
  destruct (gfx_lowlevel_mix_ctx_init L ctx (Some text) header body vars n w).
  exact H.
Qed.

Lemma mix_ctx_init_unchecked_malloc_witness :
  let L := failing_at is_string_alloc NULL in
  (1 <> NULL
   /\ ret_int L (trace sample_world ++ [Malloc K_mix_ctx 1]) <> NULL
   /\ ret_int L ((trace sample_world ++ [Malloc K_mix_ctx 1])
                 ++ [Malloc K_char (strlen "p" + 1)]) = NULL)
  /\ fst (gfx_lowlevel_mix_ctx_init L 1 (Some "p") None None None 0
                                    sample_world) = Fault.
Proof.
  cbv zeta.
  assert (H1 : 1 <> NULL) by discriminate.
  assert (H2 : ret_int (failing_at is_string_alloc NULL)
                 (trace sample_world ++ [Malloc K_mix_ctx 1]) <> NULL)
    by discriminate.
  assert (H3 : ret_int (failing_at is_string_alloc NULL)
                 ((trace sample_world ++ [Malloc K_mix_ctx 1])
                  ++ [Malloc K_char (strlen "p" + 1)]) = NULL)
    by reflexivity.
  split; [exact (conj H1 (conj H2 H3))|].
  exact (mix_ctx_init_unchecked_malloc (failing_at is_string_alloc NULL) 1
           "p" None None None 0 sample_world H1 H2 H3).
Defined.

(** ** The LUTs *)

Lemma init_lut_run (L : oracle) ctx name w :
  on_return (gfx_lowlevel_init_lut L ctx (Some name) w)
    (lut_loaded L ctx name w).
Proof.
  unfold on_return, lut_loaded, lut_parse_trace, gfx_lowlevel_init_lut,
    gfx_lowlevel_destroy_lut, malloc_at, memset_lut, when, free_lut,
    update_lut, load_lut, load_gpu, fprintf_stderr, bind, call, call_void,
    written, ret, fault.
  exec_named; try exact I.
  all: split; [events; answers; known_nulls; reflexivity|].
  all: rewrite ?fresh_null_false.
  all: first
    [ rewrite ?delete_insert_eq;
      first [reflexivity | apply delete_id, fresh_addr_unused]
    | split; [apply fresh_addr_unused|];
      eexists; split; [reflexivity|]; unname;
      split; [reflexivity|];
      split; [apply is_null_false; assumption|];
      rewrite !insert_insert_eq; reflexivity ].
Qed.

Lemma destroy_lut_run p l w :
  p <> NULL -> luts w !! p = Some l ->
  returns (gfx_lowlevel_destroy_lut (Some p) w)
    (fun r w' =>
       r = (0, Some NULL)
       /\ w' = set_trace (trace w ++ lut_release_calls l ++ [Free_ptr K_lut p])
                 (set_luts (delete p (luts w)) w)).
Proof.
  intros Hp Hl. apply is_null_false in Hp.
  destruct l as [lf ll ls]. simpl in *.
  unfold returns, lut_release_calls, gfx_lowlevel_destroy_lut, when, free_lut,
    update_lut, load_lut, bind, call_void, ret, fault.
  exec; (split; [reflexivity|]);
    rewrite ?delete_insert_eq, <- ?app_assoc; simpl; reflexivity.
Qed.

(** X16.  When [gfx_lowlevel_init_lut] returns, it has closed the file it
    opened, once, and no other.  When it returns NULL, no LUT is left
    behind.  Otherwise it has made, in this order, the two calls of
    [malloc] for the structure and the file name, [fopen], [fseek] to the
    end, [ftell], [fseek] to the start, the [malloc] of the buffer,
    [fread] of [file_size] bytes, [fclose], [pl_lut_parse_cube] with the
    log of the context and the bytes read, and the [free] of the buffer;
    and it returns a new LUT that holds the file name, the table that
    [pl_lut_parse_cube] returned, which is not NULL, and no shader
    state. *)
Theorem init_lut_result (L : oracle) (ctx : Z) (name : string)
    (w w' : world) (l : Z) :
  gfx_lowlevel_init_lut L ctx (Some name) w = (Ret l, w') ->
  lut_loaded L ctx name w l w'.
Proof.
  intros E. exact (on_return_elim _ _ _ _ (init_lut_run L ctx name w) E).
Qed.

Lemma init_lut_result_witness :
  let run := gfx_lowlevel_init_lut obliging 1 (Some "b.cube") in
  run sample_world = (Ret 2, snd (run sample_world))
  /\ lut_loaded obliging 1 "b.cube" sample_world 2 (snd (run sample_world))
  /\ new_events run sample_world
     = [Malloc K_lut 1; Malloc K_char 7; Fopen "b.cube" "r";
        Fseek 1 0 SEEK_END; Ftell 1; Fseek 1 0 SEEK_SET; Malloc K_char 2;
        Fread 1 1 1; Fclose 1; Pl_lut_parse_cube 1 "L" 1;
        Free_buf K_char].
Proof.
  cbv zeta.
  assert (E : gfx_lowlevel_init_lut obliging 1 (Some "b.cube") sample_world
              = (Ret 2,
                 snd (gfx_lowlevel_init_lut obliging 1 (Some "b.cube")
                                            sample_world)))
    by (vm_compute; reflexivity).
  split; [exact E|].
  split; [|vm_compute; reflexivity].
  exact (init_lut_result obliging 1 "b.cube" sample_world _ 2 E).
Defined.

(** X17.  [gfx_lowlevel_destroy_lut] undoes a successful
    [gfx_lowlevel_init_lut]: it frees the file name, then, with
    [pl_lut_free], the table that the [pl_lut_parse_cube] of the
    initialisation returned, then the structure, and the LUTs are those of
    before. *)
Theorem init_lut_destroy_round_trip (L : oracle) (ctx : Z) (name : string)
    (w w1 : world) (l : Z) :
  gfx_lowlevel_init_lut L ctx (Some name) w = (Ret l, w1) -> l <> NULL ->
  exists w2 c,
    gpu_ctxs w !! ctx = Some c
    /\ gfx_lowlevel_destroy_lut (Some l) w1 = (Ret (0, Some NULL), w2)
    /\ luts w2 = luts w
    /\ drop (length (trace w1)) (trace w2)
       = [Free_str (Some name);
          Pl_lut_free (ret_int L (lut_parse_trace L (log c) name (trace w)));
          Free_ptr K_lut l].
Proof.
  intros E Hl.
  pose proof (on_return_elim _ _ _ _ (init_lut_run L ctx name w) E) as H.
  unfold lut_loaded in H. destruct H as [_ H].
  apply is_null_false in Hl. rewrite Hl in H. apply is_null_false in Hl.
  destruct H as (Hfresh & c & Hc & _ & Hp & Hh).
  pose proof (destroy_lut_run l _ w1 Hl
                (eq_trans (f_equal (fun m => m !! l) Hh)
                          (lookup_insert_eq _ _ _))) as R.
  apply returns_eq in R.
  eexists. exists c. split; [exact Hc|]. split; [exact R|]. simpl.
  rewrite drop_app_length. unfold lut_release_calls. simpl.
  apply is_null_false in Hp. rewrite Hp. split; [|reflexivity].
  rewrite Hh, delete_insert_eq, delete_id by exact Hfresh. reflexivity.
Qed.

Lemma init_lut_destroy_round_trip_witness :
  let run := gfx_lowlevel_init_lut obliging 1 (Some "b.cube") in
  (run sample_world = (Ret 2, snd (run sample_world)) /\ 2 <> NULL)
  /\ exists w2,
       gfx_lowlevel_destroy_lut (Some 2) (snd (run sample_world))
       = (Ret (0, Some NULL), w2)
       /\ luts w2 = luts sample_world
       /\ drop (length (trace (snd (run sample_world)))) (trace w2)
          = [Free_str (Some "b.cube"); Pl_lut_free 1; Free_ptr K_lut 2].
Proof.
  cbv zeta.
  assert (E : gfx_lowlevel_init_lut obliging 1 (Some "b.cube") sample_world
              = (Ret 2,
                 snd (gfx_lowlevel_init_lut obliging 1 (Some "b.cube")
                                            sample_world)))
    by (vm_compute; reflexivity).
  assert (H : 2 <> NULL) by discriminate.
  split; [exact (conj E H)|].
  destruct (init_lut_destroy_round_trip obliging 1 "b.cube" sample_world _ 2
              E H) as (w2 & c & Hc & R & Hl & T).
  exists w2. split; [exact R|]. split; [exact Hl|].
  rewrite T. reflexivity.
Defined.

(** ** The frame loop *)






(** ** The names of the descriptors and of the vertex attributes *)

Lemma digits_value_app v s t :
  digits_value v (s +:+ t) = digits_value (digits_value v s) t.
Proof. revert v. induction s as [|c s IH]; intros v; simpl; auto. Qed.

Lemma string_app_assoc (s t u : string) :
  (s +:+ t) +:+ u = s +:+ (t +:+ u).
Proof.
  induction s as [|c s IH]; [reflexivity|].
  change (String c ((s +:+ t) +:+ u) = String c (s +:+ (t +:+ u))).
  rewrite IH. reflexivity.
Qed.

Lemma string_app_nil (s : string) : s +:+ "" = s.
Proof.
  induction s as [|c s IH]; [reflexivity|].
  change (String c (s +:+ "") = String c s). rewrite IH. reflexivity.
Qed.

Lemma string_app_inv_head (p s t : string) : p +:+ s = p +:+ t -> s = t.
Proof.
  induction p as [|c p IH]; simpl; intros H; [exact H|].
  injection H as H. auto.
Qed.

Lemma digit_char_value d :
  0 <= d < 10 -> Z.of_nat (nat_of_ascii (digit_char d)) - 48 = d.
Proof.
  intros H. unfold digit_char. rewrite nat_ascii_embedding by lia. lia.
Qed.

(** [dec_digits] writes the digits of [n] in front of [acc]. *)
Lemma dec_digits_value fuel n acc :
  0 <= n < 10 ^ Z.of_nat fuel ->
  exists ds,
    dec_digits fuel n acc = ds +:+ acc /\ digits_value 0 ds = n.
Proof.
  revert n acc. induction fuel as [|fuel IH]; intros n acc Hn.
  - exists "". split; [reflexivity|]. simpl.
    change (10 ^ Z.of_nat 0) with 1 in Hn. lia.
  - simpl. destruct (n <? 10) eqn:E.
    + apply Z.ltb_lt in E. exists (String (digit_char (n mod 10)) "").
      split; [reflexivity|]. simpl.
      rewrite digit_char_value by (apply Z.mod_pos_bound; lia).
      rewrite Z.mod_small by lia. lia.
    + apply Z.ltb_ge in E.
      destruct (IH (n / 10) (String (digit_char (n mod 10)) acc))
        as (ds & Hd & Hv).
      { rewrite Nat2Z.inj_succ, Z.pow_succ_r in Hn by lia.
        split; [apply Z.div_pos; lia|].
        apply Z.div_lt_upper_bound; lia. }
      exists (ds +:+ String (digit_char (n mod 10)) "").
      split.
      * rewrite Hd, string_app_assoc. reflexivity.
      * rewrite digits_value_app, Hv. simpl.
        rewrite digit_char_value by (apply Z.mod_pos_bound; lia).
        pose proof (Z.div_mod n 10). lia.
Qed.

Lemma fmt_d_value (i : Z) :
  0 <= i < 2 ^ 31 -> digits_value 0 (fmt_d i) = i.
Proof.
  intros H. unfold fmt_d.
  destruct (i <? 0) eqn:E; [apply Z.ltb_lt in E; lia|].
  destruct (dec_digits_value 10 i "") as (ds & Hd & Hv).
  { simpl. lia. }
  rewrite Hd, string_app_nil. exact Hv.
Qed.

(** X19.  For indices that a non-negative [int] can hold, the names that
    [gfx_lowlevel_gpu_ctx_render] gives to the descriptors and to the
    vertex attributes fit in the 32 bytes of their buffers, so that
    [snprintf] cuts nothing off, and two different indices get two
    different names. *)
Theorem shader_names_distinct (i j : Z) (f g : pl_frame) (fmt fmt' : Z)
    (verts verts' : list Z) :
  0 <= i < 2 ^ 31 -> 0 <= j < 2 ^ 31 ->
  (desc_name (shader_desc i f) = "src_tex" +:+ fmt_d i
   /\ attr_name (shader_va i fmt verts) = "src_coord" +:+ fmt_d i)
  /\ (desc_name (shader_desc i f) = desc_name (shader_desc j g) -> i = j)
  /\ (attr_name (shader_va i fmt verts) = attr_name (shader_va j fmt' verts')
      -> i = j).
Proof.
  intros Hi Hj. unfold shader_desc, shader_va. simpl.
  rewrite !snprintf_name by (simpl; lia).
  split; [auto|].
  split; intros E; apply string_app_inv_head in E;
    rewrite <- (fmt_d_value i Hi), <- (fmt_d_value j Hj), E; reflexivity.
Qed.

Lemma shader_names_distinct_witness :
  (0 <= 7 < 2 ^ 31 /\ 0 <= 12 < 2 ^ 31)
  /\ desc_name (shader_desc 12 sample_frame) = "src_tex12"
  /\ attr_name (shader_va 2147483647 0 []) = "src_coord2147483647"
  /\ desc_name (shader_desc 7 sample_frame)
     <> desc_name (shader_desc 12 sample_frame).
Proof.
  assert (H7 : 0 <= 7 < 2 ^ 31) by lia.
  assert (H12 : 0 <= 12 < 2 ^ 31) by lia.
  split; [exact (conj H7 H12)|].
  destruct (shader_names_distinct 7 12 sample_frame sample_frame 0 0 [] []
              H7 H12) as (_ & Hd & _).
  split; [reflexivity|]. split; [reflexivity|].
  intros E. specialize (Hd E). discriminate Hd.
Defined.

(** ** What the functions leave untouched *)

Lemma update_lut_state_keeps (p q st : Z) :
  keeps (lut_source q) (update_lut p (set_lut_state st)).
Proof.
  intros w. unfold update_lut, load_lut, bind, lut_source.
  destruct (is_null p); [reflexivity|].
  destruct (luts w !! p) as [l|] eqn:E; [|reflexivity].
  simpl. destruct (decide (q = p)) as [->|N].
  - rewrite lookup_insert_eq, E. reflexivity.
  - rewrite lookup_insert_ne by congruence. reflexivity.
Qed.

Ltac keep_lut :=
  cbv beta zeta;
  lazymatch goal with
  | |- keeps _ (update_lut _ (set_lut_state _)) =>
      apply update_lut_state_keeps
  | |- keeps _ (bind _ _) => apply keeps_bind; [keep_lut | intros ?; keep_lut]
  | |- keeps _ (ret _) => apply keeps_ret
  | |- keeps _ (when _ _) => apply keeps_when; keep_lut
  | |- keeps _ (for_upto _ _ _) =>
      apply keeps_for_upto; intros ? ?; keep_lut
  | |- keeps _ (if ?b then _ else _) => destruct b; keep_lut
  | |- keeps _ (match ?x with _ => _ end) => destruct x; keep_lut
  | |- keeps _ ?m =>
      first [ keep_prim
            | progress unfold ctx_gpu, src_frame_at, build_descs,
                build_attribs, print_shader_res, free_names, render_body,
                render_prepare, render_dispatch; keep_lut ]
  end.

(** X20.  However it ends, [gfx_lowlevel_gpu_ctx_render] modifies none of
    the structures of the file but the LUT it is given, of which it only
    writes [lut_state]: the gpu contexts, the frame contexts, the mix
    contexts (the one it is given included), the frames and the other LUTs
    are as before, and so are the file name and the table of its LUT. *)
Theorem render_footprint (L : oracle) (ctx mix_ctx : Z)
    (params : option gfx_lowlevel_filter_params) (dst_frame : option pl_frame)
    (src_frames : option (list (option pl_frame))) (num_frames lut_ : Z)
    (debug : bool) :
  let run :=
    gfx_lowlevel_gpu_ctx_render L ctx mix_ctx params dst_frame src_frames
                                num_frames lut_ debug in
  keeps gpu_ctxs run /\ keeps frame_ctxs run /\ keeps mix_ctxs run
  /\ keeps avframes run
  /\ (forall q, q <> lut_ -> keeps (fun w => luts w !! q) run)
  /\ keeps (lut_source lut_) run.
Proof.
  cbv zeta. unfold gfx_lowlevel_gpu_ctx_render.
  split; [keep|]. split; [keep|]. split; [keep|]. split; [keep|].
  split; [intros q N; keep|].
  keep_lut.
Qed.

(** X21.  However they end, [gfx_lowlevel_map_frame_ctx],
    [gfx_lowlevel_frame_create_texture] and
    [gfx_lowlevel_frame_ctx_destroy] leave every frame context other than
    the one they are given as it is, and all mix contexts and LUTs; the
    last two leave all frames as they are. *)
Theorem frame_ctx_footprint (L : oracle) (p q : Z) :
  q <> p ->
  (forall ctx src,
     let run := gfx_lowlevel_map_frame_ctx L ctx p src in
     keeps (fun w => frame_ctxs w !! q) run /\ keeps mix_ctxs run
     /\ keeps luts run)
  /\ (forall ctx width height,
        let run := gfx_lowlevel_frame_create_texture L ctx p width height in
        keeps (fun w => frame_ctxs w !! q) run /\ keeps mix_ctxs run
        /\ keeps luts run /\ keeps avframes run)
  /\ (let run := gfx_lowlevel_frame_ctx_destroy L (Some p) in
      keeps (fun w => frame_ctxs w !! q) run /\ keeps mix_ctxs run
      /\ keeps luts run /\ keeps avframes run).
Proof.
  intros N. cbv zeta.
  split; [intros ctx src|split; [intros ctx width height|]].
  - unfold gfx_lowlevel_map_frame_ctx. repeat split; keep.
  - unfold gfx_lowlevel_frame_create_texture. repeat split; keep.
  - unfold gfx_lowlevel_frame_ctx_destroy. repeat split; keep.
Qed.

Lemma frame_ctx_footprint_witness :
  2 <> 1
  /\ keeps (fun w => frame_ctxs w !! 2)
           (gfx_lowlevel_frame_ctx_destroy obliging (Some 1)).
Proof.
  assert (H : 2 <> 1) by discriminate.
  split; [exact H|].
  exact (proj1 (proj2 (proj2 (frame_ctx_footprint obliging 1 2 H)))).
Defined.

(** ** The debug mode of [gfx_lowlevel_gpu_ctx_render] *)

Lemma render_debug_emits (L : oracle) ctx mix_ctx params dst_frame src_frames
    num_frames lut_ :
  emits (fun e => is_dispatch_finish e = false)
    (gfx_lowlevel_gpu_ctx_render L ctx mix_ctx params dst_frame src_frames
                                 num_frames lut_ true).
Proof.
  unfold gfx_lowlevel_gpu_ctx_render, render_body, render_dispatch.
  cbv beta iota zeta.
  emit.
Qed.

(** X22.  In debug mode [gfx_lowlevel_gpu_ctx_render] draws nothing:
    whatever its arguments and however it ends, it does not call
    [pl_dispatch_finish]. *)
Theorem render_debug_draws_nothing (L : oracle) (ctx mix_ctx : Z)
    (params : option gfx_lowlevel_filter_params) (dst_frame : option pl_frame)
    (src_frames : option (list (option pl_frame))) (num_frames lut_ : Z)
    (w : world) :
  let run :=
    gfx_lowlevel_gpu_ctx_render L ctx mix_ctx params dst_frame src_frames
                                num_frames lut_ true in
  existsb is_dispatch_finish (new_events run w) = false.
Proof.
  cbv zeta. unfold new_events.
  destruct (emits_elim (fun e => is_dispatch_finish e = false) _ w
              (render_debug_emits L ctx mix_ctx params dst_frame src_frames
                                  num_frames lut_)) as (evs & T & F).
  rewrite T, drop_app_length. clear T.
  induction F as [|e evs He _ IH]; [reflexivity|].
  simpl. rewrite He, IH. reflexivity.
Qed.

(** ** What is left allocated *)

Lemma outstanding_app L k t l1 l2 :
  outstanding L k t (l1 ++ l2)
  = outstanding L k t l1 + outstanding L k (t ++ l1) l2.
Proof.
  revert t. induction l1 as [|e l1 IH]; intros t; simpl.
  - rewrite app_nil_r. reflexivity.
  - rewrite IH, <- app_assoc. simpl. lia.
Qed.

Lemma grows_refl L w : grows L 0 0 0 0 w w.
Proof. exists []. rewrite app_nil_r. repeat split. Qed.

Lemma grows_trans L d1 v1 c1 f1 d2 v2 c2 f2 w w1 w2 :
  grows L d1 v1 c1 f1 w w1 -> grows L d2 v2 c2 f2 w1 w2 ->
  grows L (d1 + d2) (v1 + v2) (c1 + c2) (f1 + f2) w w2.
Proof.
  intros (e1 & T1 & A1 & B1 & C1 & D1) (e2 & T2 & A2 & B2 & C2 & D2).
  exists (e1 ++ e2). rewrite T2, T1, app_assoc. split; [reflexivity|].
  unfold leaves. rewrite !outstanding_app, <- T1. repeat split; lia.
Qed.

(** A loop keeps what every turn of it keeps. *)
Lemma for_loop_invariant {St R} (I : nat -> world -> Prop) (Q : R -> Prop)
    (body : Z -> St -> M (St + R)) :
  (forall (k : nat) s w,
     I k w ->
     on_return (body (Z.of_nat k) s w)
       (fun r w' => match r with inl _ => I (S k) w' | inr c => Q c end)) ->
  forall fuel (k : nat) s w,
    I k w ->
    on_return (for_loop fuel (Z.of_nat k) body s w)
      (fun r w' =>
         match r with inl _ => I (k + fuel)%nat w' | inr c => Q c end).
Proof.
  intros Hb. induction fuel as [|fuel IH]; intros k s w Hk; simpl.
  - rewrite Nat.add_0_r. exact Hk.
  - apply on_return_bind. specialize (Hb k s w Hk).
    destruct (body (Z.of_nat k) s w) as [[[s'|c]| | |] w1]; simpl in *; auto.
    replace (Z.of_nat k + 1) with (Z.of_nat (S k)) by lia.
    replace (k + S fuel)%nat with (S k + fuel)%nat by lia.
    apply IH. exact Hb.
Qed.

(** A loop of [n] turns, each of which leaves the same blocks allocated. *)
Lemma for_upto_grows {St R} L (d v c f : Z) (Q : R -> Prop)
    (body : Z -> St -> M (St + R)) n s w :
  0 <= n ->
  (forall i s w,
     on_return (body i s w)
       (fun r w' =>
          match r with inl _ => grows L d v c f w w' | inr x => Q x end)) ->
  on_return (for_upto n body s w)
    (fun r w' =>
       match r with
       | inl _ => grows L (d * n) (v * n) (c * n) (f * n) w w'
       | inr x => Q x
       end).
Proof.
  intros Hn Hb. unfold for_upto.
  pose proof (for_loop_invariant
                (fun k w' => grows L (d * Z.of_nat k) (v * Z.of_nat k)
                                   (c * Z.of_nat k) (f * Z.of_nat k) w w')
                Q body) as H.
  specialize (fun Hb' => H Hb' (Z.to_nat n) 0%nat s w).
  cbn [Nat.add] in H. rewrite Z2Nat.id in H by exact Hn.
  apply H.
  - intros k s0 w0 Hk. specialize (Hb (Z.of_nat k) s0 w0).
    destruct (body (Z.of_nat k) s0 w0) as [[[s'|x]| | |] w1]; simpl in *; auto.
    pose proof (grows_trans _ _ _ _ _ _ _ _ _ _ _ _ Hk Hb) as G.
    replace (d * Z.of_nat (S k)) with (d * Z.of_nat k + d) by lia.
    replace (v * Z.of_nat (S k)) with (v * Z.of_nat k + v) by lia.
    replace (c * Z.of_nat (S k)) with (c * Z.of_nat k + c) by lia.
    replace (f * Z.of_nat (S k)) with (f * Z.of_nat k + f) by lia.
    exact G.
  - simpl. rewrite !Z.mul_0_r. apply grows_refl.
Qed.

(** The calls of one turn of a loop, counted. *)
Ltac grown :=
  eexists; split;
  [ simpl; rewrite <- ?app_assoc; reflexivity
  | unfold leaves; simpl; known_nulls; repeat split; reflexivity ].

Lemma build_descs_grows (L : oracle) src_frames n w :
  0 <= n ->
  on_return (build_descs L src_frames n w)
    (fun r w' =>
       match r with
       | inl _ => grows L 0 0 n 0 w w'
       | inr code => code <> 0
       end).
Proof.
  intros Hn. unfold build_descs.
  match goal with
  | |- on_return (for_upto _ ?body ?s _) _ =>
      pose proof (for_upto_grows L 0 0 1 0 (fun code => code <> 0) body n s w
                                 Hn) as H
  end.
  rewrite !Z.mul_0_l, Z.mul_1_l in H. apply H. clear H.
  intros i s w0.
  unfold on_return, src_frame_at, fprintf_stderr, call, call_void, fault,
    ret, bind.
  exec; auto; try discriminate. grown.
Qed.

Lemma build_attribs_grows (L : oracle) ctx params n w :
  0 <= n ->
  on_return (build_attribs L ctx params n w)
    (fun r w' =>
       match r with
       | inl _ => grows L 0 0 n n w w'
       | inr code => code <> 0
       end).
Proof.
  intros Hn. unfold build_attribs.
  match goal with
  | |- on_return (for_upto _ ?body ?s _) _ =>
      pose proof (for_upto_grows L 0 0 1 1 (fun code => code <> 0) body n s w
                                 Hn) as H
  end.
  rewrite !Z.mul_0_l, !Z.mul_1_l in H. apply H. clear H.
  intros i s w0.
  unfold on_return, ctx_gpu, member, load_gpu, fprintf_stderr, call,
    call_void, fault, ret, bind.
  exec; auto; try discriminate. grown.
Qed.

Lemma free_names_grows L names n w :
  0 <= n ->
  on_return (free_names names n w) (fun _ w' => grows L 0 0 (- n) 0 w w').
Proof.
  intros Hn. unfold free_names.
  eapply on_return_bind_post.
  - match goal with
    | |- on_return (for_upto _ ?body ?s _) _ =>
        pose proof (for_upto_grows L 0 0 (-1) 0 (fun _ => True) body n s w Hn)
          as H
    end.
    rewrite !Z.mul_0_l in H. apply H. clear H.
    intros i s w0. unfold on_return, call_void, fault, ret, bind.
    exec; auto. grown.
  - intros [s|[]] w1 H. simpl.
    replace (-(1) * n) with (- n) in H by lia. exact H.
Qed.

Lemma diagnostics_leave_nothing L k t evs :
  Forall (fun e => is_diagnostic e = true) evs -> outstanding L k t evs = 0.
Proof.
  intros F. revert t. induction F as [|e evs He _ IH]; intros t;
    [reflexivity|].
  simpl. rewrite IH. destruct e; try discriminate He. reflexivity.
Qed.

Lemma print_shader_res_grows L res w :
  on_return (print_shader_res res w) (fun _ w' => grows L 0 0 0 0 w w').
Proof.
  assert (E : emits (fun e => is_diagnostic e = true) (print_shader_res res))
    by (unfold print_shader_res; emit).
  destruct (emits_elim _ _ w E) as (evs & T & F).
  destruct (print_shader_res res w) as [[a| | |] w']; simpl in *; auto.
  exists evs. split; [exact T|].
  repeat split; apply diagnostics_leave_nothing, F.
Qed.

(** Turns what is known of the loops of a run into what they leave
    allocated. *)
Ltac loops_grow Hn :=
  repeat match goal with
         | H : build_descs ?L ?s ?n ?w = (Ret _, _) |- _ =>
             apply (on_return_elim _ _ _ _ (build_descs_grows L s n w Hn))
               in H
         | H : build_attribs ?L ?c ?p ?n ?w = (Ret _, _) |- _ =>
             apply (on_return_elim _ _ _ _
                      (build_attribs_grows L c p n w Hn)) in H
         | L : oracle, H : free_names ?names ?n ?w = (Ret _, _) |- _ =>
             apply (on_return_elim _ _ _ _ (free_names_grows L names n w Hn))
               in H
         | L : oracle, H : print_shader_res ?r ?w = (Ret _, _) |- _ =>
             apply (on_return_elim _ _ _ _ (print_shader_res_grows L r w))
               in H
         end.

(** Puts together what the parts of a run leave allocated. *)
Ltac chain :=
  unfold grows, leaves in *;
  repeat match goal with
         | H : exists _, _ |- _ =>
             destruct H as (?evs & ?T & ?A & ?B & ?C & ?D)
         end;
  repeat match goal with
         | T : trace ?x = _ |- _ =>
             is_var x; destruct x; cbn [trace] in T;
             match type of T with ?t = _ => subst t end
         end;
  cbn [trace] in *;
  eexists; split; [rewrite <- ?app_assoc; reflexivity|];
  repeat (simpl; rewrite ?outstanding_app; answers; known_nulls);
  repeat match goal with
         | A : outstanding _ _ _ _ = _ |- _ => rewrite A; clear A
         end;
  repeat split; lia.

Lemma render_body_grows (L : oracle) ctx mix params dst src_frames n lut_
    debug w :
  0 <= n ->
  on_return (render_body L ctx mix params dst src_frames n lut_ debug w)
    (fun r w' => r = 0 -> grows L 0 0 0 n w w').
Proof.
  intros Hn.
  unfold on_return, render_body, render_prepare, render_dispatch, when,
    member, update_lut, load_lut, load_mix, fprintf_stderr, bind, call,
    call_void, written, exit, ret, fault.
  exec_named; try exact I; intros R; try discriminate R.
  all: loops_grow Hn.
  all: try contradiction.
  all: chain.
Qed.

(** X23.  When [gfx_lowlevel_gpu_ctx_render] returns 0 it has freed the
    array of descriptors, the array of vertex attributes and every name it
    allocated, but none of the [num_frames] arrays of vertices, one for
    each source frame, that it allocated. *)
Theorem render_leaks_vertices (L : oracle) (ctx mix_ctx : Z)
    (params : gfx_lowlevel_filter_params) (dst_frame : pl_frame)
    (src_frames : list (option pl_frame)) (num_frames lut_ : Z)
    (debug : bool) (w w' : world) :
  0 <= num_frames ->
  gfx_lowlevel_gpu_ctx_render L ctx mix_ctx (Some params) (Some dst_frame)
                              (Some src_frames) num_frames lut_ debug w
  = (Ret 0, w') ->
  leaves L 0 0 0 num_frames (trace w) (drop (length (trace w)) (trace w')).
Proof.
  intros Hn E. unfold gfx_lowlevel_gpu_ctx_render in E.
  destruct (is_null ctx); [discriminate E|].
  destruct (on_return_elim _ _ _ _
              (render_body_grows L ctx mix_ctx params dst_frame src_frames
                                 num_frames lut_ debug w Hn) E eq_refl)
    as (evs & T & H).
  rewrite T, drop_app_length. exact H.
Qed.

Lemma render_leaks_vertices_witness :
  let run :=
    gfx_lowlevel_gpu_ctx_render obliging 1 1 (Some sample_params)
      (Some sample_frame) (Some [Some sample_frame; Some sample_frame])
      2 1 false in
  (0 <= 2 /\ run sample_world = (Ret 0, snd (run sample_world)))
  /\ leaves obliging 0 0 0 2 (trace sample_world)
            (new_events run sample_world)
  /\ List.filter is_vertices (new_events run sample_world)
     = [Malloc K_float 8; Malloc K_float 8].
Proof.
  cbv zeta.
  assert (H : 0 <= 2) by lia.
  assert (E : gfx_lowlevel_gpu_ctx_render obliging 1 1 (Some sample_params)
                (Some sample_frame)
                (Some [Some sample_frame; Some sample_frame]) 2 1 false
                sample_world
              = (Ret 0,
                 snd (gfx_lowlevel_gpu_ctx_render obliging 1 1
                        (Some sample_params) (Some sample_frame)
                        (Some [Some sample_frame; Some sample_frame]) 2 1
                        false sample_world)))
    by (vm_compute; reflexivity).
  split; [exact (conj H E)|].
  split; [|vm_compute; reflexivity].
  exact (render_leaks_vertices obliging 1 1 sample_params sample_frame
           [Some sample_frame; Some sample_frame] 2 1 false sample_world _
           H E).
Defined.

(** ** What [gfx_lowlevel_init_lut] leaves allocated *)

Lemma init_lut_blocks (L : oracle) ctx name w :
  on_return (gfx_lowlevel_init_lut L ctx (Some name) w)
    (fun l w' =>
       lut_blocks L l (trace w) (drop (length (trace w)) (trace w'))).
Proof.
  unfold on_return, lut_blocks, gfx_lowlevel_init_lut,
    gfx_lowlevel_destroy_lut, malloc_at, memset_lut, when, free_lut,
    update_lut, load_lut, load_gpu, fprintf_stderr, bind, call, call_void,
    written, ret, fault.
  exec_named; try exact I.
  all: try match goal with
           | H : is_null (fresh_addr _) = true |- _ =>
               rewrite fresh_null_false in H; discriminate H
           end.
  all: match goal with
       | |- context [drop (length ?t) ?t'] =>
           let evs := fresh "evs" in
           evar (evs : list event);
           replace (drop (length t) t') with evs;
           [|symmetry; subst evs; etransitivity;
             [|apply (drop_app_length t)];
             f_equal; rewrite <- ?app_assoc; reflexivity];
           subst evs
       end.
  all: simpl; answers; known_nulls; rewrite ?fresh_null_false; split;
    reflexivity.
Qed.

(** X24.  [gfx_lowlevel_init_lut] leaks nothing: when it returns NULL,
    whichever step failed, it has freed the structure, the copy of the
    file name and the buffer of the file contents that it had allocated;
    when it returns a LUT, the structure and the copy of the file name are
    what it leaves allocated, the buffer of the file contents being
    freed. *)
Theorem init_lut_allocations (L : oracle) (ctx : Z) (name : string)
    (w w' : world) (l : Z) :
  gfx_lowlevel_init_lut L ctx (Some name) w = (Ret l, w') ->
  lut_blocks L l (trace w) (drop (length (trace w)) (trace w')).
Proof.
  intros E. exact (on_return_elim _ _ _ _ (init_lut_blocks L ctx name w) E).
Qed.

Lemma init_lut_allocations_witness :
  let L := failing_at is_parse NULL in
  let run := gfx_lowlevel_init_lut L 1 (Some "b.cube") in
  run sample_world = (Ret NULL, snd (run sample_world))
  /\ lut_blocks L NULL (trace sample_world) (new_events run sample_world)
  /\ List.filter (fun e => negb (is_diagnostic e) && negb (wrapped e))
                 (new_events run sample_world)
     = [Malloc K_lut 1; Malloc K_char 7; Fopen "b.cube" "r";
        Fseek 1 0 SEEK_END; Ftell 1; Fseek 1 0 SEEK_SET; Malloc K_char 2;
        Fread 1 1 1; Fclose 1; Free_buf K_char; Free_str (Some "b.cube");
        Free_ptr K_lut 2].
Proof.
  cbv zeta.
  assert (E : gfx_lowlevel_init_lut (failing_at is_parse NULL) 1
                (Some "b.cube") sample_world
              = (Ret NULL,
                 snd (gfx_lowlevel_init_lut (failing_at is_parse NULL) 1
                        (Some "b.cube") sample_world)))
    by (vm_compute; reflexivity).
  split; [exact E|].
  split; [|vm_compute; reflexivity].
  exact (init_lut_allocations (failing_at is_parse NULL) 1 "b.cube"
           sample_world _ NULL E).
Defined.
